(** * tcstruct: C-type structures declared through type annotations

    A shallow embedding of [src/tcstruct/__init__.py].  The library is a thin
    layer over CPython's [ctypes]: the metaclass [TCStructMeta] turns the
    annotations of a class body into a [_fields_] list, [ctypes] lays the
    fields out, and [TCStruct.__init__] maps positional arguments to field
    names.  The part of [ctypes] the library drives (simple types and their
    byte-swapped twins, arrays, structure layout, field descriptors,
    [from_buffer_copy], [bytes]) is modelled here after CPython 3.11 on an
    LP64 platform; [sys.byteorder] is a parameter of every definition that
    depends on it. *)

From Stdlib Require Import String Ascii.
From Stdlib Require Import ZArith Bool Lia PeanoNat List.
From Stdlib Require Import Floats.SpecFloat.
From coqutil Require Import Byte Word.LittleEndianList.
Import ListNotations.

Local Open Scope Z_scope.

(** ** Python side: exceptions, values, dictionaries *)

(** The exceptions this code can raise, one constructor per raise site kind. *)
Inductive pyexc : Type :=
| TypeError_multiple_values   (* "got multiple values for argument": the raise of
                                 TCStruct.__init__, and the interpreter's own when a
                                 keyword names the parameter self *)
| TypeError_ctypes            (* a ctypes setter or the structure metaclass rejects an object *)
| TypeError_not_callable      (* a call of an object that is not callable *)
| TypeError_attribute         (* __class__ or __dict__ set to an object of another kind *)
| ValueError_buffer_too_small (* from_buffer_copy: "Buffer size too small" *)
| ValueError_ctypes           (* negative array length, _pack_ outside a C int *)
| OverflowError_ctypes        (* int too large to convert to float, array too large *)
| RuntimeError_ctypes         (* an exception while a tuple initialises an array *)
| AttributeError.             (* attribute lookup finds nothing, or the attribute
                                 is read-only *)

Inductive result (A : Type) : Type :=
| OK (a : A)
| Raise (e : pyexc).
Arguments OK {A} a.
Arguments Raise {A} e.

Definition bind {A B} (r : result A) (k : A -> result B) : result B :=
  match r with
  | OK a => k a
  | Raise e => Raise e
  end.

Notation "x <- r ;; k" := (bind r (fun x => k))
  (at level 61, r at next level, right associativity).

Definition result_map {A B} (f : A -> B) (r : result A) : result B :=
  match r with
  | OK a => OK (f a)
  | Raise e => Raise e
  end.

Inductive byteorder : Type := little | big.

Definition byteorder_eqb (a b : byteorder) : bool :=
  match a, b with
  | little, little | big, big => true
  | _, _ => false
  end.

(** The Python objects given as arguments: [int] (with [bool]), [float],
    [tuple], [str] and [None].  None of them is callable, a class or a
    dictionary, and [str] and [None] have neither [__index__] nor
    [__float__].  A Python [float] is an IEEE-754 binary64 number, kept as a
    [spec_float]. *)
#[warnings="-register-all"]
Inductive pyval : Type :=
| PyInt (z : Z)
| PyFloat (f : spec_float)
| PyTuple (l : list pyval)
| PyStr (s : string)
| PyNone.

(** A [dict] with string keys: insertion-ordered, one entry per key. *)
Definition pydict (V : Type) : Type := list (string * V).

Fixpoint dict_get {V} (d : pydict V) (k : string) : option V :=
  match d with
  | [] => None
  | (k', v) :: d' => if String.eqb k k' then Some v else dict_get d' k
  end.

Fixpoint dict_setitem {V} (d : pydict V) (k : string) (v : V) : pydict V :=
  match d with
  | [] => [(k, v)]
  | (k', v') :: d' =>
      if String.eqb k k' then (k', v) :: d' else (k', v') :: dict_setitem d' k v
  end.

(** [d.update(items)], also [dict(items)] when [d] is empty. *)
Definition dict_update {V} (d : pydict V) (items : list (string * V)) : pydict V :=
  fold_left (fun acc kv => dict_setitem acc (fst kv) (snd kv)) items d.

Definition dict_keys {V} (d : pydict V) : list string := map fst d.

Definition mem_string (k : string) (l : list string) : bool :=
  existsb (String.eqb k) l.

(** [a & b] on key views, kept in the order of [a]. *)
Definition keys_inter (a b : list string) : list string :=
  filter (fun k => mem_string k b) a.

(** [name.startswith('_')] *)
Definition startswith_underscore (s : string) : bool :=
  match s with
  | String c _ => Ascii.eqb c "_"%char
  | EmptyString => false
  end.

(** ** Fixed-width encodings *)

(** [nbytes] bytes of [z mod 2^(8*nbytes)] in the given byte order. *)
Definition int_to_bytes (order : byteorder) (nbytes : nat) (z : Z) : list byte :=
  match order with
  | little => le_split nbytes z
  | big => rev (le_split nbytes z)
  end.

Definition int_from_bytes (order : byteorder) (bs : list byte) : Z :=
  match order with
  | little => le_combine bs
  | big => le_combine (rev bs)
  end.

(** Two's-complement reading of an [nbits]-wide pattern. *)
Definition to_signed (nbits : Z) (u : Z) : Z :=
  if u <? 2 ^ (nbits - 1) then u else u - 2 ^ nbits.

(** IEEE-754 interchange formats: [mw] mantissa bits, [ew] exponent bits. *)
Definition sign_bit (mw ew : Z) (s : bool) : Z :=
  if s then 2 ^ (mw + ew) else 0.

Definition float_emin (mw ew : Z) : Z := 3 - 2 ^ (ew - 1) - (mw + 1).

Definition bits_of_float (mw ew : Z) (f : spec_float) : Z :=
  match f with
  | S754_zero s => sign_bit mw ew s
  | S754_infinity s => sign_bit mw ew s + (2 ^ ew - 1) * 2 ^ mw
  | S754_nan => (2 ^ ew - 1) * 2 ^ mw + 2 ^ (mw - 1)
  | S754_finite s m e =>
      if Z.pos m <? 2 ^ mw
      then sign_bit mw ew s + Z.pos m
      else sign_bit mw ew s + (e - float_emin mw ew + 1) * 2 ^ mw + (Z.pos m - 2 ^ mw)
  end.

Definition float_of_bits (mw ew : Z) (bits : Z) : spec_float :=
  let s := Z.testbit bits (mw + ew) in
  let ex := (bits / 2 ^ mw) mod 2 ^ ew in
  let mx := bits mod 2 ^ mw in
  if ex =? 0 then
    match mx with
    | Z.pos m => S754_finite s m (float_emin mw ew)
    | _ => S754_zero s
    end
  else if ex =? 2 ^ ew - 1 then
    (if mx =? 0 then S754_infinity s else S754_nan)
  else
    match mx + 2 ^ mw with
    | Z.pos m => S754_finite s m (ex + float_emin mw ew - 1)
    | _ => S754_nan
    end.

(** Rounding to nearest-even into a format with [prec] bits of precision. *)
Definition round_float (prec emax : Z) (f : spec_float) : spec_float :=
  match f with
  | S754_finite s m e => binary_round prec emax s m e
  | _ => f
  end.

(** [float(z)] for an [int]: correctly rounded, [OverflowError] when too large. *)
Definition float_of_int (z : Z) : result spec_float :=
  match binary_normalize 53 1024 z 0 false with
  | S754_infinity _ => Raise OverflowError_ctypes
  | f => OK f
  end.

(** ** ctypes: simple types, byte-swapped twins, arrays *)

(** The ctypes classes the library's scalar types point to through [_ctype]. *)
Inductive c_simple : Type :=
| c_uint8 | c_uint16 | c_uint32 | c_uint64
| c_int8 | c_int16 | c_int32 | c_int64
| c_float | c_double.

Definition c_sizeof (c : c_simple) : nat :=
  match c with
  | c_uint8 | c_int8 => 1
  | c_uint16 | c_int16 => 2
  | c_uint32 | c_int32 | c_float => 4
  | c_uint64 | c_int64 | c_double => 8
  end%nat.

Definition c_is_float (c : c_simple) : bool :=
  match c with
  | c_float | c_double => true
  | _ => false
  end.

Definition c_is_signed (c : c_simple) : bool :=
  match c with
  | c_int8 | c_int16 | c_int32 | c_int64 => true
  | _ => false
  end.

(** A ctypes data type.  [CSimple c true] is the twin of [c] that stores its
    value in the byte order opposite to the host's ([c.__ctype_be__] on a
    little-endian host, [c.__ctype_le__] on a big-endian one). *)
Inductive ctype : Type :=
| CSimple (c : c_simple) (swapped : bool)
| CArray (elt : ctype) (len : nat).

(** An object found where a type is expected: a ctypes type or something else. *)
Inductive pytype : Type :=
| TyC (t : ctype)
| TyOther.

Fixpoint sizeof (t : ctype) : nat :=
  match t with
  | CSimple c _ => c_sizeof c
  | CArray elt len => (len * sizeof elt)%nat
  end.

(** Natural alignment: a scalar is aligned to its size, an array to its element. *)
Fixpoint alignment (t : ctype) : nat :=
  match t with
  | CSimple c _ => c_sizeof c
  | CArray elt _ => alignment elt
  end.

(** [PY_SSIZE_T_MAX] *)
Definition ssize_t_max : Z := 2 ^ 63 - 1.

(** [t * n]: the count is converted to a [Py_ssize_t], must not be negative,
    and the array's size in bytes must fit a [Py_ssize_t] too. *)
Definition array_of (t : pytype) (n : Z) : result pytype :=
  match t with
  | TyC t =>
      if (n <? - ssize_t_max - 1) || (ssize_t_max <? n) then Raise OverflowError_ctypes
      else if n <? 0 then Raise ValueError_ctypes
      else if ssize_t_max <? n * Z.of_nat (sizeof t) then Raise OverflowError_ctypes
      else OK (TyC (CArray t (Z.to_nat n)))
  | TyOther => Raise TypeError_ctypes
  end.

(** [ctypes._endian._other_endian]: simple types carry the attribute naming
    their twin (one-byte types name themselves), arrays are rebuilt over the
    twin of their element, anything else that is not a structure is refused. *)
Fixpoint other_endian_ctype (t : ctype) : ctype :=
  match t with
  | CSimple c _ => CSimple c (1 <? c_sizeof c)%nat
  | CArray elt len => CArray (other_endian_ctype elt) len
  end.

Definition _other_endian (t : pytype) : result pytype :=
  match t with
  | TyC t => OK (TyC (other_endian_ctype t))
  | TyOther => Raise TypeError_ctypes
  end.

Definition other_order (o : byteorder) : byteorder :=
  match o with
  | little => big
  | big => little
  end.

(** The SWAP_2/4/8 macros of cfield.c on an [n]-byte pattern. *)
Definition bswap (n : nat) (u : Z) : Z := le_combine (rev (le_split n u)).

(** Setter of a simple type ([B_set], [H_set], [H_set_sw], [f_set], ...): the
    bytes written for [v].  Integer setters take the value modulo the machine
    word and cast it to the field's width; they refuse non-integers.  Float
    setters take the value through [PyFloat_AsDouble]. *)
Definition simple_set (host : byteorder) (c : c_simple) (swapped : bool)
    (v : pyval) : result (list byte) :=
  if c_is_float c then
    f <- match v with
         | PyFloat f => OK f
         | PyInt z => float_of_int z
         | PyTuple _ | PyStr _ | PyNone => Raise TypeError_ctypes
         end ;;
    let bits :=
      match c with
      | c_float => bits_of_float 23 8 (round_float 24 128 f)
      | _ => bits_of_float 52 11 f
      end in
    OK (int_to_bytes (if swapped then other_order host else host) (c_sizeof c) bits)
  else
    match v with
    | PyInt z =>
        let field := z mod 2 ^ (8 * Z.of_nat (c_sizeof c)) in
        OK (int_to_bytes host (c_sizeof c)
              (if swapped then bswap (c_sizeof c) field else field))
    | PyFloat _ | PyTuple _ | PyStr _ | PyNone => Raise TypeError_ctypes
    end.

(** Getter of a simple type, from the field's bytes. *)
Definition simple_get (host : byteorder) (c : c_simple) (swapped : bool)
    (bs : list byte) : pyval :=
  if c_is_float c then
    let bits := int_from_bytes (if swapped then other_order host else host) bs in
    match c with
    | c_float => PyFloat (round_float 53 1024 (float_of_bits 23 8 bits))
    | _ => PyFloat (float_of_bits 52 11 bits)
    end
  else
    let raw := int_from_bytes host bs in
    let u := if swapped then bswap (c_sizeof c) raw else raw in
    PyInt (if c_is_signed c then to_signed (8 * Z.of_nat (c_sizeof c)) u else u).

Definition zeros (n : nat) : list byte := repeat Byte.x00 n.

(** Any exception raised while a tuple initialises an array comes out as a
    [RuntimeError]. *)
Definition as_runtime_error {A} (r : result A) : result A :=
  match r with
  | OK a => OK a
  | Raise _ => Raise RuntimeError_ctypes
  end.

(** Filling a zeroed array of [room] items from a tuple, item by item: an item
    past the end is an [IndexError]. *)
Fixpoint array_fill (set_item : pyval -> result (list byte)) (item_size : nat)
    (items : list pyval) (room : nat) : result (list byte) :=
  match items with
  | [] => OK (zeros (room * item_size))
  | item :: items' =>
      match room with
      | O => Raise RuntimeError_ctypes
      | S room' =>
          bs <- set_item item ;;
          rest <- array_fill set_item item_size items' room' ;;
          OK (bs ++ rest)
      end
  end.

(** [_PyCData_set]: the bytes stored in a field of type [t] for [v].  An array
    field takes a tuple: the array type is called on the tuple's items and the
    resulting array is copied into the field. *)
Fixpoint cdata_set (host : byteorder) (t : ctype) (v : pyval) : result (list byte) :=
  match t with
  | CSimple c swapped => simple_set host c swapped v
  | CArray elt len =>
      match v with
      | PyTuple items =>
          as_runtime_error (array_fill (cdata_set host elt) (sizeof elt) items len)
      | PyInt _ | PyFloat _ | PyStr _ | PyNone => Raise TypeError_ctypes
      end
  end.

(** [count] consecutive chunks of [size] bytes. *)
Fixpoint chunks (size count : nat) (bs : list byte) : list (list byte) :=
  match count with
  | O => []
  | S count' => firstn size bs :: chunks size count' (skipn size bs)
  end.

(** [PyCData_get]: the Python value of a field of type [t] holding [bs]; an
    array is given by the sequence of its items. *)
Fixpoint cdata_get (host : byteorder) (t : ctype) (bs : list byte) : pyval :=
  match t with
  | CSimple c swapped => simple_get host c swapped bs
  | CArray elt len => PyTuple (map (cdata_get host elt) (chunks (sizeof elt) len bs))
  end.

(** ** ctypes: structure classes and their instances *)

(** An entry of a [_fields_] list. *)
Definition field : Type := (string * pytype)%type.

(** The list objects bound to [_fields_] live in a store and are named by
    their position in it: two classes may hold the same list. *)
Definition loc : Type := nat.
Definition heap : Type := list (list field).

Definition deref (h : heap) (l : loc) : list field := nth l h [].

Definition alloc (h : heap) (fs : list field) : heap * loc :=
  (h ++ [fs], length h).

Fixpoint heap_set (h : heap) (l : loc) (fs : list field) : heap :=
  match h, l with
  | [], _ => []
  | _ :: h', O => fs :: h'
  | x :: h', S l' => x :: heap_set h' l' fs
  end.

(** [lst.extend(items)] on the list at [l], in place. *)
Definition list_extend (h : heap) (l : loc) (items : list field) : heap :=
  heap_set h l (deref h l ++ items).

(** The scalar classes of the library and the annotations built from them. *)
Inductive tcstruct_scalar : Type :=
| uint8_t | uint16_t | uint32_t | uint64_t
| sint8_t | sint16_t | sint32_t | sint64_t
| float32_t | float64_t.

Definition int8_t := sint8_t.
Definition int16_t := sint16_t.
Definition int32_t := sint32_t.
Definition int64_t := sint64_t.
Definition float_t := float32_t.
Definition double_t := float64_t.

Definition _bitwidth (c : tcstruct_scalar) : Z :=
  match c with
  | uint8_t | sint8_t => 8
  | uint16_t | sint16_t => 16
  | uint32_t | sint32_t | float32_t => 32
  | uint64_t | sint64_t | float64_t => 64
  end.

Definition _signed (c : tcstruct_scalar) : bool :=
  match c with
  | uint8_t | uint16_t | uint32_t | uint64_t => false
  | _ => true
  end.

Definition _ctype (c : tcstruct_scalar) : c_simple :=
  match c with
  | uint8_t => c_uint8 | uint16_t => c_uint16
  | uint32_t => c_uint32 | uint64_t => c_uint64
  | sint8_t => c_int8 | sint16_t => c_int16
  | sint32_t => c_int32 | sint64_t => c_int64
  | float32_t => c_float | float64_t => c_double
  end.

Inductive annotation : Type :=
| AScalar (c : tcstruct_scalar)           (* uint16_t *)
| AItem (c : tcstruct_scalar) (item : Z)  (* uint8_t[4]: a subclass with _array = 4 *)
| AArray (arg : annotation)               (* Array[arg]: __args__ = (arg,) *)
| AOther.                                 (* an object with neither __args__ nor _ctype *)

(** The entries of a class body (the [attrs] given to a metaclass, later the
    class's own [__dict__]) that the library or ctypes looks at. *)
Record namespace : Type := {
  ns_annotations : option (list (string * annotation));
  ns_fields : option loc;
  ns_byteorder : option (option byteorder);
  ns_pack : option Z;
  ns_swappedbytes : bool
}.

(** A field descriptor installed on a structure class. *)
Record CField : Type := { f_offset : nat; f_type : ctype }.

(** A structure class: [ctypes.Structure] or a class derived from a structure
    class, with its own dictionary, the descriptors ctypes installed for its
    own [_fields_], and the size and alignment ctypes computed. *)
Inductive pyclass : Type :=
| Structure
| Class (base : pyclass) (dict : namespace) (descr : list (string * CField))
    (size align : nat).

Definition class_size (c : pyclass) : nat :=
  match c with
  | Structure => 0
  | Class _ _ _ size _ => size
  end.

Definition class_align (c : pyclass) : nat :=
  match c with
  | Structure => 0
  | Class _ _ _ _ align => align
  end.

(** Attribute lookup along the method resolution order. *)
Fixpoint class_fields_ref (c : pyclass) : option loc :=
  match c with
  | Structure => None
  | Class base dict _ _ _ =>
      match ns_fields dict with
      | Some l => Some l
      | None => class_fields_ref base
      end
  end.

Fixpoint class_byteorder (c : pyclass) : option (option byteorder) :=
  match c with
  | Structure => None
  | Class base dict _ _ _ =>
      match ns_byteorder dict with
      | Some bo => Some bo
      | None => class_byteorder base
      end
  end.

Fixpoint class_pack (c : pyclass) : option Z :=
  match c with
  | Structure => None
  | Class base dict _ _ _ =>
      match ns_pack dict with
      | Some p => Some p
      | None => class_pack base
      end
  end.

(** [c._fields_] *)
Definition class_fields (h : heap) (c : pyclass) : result (list field) :=
  match class_fields_ref c with
  | Some l => OK (deref h l)
  | None => Raise AttributeError
  end.

(** Every descriptor reachable from [c], most-derived class last and within a
    class in [_fields_] order; the descriptor a name resolves to is the last
    one of that name (a subclass shadows its bases, a later [setattr] on the
    class replaces an earlier one). *)
Fixpoint all_descr (c : pyclass) : list (string * CField) :=
  match c with
  | Structure => []
  | Class base _ descr _ _ => all_descr base ++ descr
  end.

Definition find_descr (c : pyclass) (name : string) : option CField :=
  dict_get (rev (all_descr c)) name.

(** [name] resolves to a field descriptor of [cls]. *)
Definition is_descriptor (cls : pyclass) (name : string) : bool :=
  match find_descr cls name with
  | Some _ => true
  | None => false
  end.

(** [PyCField_FromDesc] over a [_fields_] list, without bit fields: each field
    goes to the next offset that satisfies its alignment, capped by [_pack_]
    when that is set and non-zero.  Offsets are natural numbers: ctypes adds
    them up in a [Py_ssize_t] without a check, so a layout of more than
    [ssize_t_max] bytes is outside this model. *)
Fixpoint layout_fields (pack : nat) (fs : list field) (offset total_align : nat)
    : result (list (string * CField) * nat * nat) :=
  match fs with
  | [] => OK ([], offset, total_align)
  | (name, TyOther) :: _ => Raise TypeError_ctypes
  | (name, TyC t) :: fs' =>
      let align :=
        if (pack =? 0)%nat then alignment t else Nat.min pack (alignment t) in
      let offset :=
        if ((align =? 0) || (offset mod align =? 0))%nat then offset
        else (offset + (align - offset mod align))%nat in
      r <- layout_fields pack fs' (offset + sizeof t)%nat (Nat.max align total_align) ;;
      let '(ds, size, total_align') := r in
      OK ((name, {| f_offset := offset; f_type := t |}) :: ds, size, total_align')
  end.

(** [INT_MAX] *)
Definition int_max : Z := 2 ^ 31 - 1.

(** [type(ctypes.Structure).__new__]: a class body without [_fields_] clones
    the layout of its base; one with [_fields_] appends those fields to the
    base's layout. [_pack_] is looked up on the new class, so it is inherited;
    it is read as a C [int] and must not be negative. *)
Definition StructType_new (h : heap) (base : pyclass) (attrs : namespace)
    : result pyclass :=
  match ns_fields attrs with
  | None => OK (Class base attrs [] (class_size base) (class_align base))
  | Some l =>
      pack <- match (match ns_pack attrs with
                     | Some p => Some p
                     | None => class_pack base
                     end) with
              | None => OK 0%nat
              | Some p =>
                  if (p <? 0) || (int_max <? p) then Raise ValueError_ctypes
                  else OK (Z.to_nat p)
              end ;;
      r <- layout_fields pack (deref h l) (class_size base)
             (if (class_align base =? 0)%nat then 1%nat else class_align base) ;;
      let '(ds, size, total_align) := r in
      OK (Class base attrs ds
            (((size + total_align - 1) / total_align) * total_align)%nat total_align)
  end.

Record instance : Type := {
  ob_type : pyclass;
  b_ptr : list byte;            (* the C buffer *)
  ob_dict : pydict pyval        (* ordinary instance attributes *)
}.

Definition read_at (off n : nat) (buf : list byte) : list byte :=
  firstn n (skipn off buf).

Definition write_at (off : nat) (bs buf : list byte) : list byte :=
  firstn off buf ++ bs ++ skipn (off + length bs) buf.

(** [cls.__new__(cls)]: a zeroed buffer of the class's size (the allocation
    is taken to succeed). *)
Definition new_instance (cls : pyclass) : instance :=
  {| ob_type := cls; b_ptr := zeros (class_size cls); ob_dict := [] |}.

(** The data descriptors every instance inherits from [_CData], [object] and
    [TCStruct]: the members [_objects], [_b_base_] and [_b_needsfree_] and the
    slot [__weakref__] cannot be assigned; [__class__] wants a class and
    [__dict__] a dictionary, which no [pyval] is. *)
Definition readonly_attribute (name : string) : bool :=
  mem_string name ["_objects"; "_b_base_"; "_b_needsfree_"; "__weakref__"]%string.

Definition typed_attribute (name : string) : bool :=
  mem_string name ["__class__"; "__dict__"]%string.

(** A name [setattr] refuses on an object whose class has no field of that
    name. *)
Definition reserved_attribute (name : string) : bool :=
  readonly_attribute name || typed_attribute name.

(** [setattr(self, name, v)]: through the field descriptor when [name]
    resolves to one (the classes that carry fields come first in the method
    resolution order), through an inherited data descriptor when [name] is
    one of those, into the instance dictionary otherwise. *)
Definition setattr (host : byteorder) (self : instance) (name : string) (v : pyval)
    : result instance :=
  match find_descr (ob_type self) name with
  | Some fd =>
      bs <- cdata_set host (f_type fd) v ;;
      OK {| ob_type := ob_type self;
            b_ptr := write_at (f_offset fd) bs (b_ptr self);
            ob_dict := ob_dict self |}
  | None =>
      if readonly_attribute name then Raise AttributeError
      else if typed_attribute name then Raise TypeError_attribute
      else
        OK {| ob_type := ob_type self;
              b_ptr := b_ptr self;
              ob_dict := dict_setitem (ob_dict self) name v |}
  end.

(** [getattr(self, name)] for a name that is a field or an entry of the
    instance dictionary. *)
Definition getattr (host : byteorder) (self : instance) (name : string)
    : result pyval :=
  match find_descr (ob_type self) name with
  | Some fd =>
      OK (cdata_get host (f_type fd)
            (read_at (f_offset fd) (sizeof (f_type fd)) (b_ptr self)))
  | None =>
      match dict_get (ob_dict self) name with
      | Some v => OK v
      | None => Raise AttributeError
      end
  end.

(** [ctypes.Structure.__init__(self, **kwds)]: one [setattr] per keyword, in
    dictionary order. *)
Fixpoint Struct_init (host : byteorder) (self : instance) (kwds : pydict pyval)
    : result instance :=
  match kwds with
  | [] => OK self
  | (name, v) :: kwds' =>
      self' <- setattr host self name v ;;
      Struct_init host self' kwds'
  end.

(** [cls.from_buffer_copy(data)] *)
Definition from_buffer_copy (cls : pyclass) (data : list byte) : result instance :=
  if (length data <? class_size cls)%nat then Raise ValueError_buffer_too_small
  else OK {| ob_type := cls; b_ptr := firstn (class_size cls) data; ob_dict := [] |}.

(** [bytes(self)] *)
Definition bytes_of (self : instance) : list byte := b_ptr self.

(** ** The library: [gettype], [TCStructMeta], [TCStruct] *)

(** [_gettype(x)]: unwrap one [Array[...]], then an indexed scalar class gives
    [x._ctype * x._array], a scalar class gives [x._ctype], and any other
    object is returned as it is. *)
Definition _gettype (x : annotation) : result pytype :=
  let x := match x with
           | AArray arg => arg
           | _ => x
           end in
  match x with
  | AItem c item => array_of (TyC (CSimple (_ctype c) false)) item
  | AScalar c => OK (TyC (CSimple (_ctype c) false))
  | _ => OK TyOther
  end.

Definition gettype (x : annotation) (swap : bool) : result pytype :=
  if swap then t <- _gettype x ;; _other_endian t
  else _gettype x.

(** [[(aname, gettype(atype, swap)) for aname, atype in annotations.items()
      if not aname.startswith('_')]] *)
Fixpoint annotated_fields (swap : bool) (annotations : list (string * annotation))
    : result (list field) :=
  match annotations with
  | [] => OK []
  | (aname, atype) :: rest =>
      if startswith_underscore aname then annotated_fields swap rest
      else
        t <- gettype atype swap ;;
        fs <- annotated_fields swap rest ;;
        OK ((aname, t) :: fs)
  end.

Definition with_fields (attrs : namespace) (l : loc) : namespace :=
  {| ns_annotations := ns_annotations attrs;
     ns_fields := Some l;
     ns_byteorder := ns_byteorder attrs;
     ns_pack := ns_pack attrs;
     ns_swappedbytes := ns_swappedbytes attrs |}.

(** The byte order a class body declares or inherits: its own [_byteorder]
    entry, else the [_byteorder] of the first class of the base's MRO that
    derives from [TCStruct] and has one, else [None]. *)
Definition declared_byteorder (base : pyclass) (attrs : namespace) : option byteorder :=
  match ns_byteorder attrs with
  | Some bo => bo
  | None =>
      match class_byteorder base with
      | Some bo => bo
      | None => None
      end
  end.

(** [swap = byteorder is not None and sys.byteorder != byteorder] *)
Definition needs_swap (host : byteorder) (declared : option byteorder) : bool :=
  match declared with
  | Some bo => negb (byteorder_eqb host bo)
  | None => false
  end.

(** [TCStructMeta.__new__(cls, name, bases, attrs)] for a single base (the
    [print] at its head is left out).  The store is threaded through: the call
    may allocate the list that becomes [_fields_] and extends that list in
    place; the store it leaves behind is returned also when the call raises. *)
Definition TCStructMeta_new (host : byteorder) (h : heap) (base : pyclass)
    (attrs : namespace) : heap * result pyclass :=
  match ns_annotations attrs with
  | None => (h, StructType_new h base attrs)
  | Some annotations =>
      let fields_base : list field :=
        match ns_fields attrs with
        | None =>
            match class_fields_ref base with
            | Some l => deref h l        (* list(b._fields_): a copy *)
            | None => []
            end
        | Some _ => []
        end in
      let swap := needs_swap host (declared_byteorder base attrs) in
      let '(h1, fields) :=               (* attrs.setdefault('_fields_', fields_base) *)
        match ns_fields attrs with
        | Some l => (h, l)
        | None => alloc h fields_base
        end in
      match annotated_fields swap annotations with
      | Raise e => (h1, Raise e)
      | OK new =>
          let h2 := list_extend h1 fields new in
          (h2, StructType_new h2 base (with_fields attrs fields))
      end
  end.

(** [TCStruct.__init__(self, *args, **kwargs)].  The object is bound to the
    parameter [self], so a keyword of that name is a second value for it and
    the call raises before the body runs.  [Structure.__init__] is a slot of
    the C type and takes any keyword. *)
Definition TCStruct_init (host : byteorder) (h : heap) (self : instance)
    (args : list pyval) (kwargs : pydict pyval) : result instance :=
  if mem_string "self" (dict_keys kwargs) then Raise TypeError_multiple_values
  else
    fields <- class_fields h (ob_type self) ;;
    let kwargs_new := dict_update [] (combine (map fst fields) args) in
    let overlap := keys_inter (dict_keys kwargs) (dict_keys kwargs_new) in
    match overlap with
    | _ :: _ => Raise TypeError_multiple_values
    | [] => Struct_init host self (dict_update kwargs_new kwargs)
    end.

(** Calling the class with positional and keyword arguments: no object is
    returned when [__init__] raises. *)
Definition construct (host : byteorder) (h : heap) (cls : pyclass)
    (args : list pyval) (kwargs : pydict pyval) : result instance :=
  TCStruct_init host h (new_instance cls) args kwargs.

(** [cls.from_bytes(data)]: the name [from_bytes] is looked up on the class,
    and so is [from_buffer_copy] in the body of the method; a field of either
    name is found first, and a field descriptor is not callable.  The
    [byteorder] parameter is ignored. *)
Definition from_bytes (cls : pyclass) (data : list byte) : result instance :=
  if is_descriptor cls "from_bytes" then Raise TypeError_not_callable
  else if is_descriptor cls "from_buffer_copy" then Raise TypeError_not_callable
  else from_buffer_copy cls data.

(** The function [TCStruct.to_bytes] applied to an object, as in
    [TCStruct.to_bytes(obj)]: the object's buffer.  The [byteorder] parameter
    is ignored. *)
Definition to_bytes (self : instance) : list byte := bytes_of self.

(** The method call [self.to_bytes()]: the name is looked up on the object,
    where a field or an entry of the instance dictionary called [to_bytes]
    comes before the method; what is found then is a number, a tuple, a
    string or [None], and the call raises. *)
Definition call_to_bytes (self : instance) : result (list byte) :=
  if is_descriptor (ob_type self) "to_bytes" then Raise TypeError_not_callable
  else
    match dict_get (ob_dict self) "to_bytes" with
    | Some _ => Raise TypeError_not_callable
    | None => OK (to_bytes self)
    end.

(** The classes the module defines when it is imported.  The body of
    [TCStruct] carries one annotation, [__bytes__], which the metaclass skips
    for its leading underscore, so [TCStruct._fields_] is an empty list, the
    first object of the store. *)
Definition TCStruct_body : namespace :=
  {| ns_annotations := Some [("__bytes__"%string, AOther)];
     ns_fields := None;
     ns_byteorder := Some None;
     ns_pack := None;
     ns_swappedbytes := false |}.

Definition endian_body (host order : byteorder) : namespace :=
  {| ns_annotations := None;
     ns_fields := None;
     ns_byteorder := Some (Some order);
     ns_pack := None;
     ns_swappedbytes := negb (byteorder_eqb host order) |}.

Definition module_heap : heap := [[]].

Definition TCStruct : pyclass :=
  Class Structure (with_fields TCStruct_body 0%nat) [] 0 1.

Definition LittleEndianStruct (host : byteorder) : pyclass :=
  Class TCStruct (endian_body host little) [] 0 1.

Definition BigEndianStruct (host : byteorder) : pyclass :=
  Class TCStruct (endian_body host big) [] 0 1.


(** What a user's class statement usually declares: annotated fields,
    possibly a [_byteorder] and a [_pack_].  A body without annotations has no
    [__annotations__] entry.  A body that binds [_fields_] itself, or that
    writes [_byteorder = None], is a [namespace] not of this form; the
    properties of such bodies are stated over [namespace]. *)
Record declaration : Type := {
  own_annotations : list (string * annotation);
  own_byteorder : option byteorder;
  own_pack : option Z
}.

Definition class_body (d : declaration) : namespace :=
  {| ns_annotations := match own_annotations d with
                       | [] => None
                       | _ => Some (own_annotations d)
                       end;
     ns_fields := None;
     ns_byteorder := match own_byteorder d with
                     | Some o => Some (Some o)
                     | None => None
                     end;
     ns_pack := own_pack d;
     ns_swappedbytes := false |}.

Definition fields_only (annotations : list (string * annotation)) : declaration :=
  {| own_annotations := annotations; own_byteorder := None; own_pack := None |}.


(** The class a definition produced ([Structure] stands in when it raised). *)
Definition defined_class (r : heap * result pyclass) : pyclass :=
  match snd r with
  | OK c => c
  | Raise _ => Structure
  end.

Definition endian_struct (host order : byteorder) : pyclass :=
  match order with
  | little => LittleEndianStruct host
  | big => BigEndianStruct host
  end.

(** The structure of the test suite: [magicnumber: uint32_t],
    [version: Array[uint8_t[4]]], [value: uint16_t], [fvalue: float32_t],
    [dvalue: float64_t], declared under either byte order, with or without
    [_pack_ = 1]. *)
Definition MyStruct_annotations : list (string * annotation) :=
  [("magicnumber", AScalar uint32_t);
   ("version", AArray (AItem uint8_t 4));
   ("value", AScalar uint16_t);
   ("fvalue", AScalar float32_t);
   ("dvalue", AScalar float64_t)]%string.

Definition MyStruct_definition (host order : byteorder) : heap * result pyclass :=
  TCStructMeta_new host module_heap (endian_struct host order)
    (class_body (fields_only MyStruct_annotations)).

Definition MyStruct (host order : byteorder) : pyclass :=
  defined_class (MyStruct_definition host order).

Definition MyStruct_heap (host order : byteorder) : heap :=
  fst (MyStruct_definition host order).



Definition py_1_0 : pyval := PyFloat (S754_finite false 4503599627370496 (-52)).
Definition py_2_0 : pyval := PyFloat (S754_finite false 4503599627370496 (-51)).

Definition MyStruct_args : list pyval :=
  [PyInt 3735928559 (* 0xDEADBEEF *);
   PyTuple [PyInt 1; PyInt 2; PyInt 3; PyInt 4000];
   PyInt (-2); py_1_0; py_2_0].

(** The structures of [test_derivation]: [common1], [common2] in the base,
    [special1] in the class derived from it. *)
Definition MyBaseStruct_definition (host : byteorder) : heap * result pyclass :=
  TCStructMeta_new host module_heap (LittleEndianStruct host)
    (class_body (fields_only [("common1", AScalar uint32_t);
                              ("common2", AScalar uint32_t)]%string)).

Definition MyBaseStruct (host : byteorder) : pyclass :=
  defined_class (MyBaseStruct_definition host).

Definition MyBaseStruct_heap (host : byteorder) : heap :=
  fst (MyBaseStruct_definition host).

Definition MyDerivedStruct_definition (host : byteorder) : heap * result pyclass :=
  TCStructMeta_new host (MyBaseStruct_heap host) (MyBaseStruct host)
    (class_body (fields_only [("special1", AScalar uint32_t)]%string)).

Definition MyDerivedStruct (host : byteorder) : pyclass :=
  defined_class (MyDerivedStruct_definition host).

Definition MyDerivedStruct_heap (host : byteorder) : heap :=
  fst (MyDerivedStruct_definition host).

(** A structure with the single field [value] of a scalar type, as in
    [test_endian]. *)
Definition ValueStruct_definition (host order : byteorder) (c : tcstruct_scalar)
    : heap * result pyclass :=
  TCStructMeta_new host module_heap (endian_struct host order)
    (class_body (fields_only [("value", AScalar c)]%string)).

Definition ValueStruct (host order : byteorder) (c : tcstruct_scalar) : pyclass :=
  defined_class (ValueStruct_definition host order c).

Definition ValueStruct_heap (host order : byteorder) (c : tcstruct_scalar) : heap :=
  fst (ValueStruct_definition host order c).

(** A little-endian structure with the single field [name] of type [uint8_t]. *)
Definition ByteStruct_definition (host : byteorder) (name : string)
    : heap * result pyclass :=
  TCStructMeta_new host module_heap (LittleEndianStruct host)
    (class_body (fields_only [(name, AScalar uint8_t)])).

Definition ByteStruct (host : byteorder) (name : string) : pyclass :=
  defined_class (ByteStruct_definition host name).

Definition ByteStruct_heap (host : byteorder) (name : string) : heap :=
  fst (ByteStruct_definition host name).

(** [0x1122334455667788 & ((1 << ctype._bitwidth) - 1)] *)
Definition testvalue (c : tcstruct_scalar) : Z :=
  Z.land 1234605616436508552 (Z.shiftl 1 (_bitwidth c) - 1).

(** ** Vocabulary of the statements *)

(** The bytes of the buffer a field descriptor covers. *)
Definition slot (fd : CField) (buf : list byte) : list byte :=
  read_at (f_offset fd) (sizeof (f_type fd)) buf.

(** The descriptors of [ds] follow one another without overlap between the
    offsets [lo] and [hi]. *)
Fixpoint descr_chain (lo : nat) (ds : list (string * CField)) (hi : nat) : Prop :=
  match ds with
  | [] => (lo <= hi)%nat
  | (_, fd) :: ds' =>
      (lo <= f_offset fd)%nat /\
      descr_chain (f_offset fd + sizeof (f_type fd)) ds' hi
  end.

(** Two descriptors that share no byte. *)
Definition disjoint (fd1 fd2 : CField) : Prop :=
  (f_offset fd1 + sizeof (f_type fd1) <= f_offset fd2)%nat \/
  (f_offset fd2 + sizeof (f_type fd2) <= f_offset fd1)%nat.

(** The [_fields_] entry a descriptor was made from. *)
Definition descr_field (d : string * CField) : field :=
  (fst d, TyC (f_type (snd d))).

(** A class whose descriptors, inherited ones first, tile its buffer in order. *)
Definition layout_ok (c : pyclass) : Prop :=
  descr_chain 0 (all_descr c) (class_size c).



(** The descriptors of [ds] follow one another without any gap from [lo]
    to [hi]. *)
Fixpoint contiguous (lo : nat) (ds : list (string * CField)) (hi : nat) : Prop :=
  match ds with
  | [] => lo = hi
  | (_, fd) :: ds' =>
      f_offset fd = lo /\ contiguous (lo + sizeof (f_type fd)) ds' hi
  end.




(** A [_fields_] entry whose second item is a ctypes type. *)
Definition is_ctype (f : field) : Prop :=
  match snd f with
  | TyC _ => True
  | TyOther => False
  end.

(** The field names of a class are public: none begins with an underscore.
    Fields declared through annotations always are, since the metaclass
    skips the other annotations; among the names with a leading underscore
    are those the interpreter and ctypes look up on a class themselves
    ([__init__], [__bytes__], [_pack_], ...). *)
Definition public_fields (c : pyclass) : bool :=
  forallb (fun d => negb (startswith_underscore (fst d))) (all_descr c).

(** The values of the integer type [c]. *)
Definition c_in_range (c : c_simple) (v : Z) : Prop :=
  if c_is_signed c
  then - 2 ^ (8 * Z.of_nat (c_sizeof c) - 1) <= v < 2 ^ (8 * Z.of_nat (c_sizeof c) - 1)
  else 0 <= v < 2 ^ (8 * Z.of_nat (c_sizeof c)).

(** [v] is [z] after two's-complement wraparound to the width of [c]: the
    one value of the type that differs from [z] by a multiple of [2^width]. *)
Definition wraps_to (c : c_simple) (z v : Z) : Prop :=
  c_in_range c v /\ exists k, v = z + k * 2 ^ (8 * Z.of_nat (c_sizeof c)).

(** The byte order a simple field is stored in. *)
Definition stored_order (host : byteorder) (swapped : bool) : byteorder :=
  if swapped then other_order host else host.

(** Two's-complement reduction of [z] to the width of the integer type [c]. *)
Definition wrap (c : c_simple) (z : Z) : Z :=
  let nbits := 8 * Z.of_nat (c_sizeof c) in
  if c_is_signed c then to_signed nbits (z mod 2 ^ nbits) else z mod 2 ^ nbits.

(** The annotation-derived entries the metaclass appends to [_fields_]. *)
Definition public_annotations (annotations : list (string * annotation))
    : list (string * annotation) :=
  filter (fun a => negb (startswith_underscore (fst a))) annotations.

(** The dictionary [TCStruct.__init__] hands to [Structure.__init__]. *)
Definition merged_kwargs (fields : list field) (args : list pyval)
    (kwargs : pydict pyval) : pydict pyval :=
  dict_update (dict_update [] (combine (map fst fields) args)) kwargs.

(** ** The scalar classes as value types

    [tcstruct_int] derives from [int] and [tcstruct_float] from [float]: an
    instance is the number it was made from, not reduced to the class's
    width, and it may carry its own [_byteorder] once [with_byteorder] has
    set it. *)

(** The exceptions of [int.to_bytes] and [struct.pack]. *)
Inductive scalar_exc : Type :=
| OverflowError_int      (* int.to_bytes: the value does not fit *)
| ValueError_length      (* int.to_bytes: negative length *)
| struct_error           (* struct.pack: wrong kind of argument or out of range *)
| OverflowError_float.   (* struct.pack: float too large for 'f' in a standard mode *)

Inductive outcome (A : Type) : Type :=
| Returns (a : A)
| Raises (e : scalar_exc).
Arguments Returns {A} a.
Arguments Raises {A} e.

(** The [_char] attribute: the [struct] format code of a scalar class. *)
Definition _char (c : tcstruct_scalar) : ascii :=
  match c with
  | uint8_t => "B" | uint16_t => "H" | uint32_t => "I" | uint64_t => "Q"
  | sint8_t => "b" | sint16_t => "h" | sint32_t => "i" | sint64_t => "q"
  | float32_t => "f" | float64_t => "d"
  end%char.

Record tcstruct_int : Type := {
  int_type : tcstruct_scalar;         (* one of the integer classes *)
  int_value : Z;
  int_dict_byteorder : option byteorder   (* [_byteorder] in the instance's dict *)
}.

Record tcstruct_float : Type := {
  float_type : tcstruct_scalar;       (* [float32_t] or [float64_t] *)
  float_value : spec_float;
  float_dict_byteorder : option byteorder
}.

(** [self._byteorder]: the instance's entry, else the class attribute, which
    is ["big"] on [tcstruct_int] and [None] on [tcstruct_type]. *)
Definition int_byteorder (self : tcstruct_int) : byteorder :=
  match int_dict_byteorder self with
  | Some o => o
  | None => big
  end.

Definition float_byteorder (self : tcstruct_float) : option byteorder :=
  match float_dict_byteorder self with
  | Some o => Some o
  | None => None
  end.

(** [cls(value)] for an integer class and an [int], a float class and a
    [float]. *)
Definition new_int (cls : tcstruct_scalar) (value : Z) : tcstruct_int :=
  {| int_type := cls; int_value := value; int_dict_byteorder := None |}.

Definition new_float (cls : tcstruct_scalar) (value : spec_float) : tcstruct_float :=
  {| float_type := cls; float_value := value; float_dict_byteorder := None |}.

(** [cls.with_byteorder(value, byteorder)] *)
Definition int_with_byteorder (cls : tcstruct_scalar) (value : Z) (byteorder : byteorder)
    : tcstruct_int :=
  let self := new_int cls value in
  {| int_type := int_type self; int_value := int_value self;
     int_dict_byteorder := Some byteorder |}.

Definition float_with_byteorder (cls : tcstruct_scalar) (value : spec_float)
    (byteorder : byteorder) : tcstruct_float :=
  let self := new_float cls value in
  {| float_type := float_type self; float_value := float_value self;
     float_dict_byteorder := Some byteorder |}.

(** [int.to_bytes(z, length, byteorder, signed=signed)]: the value must fit;
    with [length = 0] only 0 fits, and -1 when signed. *)
Definition int_to_bytes_py (z length : Z) (order : byteorder) (signed : bool)
    : outcome (list byte) :=
  if length <? 0 then Raises ValueError_length
  else
    let fits :=
      if signed then
        if length =? 0 then (z =? 0) || (z =? -1)
        else (- 2 ^ (8 * length - 1) <=? z) && (z <? 2 ^ (8 * length - 1))
      else (0 <=? z) && (z <? 2 ^ (8 * length)) in
    if fits then Returns (int_to_bytes order (Z.to_nat length) z)
    else Raises OverflowError_int.

(** [int.from_bytes(bs, byteorder, signed=signed)] *)
Definition int_from_bytes_py (bs : list byte) (order : byteorder) (signed : bool) : Z :=
  let u := int_from_bytes order bs in
  if signed then
    if (length bs =? 0)%nat then 0 else to_signed (8 * Z.of_nat (length bs)) u
  else u.

(** [tcstruct_int.to_bytes(self, length=None, byteorder=None, *, signed=None)] *)
Definition tcstruct_int_to_bytes (self : tcstruct_int) (length : option Z)
    (byteorder : option byteorder) (signed : option bool) : outcome (list byte) :=
  let length := match length with
                | Some l => l
                | None => _bitwidth (int_type self) / 8
                end in
  let signed := match signed with
                | Some s => s
                | None => _signed (int_type self)
                end in
  let byteorder := match byteorder with
                   | Some o => o
                   | None => int_byteorder self
                   end in
  int_to_bytes_py (int_value self) length byteorder signed.

(** [tcstruct_int.__bytes__] *)
Definition tcstruct_int_bytes (self : tcstruct_int) : outcome (list byte) :=
  tcstruct_int_to_bytes self None None None.

(** [struct.pack(prefix + code, v)] for one item: [prefix] is [None] for the
    native mode (host order), else the standard mode of that order.  Integer
    codes want an [int] within the code's range; the float codes convert
    their argument to a double, and ['f'] in a standard mode refuses a finite
    value that rounds to infinity. *)
Definition struct_pack (host : byteorder) (prefix : option byteorder) (code : ascii)
    (v : pyval) : outcome (list byte) :=
  let order := match prefix with
               | Some o => o
               | None => host
               end in
  let pack_int (nbytes : nat) (signed : bool) :=
    match v with
    | PyInt z =>
        let nbits := 8 * Z.of_nat nbytes in
        if (if signed then (- 2 ^ (nbits - 1) <=? z) && (z <? 2 ^ (nbits - 1))
            else (0 <=? z) && (z <? 2 ^ nbits))
        then Returns (int_to_bytes order nbytes z)
        else Raises struct_error
    | _ => Raises struct_error
    end in
  let as_double :=
    match v with
    | PyFloat f => Some f
    | PyInt z => match float_of_int z with
                 | OK f => Some f
                 | Raise _ => None
                 end
    | _ => None
    end in
  if Ascii.eqb code "B" then pack_int 1%nat false
  else if Ascii.eqb code "H" then pack_int 2%nat false
  else if Ascii.eqb code "I" then pack_int 4%nat false
  else if Ascii.eqb code "Q" then pack_int 8%nat false
  else if Ascii.eqb code "b" then pack_int 1%nat true
  else if Ascii.eqb code "h" then pack_int 2%nat true
  else if Ascii.eqb code "i" then pack_int 4%nat true
  else if Ascii.eqb code "q" then pack_int 8%nat true
  else if Ascii.eqb code "f" then
    match as_double with
    | None => Raises struct_error
    | Some f =>
        let single := round_float 24 128 f in
        match prefix, f, single with
        | Some _, S754_finite _ _ _, S754_infinity _ => Raises OverflowError_float
        | _, _, _ => Returns (int_to_bytes order 4 (bits_of_float 23 8 single))
        end
    end
  else if Ascii.eqb code "d" then
    match as_double with
    | None => Raises struct_error
    | Some f => Returns (int_to_bytes order 8 (bits_of_float 52 11 f))
    end
  else Raises struct_error.

(** A finite double that rounds to an infinity in single precision. *)
Definition single_overflows (f : spec_float) : bool :=
  match f, round_float 24 128 f with
  | S754_finite _ _ _, S754_infinity _ => true
  | _, _ => false
  end.

(** [tcstruct_type.pack(self, byteorder=None)] on an integer and on a float
    instance. *)
Definition tcstruct_int_pack (host : byteorder) (self : tcstruct_int)
    (byteorder : option byteorder) : outcome (list byte) :=
  let byteorder := match byteorder with
                   | Some o => Some o
                   | None => Some (int_byteorder self)
                   end in
  struct_pack host byteorder (_char (int_type self)) (PyInt (int_value self)).

Definition tcstruct_float_pack (host : byteorder) (self : tcstruct_float)
    (byteorder : option byteorder) : outcome (list byte) :=
  let byteorder := match byteorder with
                   | Some o => Some o
                   | None => float_byteorder self
                   end in
  struct_pack host byteorder (_char (float_type self)) (PyFloat (float_value self)).

(** ** Vocabulary of the further statements *)

(** The values an integer class of the library can represent in its width. *)
Definition in_range (c : tcstruct_scalar) (z : Z) : Prop :=
  if _signed c then - 2 ^ (_bitwidth c - 1) <= z < 2 ^ (_bitwidth c - 1)
  else 0 <= z < 2 ^ _bitwidth c.

(** The type of the field an annotation [AScalar c] gives in a class whose
    declared byte order is [order]. *)
Definition scalar_field_type (host order : byteorder) (c : tcstruct_scalar) : ctype :=
  if needs_swap host (Some order) then other_endian_ctype (CSimple (_ctype c) false)
  else CSimple (_ctype c) false.

(** The keyword arguments that name a field. *)
Definition field_keywords (cls : pyclass) (kwargs : pydict pyval) : pydict pyval :=
  filter (fun kv => is_descriptor cls (fst kv)) kwargs.


(** The [_pack_] a class body is laid out with: its own, else the inherited. *)
Definition pack_in_force (base : pyclass) (attrs : namespace) : option Z :=
  match ns_pack attrs with
  | Some p => Some p
  | None => class_pack base
  end.

(** The class statements of a module one after another, each class deriving
    from the one defined before it, the first from [base]. *)
Fixpoint define_chain (host : byteorder) (h : heap) (base : pyclass)
    (ds : list declaration) : heap * result pyclass :=
  match ds with
  | [] => (h, OK base)
  | d :: ds' =>
      match TCStructMeta_new host h base (class_body d) with
      | (h', OK cls) => define_chain host h' cls ds'
      | (h', Raise e) => (h', Raise e)
      end
  end.









(** The bytes the entries of a [_fields_] list take, padding aside. *)
Definition fields_size (fs : list field) : nat :=
  list_sum (map (fun f : field => match snd f with
                                  | TyC t => sizeof t
                                  | TyOther => 0%nat
                                  end) fs).

(** The layout of [fs] after [size] bytes stays within a [Py_ssize_t],
    whatever the padding (ctypes adds the offsets up without a check). *)
Definition fits_ssize_t (size : nat) (fs : list field) : Prop :=
  Z.of_nat size + Z.of_nat (fields_size fs) + 8 * (Z.of_nat (length fs) + 1)
  <= ssize_t_max.

(** The entries of a [_fields_] list have public names. *)
Definition public_names (fs : list field) : bool :=
  forallb (fun f : field => negb (startswith_underscore (fst f))) fs.

(** The list a class statement lays out: the one its body binds to
    [_fields_], else (a copy of) the base's, followed by the fields made
    from the annotations. *)
Definition statement_fields (h : heap) (attrs : namespace) (base_fields own : list field)
    : list field :=
  match ns_fields attrs with
  | Some l => deref h l
  | None => base_fields
  end ++ own.

(** The values a field of type [t] takes: an [int] in an integer field; a
    [float], or an [int] that converts to one, in a float field; in an array
    field a tuple of no more items than the array has, each taken by the
    item type. *)
Fixpoint accepts (t : ctype) (v : pyval) : bool :=
  match t with
  | CSimple c _ =>
      if c_is_float c then
        match v with
        | PyFloat _ => true
        | PyInt z => match float_of_int z with
                     | OK _ => true
                     | Raise _ => false
                     end
        | _ => false
        end
      else
        match v with
        | PyInt _ => true
        | _ => false
        end
  | CArray elt len =>
      match v with
      | PyTuple items => (length items <=? len)%nat && forallb (accepts elt) items
      | _ => false
      end
  end.

(** [setattr(self, name, v)] goes through on an object of class [c]: a field
    takes the value, or no field and no inherited data descriptor carries the
    name. *)
Definition assignable (c : pyclass) (name : string) (v : pyval) : bool :=
  match find_descr c name with
  | Some fd => accepts (f_type fd) v
  | None => negb (reserved_attribute name)
  end.



(** * Properties *)

(** Inversion of a successful [bind]. *)
Lemma bind_OK {A B} (r : result A) (k : A -> result B) (b : B) :
  bind r k = OK b -> exists a, r = OK a /\ k a = OK b.
Proof.
  destruct r as [a|e]; cbn [bind]; [|discriminate].
  intros H. exists a. split; [reflexivity | exact H].
Qed.

Tactic Notation "bind_inv" hyp(H) "as" simple_intropattern(x) ident(E) :=
  apply bind_OK in H; destruct H as (x & E & H).

(** ** Buffers *)

Section Buffers.
Local Open Scope nat_scope.


Lemma read_at_app_l off n (a b : list byte) :
  off + n <= length a -> read_at off n (a ++ b) = read_at off n a.
Proof.
  intros H. unfold read_at. rewrite skipn_app, firstn_app, length_skipn.
  replace (n - (length a - off)) with 0 by lia.
  rewrite firstn_O, app_nil_r. reflexivity.
Qed.

Lemma read_at_app_r off n (a b : list byte) :
  length a <= off -> read_at off n (a ++ b) = read_at (off - length a) n b.
Proof.
  intros H. unfold read_at. rewrite skipn_app.
  rewrite (skipn_all2 a) by lia. reflexivity.
Qed.

Lemma write_at_length off bs (buf : list byte) :
  off + length bs <= length buf -> length (write_at off bs buf) = length buf.
Proof.
  intros H. unfold write_at.
  rewrite !length_app, length_firstn, length_skipn. lia.
Qed.

Lemma read_write_same off bs (buf : list byte) :
  off + length bs <= length buf ->
  read_at off (length bs) (write_at off bs buf) = bs.
Proof.
  intros H. unfold write_at.
  rewrite read_at_app_r by (rewrite length_firstn; lia).
  rewrite length_firstn. replace (off - Nat.min off (length buf)) with 0 by lia.
  rewrite read_at_app_l by lia.
  unfold read_at. cbn [skipn]. apply firstn_all.
Qed.

Lemma read_write_other off bs (buf : list byte) off' n :
  off + length bs <= length buf ->
  off' + n <= off \/ off + length bs <= off' ->
  read_at off' n (write_at off bs buf) = read_at off' n buf.
Proof.
  intros H [Hd | Hd]; unfold write_at.
  - rewrite read_at_app_l by (rewrite length_firstn; lia).
    rewrite <- (firstn_skipn off buf) at 2.
    rewrite read_at_app_l by (rewrite length_firstn; lia). reflexivity.
  - rewrite app_assoc.
    rewrite read_at_app_r by (rewrite length_app, length_firstn; lia).
    rewrite length_app, length_firstn.
    rewrite <- (firstn_skipn (off + length bs) buf) at 3.
    rewrite read_at_app_r by (rewrite length_firstn; lia).
    rewrite length_firstn. f_equal. lia.
Qed.

Lemma read_at_zeros off n m :
  off + n <= m -> read_at off n (zeros m) = zeros n.
Proof.
  intros H. unfold read_at, zeros.
  replace m with (off + (n + (m - off - n))) by lia.
  rewrite !repeat_app.
  rewrite skipn_app, skipn_all2 by (rewrite repeat_length; lia).
  rewrite repeat_length, Nat.sub_diag. cbn [skipn app].
  rewrite firstn_app, repeat_length, Nat.sub_diag, firstn_O, app_nil_r.
  rewrite firstn_all2 by (rewrite repeat_length; lia). reflexivity.
Qed.

Lemma read_at_all (buf : list byte) : read_at 0 (length buf) buf = buf.
Proof. unfold read_at. cbn [skipn]. apply firstn_all. Qed.
End Buffers.

(** ** Fixed-width encodings *)

Lemma int_to_bytes_length o n z : length (int_to_bytes o n z) = n.
Proof.
  destruct o; cbn [int_to_bytes]; rewrite ?length_rev; apply length_le_split.
Qed.

Lemma int_from_to_bytes o n z :
  int_from_bytes o (int_to_bytes o n z) = z mod 2 ^ (Z.of_nat n * 8).
Proof.
  destruct o; cbn [int_from_bytes int_to_bytes]; rewrite ?rev_involutive;
    apply le_combine_split.
Qed.

Lemma int_to_bytes_other_order o n z :
  int_to_bytes (other_order o) n z = rev (int_to_bytes o n z).
Proof.
  destruct o; cbn [int_to_bytes other_order]; rewrite ?rev_involutive; reflexivity.
Qed.

Lemma int_from_bytes_other_order o bs :
  int_from_bytes (other_order o) (rev bs) = int_from_bytes o bs.
Proof.
  destruct o; cbn [int_from_bytes other_order]; rewrite ?rev_involutive; reflexivity.
Qed.

Lemma le_split_bswap n z : le_split n (bswap n z) = rev (le_split n z).
Proof.
  unfold bswap.
  rewrite <- (length_le_split n z) at 1. rewrite <- length_rev.
  apply split_le_combine.
Qed.

Lemma int_to_bytes_bswap o n z :
  int_to_bytes o n (bswap n z) = rev (int_to_bytes o n z).
Proof.
  destruct o; cbn [int_to_bytes]; rewrite le_split_bswap; reflexivity.
Qed.

Lemma bswap_mod n z : bswap n (z mod 2 ^ (Z.of_nat n * 8)) = bswap n z.
Proof. unfold bswap. rewrite <- le_split_mod. reflexivity. Qed.

Lemma bswap_involutive n z : bswap n (bswap n z) = z mod 2 ^ (Z.of_nat n * 8).
Proof.
  unfold bswap at 1. rewrite le_split_bswap, rev_involutive.
  apply le_combine_split.
Qed.

Lemma simple_set_length host c sw v bs :
  simple_set host c sw v = OK bs -> length bs = c_sizeof c.
Proof.
  unfold simple_set. destruct (c_is_float c).
  - destruct (match v with
              | PyFloat f => OK f
              | PyInt z => float_of_int z
              | PyTuple _ | PyStr _ | PyNone => Raise TypeError_ctypes
              end); cbn [bind]; [|discriminate].
    intros H. injection H as <-. apply int_to_bytes_length.
  - destruct v; try discriminate.
    intros H. injection H as <-. apply int_to_bytes_length.
Qed.

Lemma array_fill_length set_item item_size :
  (forall v bs, set_item v = OK bs -> length bs = item_size) ->
  forall items room bs,
    array_fill set_item item_size items room = OK bs ->
    length bs = (room * item_size)%nat.
Proof.
  intros Hitem. induction items as [|item items IH]; intros room bs H.
  - cbn in H. injection H as <-. apply repeat_length.
  - destruct room as [|room]; [discriminate|]. cbn [array_fill] in H.
    destruct (set_item item) as [b|] eqn:Eb; [|discriminate]. cbn [bind] in H.
    destruct (array_fill set_item item_size items room) as [rest|] eqn:Er;
      [|discriminate].
    cbn [bind] in H. injection H as <-.
    rewrite length_app, (Hitem _ _ Eb), (IH _ _ Er). reflexivity.
Qed.

Lemma cdata_set_length host t : forall v bs,
  cdata_set host t v = OK bs -> length bs = sizeof t.
Proof.
  induction t as [c sw | elt IH len]; intros v bs H.
  - eapply simple_set_length. exact H.
  - cbn [cdata_set] in H. destruct v as [| |items| |]; try discriminate.
    destruct (array_fill (cdata_set host elt) (sizeof elt) items len) as [b|] eqn:E;
      [|discriminate].
    cbn in H. injection H as <-.
    cbn [sizeof]. eapply array_fill_length; [exact IH | exact E].
Qed.

Lemma to_bytes_width c : (Z.of_nat (c_sizeof c) * 8 = 8 * Z.of_nat (c_sizeof c))%Z.
Proof. lia. Qed.

(** An integer setter accepts every [int] and the getter reads back the
    value reduced to the type's width. *)
Lemma simple_get_set_int host c sw z :
  c_is_float c = false ->
  exists bs, simple_set host c sw (PyInt z) = OK bs /\
             simple_get host c sw bs = PyInt (wrap c z).
Proof.
  intros Hf. unfold simple_set, simple_get, wrap. rewrite Hf.
  eexists. split; [reflexivity|].
  rewrite int_from_to_bytes. rewrite <- to_bytes_width.
  set (w := (Z.of_nat (c_sizeof c) * 8)%Z).
  assert (Hmm : forall x, ((x mod 2 ^ w) mod 2 ^ w = x mod 2 ^ w)%Z)
    by (intros x; apply Z.mod_mod; apply Z.pow_nonzero; unfold w; lia).
  destruct sw.
  - unfold w. rewrite bswap_mod, bswap_involutive. fold w. rewrite Hmm. reflexivity.
  - rewrite Hmm. reflexivity.
Qed.

(** ** Dictionaries *)

Lemma mem_string_In k l : mem_string k l = true <-> In k l.
Proof.
  unfold mem_string. rewrite existsb_exists. split.
  - intros [x [Hx He]]. apply String.eqb_eq in He. subst. exact Hx.
  - intros H. exists k. split; [exact H | apply String.eqb_refl].
Qed.

Lemma keys_inter_nil a b :
  keys_inter a b = [] <-> (forall k, In k a -> ~ In k b).
Proof.
  unfold keys_inter. split.
  - intros H k Ha Hb.
    assert (Hin : In k (filter (fun k => mem_string k b) a)).
    { apply filter_In. split; [exact Ha | apply mem_string_In; exact Hb]. }
    rewrite H in Hin. exact Hin.
  - intros H. induction a as [|x a IH]; [reflexivity|].
    cbn [filter]. destruct (mem_string x b) eqn:E.
    + apply mem_string_In in E. exfalso. apply (H x); [left; reflexivity | exact E].
    + apply IH. intros k Hk. apply H. right. exact Hk.
Qed.

Lemma keys_inter_cons a b :
  keys_inter a b <> [] <-> (exists k, In k a /\ In k b).
Proof.
  split.
  - intros H. destruct (keys_inter a b) as [|k rest] eqn:E; [congruence|].
    assert (Hin : In k (keys_inter a b)) by (rewrite E; left; reflexivity).
    unfold keys_inter in Hin. apply filter_In in Hin. destruct Hin as [Ha Hb].
    exists k. split; [exact Ha | apply mem_string_In; exact Hb].
  - intros [k [Ha Hb]] E. rewrite keys_inter_nil in E. exact (E k Ha Hb).
Qed.

Section Dict.
Context {V : Type}.
Implicit Types (d : pydict V) (k : string) (v : V).

Lemma dict_setitem_keys_In d k v k' :
  In k' (dict_keys (dict_setitem d k v)) <-> k' = k \/ In k' (dict_keys d).
Proof.
  induction d as [|[k0 v0] d IH]; cbn [dict_setitem dict_keys map fst In].
  - intuition.
  - destruct (String.eqb_spec k k0) as [->|Hne]; cbn [dict_keys map fst In].
    + intuition.
    + unfold dict_keys in IH. rewrite IH. intuition.
Qed.

Lemma dict_setitem_fresh d k v :
  ~ In k (dict_keys d) -> dict_setitem d k v = d ++ [(k, v)].
Proof.
  induction d as [|[k0 v0] d IH]; cbn [dict_setitem dict_keys map fst In app];
    intros H; [reflexivity|].
  destruct (String.eqb_spec k k0) as [->|Hne]; [exfalso; auto|].
  f_equal. apply IH. intros Hin. apply H. right. exact Hin.
Qed.

Lemma dict_setitem_NoDup d k v :
  NoDup (dict_keys d) -> NoDup (dict_keys (dict_setitem d k v)).
Proof.
  induction d as [|[k0 v0] d IH]; cbn [dict_setitem dict_keys map fst]; intros H.
  - constructor; [intros [] | constructor].
  - destruct (String.eqb_spec k k0) as [->|Hne]; [exact H|].
    cbn [map fst]. inversion H as [|? ? Hnin Hnd]; subst.
    constructor; [|apply IH; exact Hnd].
    intros Hin. apply dict_setitem_keys_In in Hin. destruct Hin as [->|Hin]; auto.
Qed.

Lemma dict_update_NoDup items : forall d,
  NoDup (dict_keys d) -> NoDup (dict_keys (dict_update d items)).
Proof.
  unfold dict_update.
  induction items as [|[k v] items IH]; intros d H; cbn [fold_left]; [exact H|].
  apply IH, dict_setitem_NoDup, H.
Qed.

Lemma dict_update_keys_In items : forall d k,
  In k (dict_keys (dict_update d items)) <->
  In k (dict_keys d) \/ In k (map fst items).
Proof.
  unfold dict_update.
  induction items as [|[k0 v0] items IH]; intros d k; cbn [fold_left map fst In].
  - intuition.
  - rewrite IH, dict_setitem_keys_In. cbn [fst snd]. intuition.
Qed.

Lemma dict_update_fresh items : forall d,
  NoDup (dict_keys d ++ map fst items) -> dict_update d items = d ++ items.
Proof.
  unfold dict_update.
  induction items as [|[k v] items IH]; intros d H; cbn [fold_left fst snd].
  - rewrite app_nil_r. reflexivity.
  - cbn [map fst] in H.
    assert (Hk : ~ In k (dict_keys d)).
    { apply NoDup_remove_2 in H. intros Hin. apply H. apply in_or_app. left. exact Hin. }
    rewrite (dict_setitem_fresh d k v Hk).
    rewrite IH.
    + rewrite <- app_assoc. reflexivity.
    + unfold dict_keys. rewrite map_app. cbn [map fst].
      rewrite <- app_assoc. exact H.
Qed.

Lemma dict_get_In d k v : dict_get d k = Some v -> In (k, v) d.
Proof.
  induction d as [|[k0 v0] d IH]; cbn [dict_get]; [discriminate|].
  destruct (String.eqb_spec k k0) as [->|Hne].
  - intros H. injection H as <-. left. reflexivity.
  - intros H. right. apply IH, H.
Qed.

Lemma dict_get_None d k : dict_get d k = None <-> ~ In k (dict_keys d).
Proof.
  induction d as [|[k0 v0] d IH]; cbn [dict_get dict_keys map fst In].
  - intuition.
  - destruct (String.eqb_spec k k0) as [->|Hne].
    + split; [discriminate | intros H; exfalso; auto].
    + unfold dict_keys in IH. rewrite IH. intuition.
Qed.

Lemma In_dict_get d k v :
  NoDup (dict_keys d) -> In (k, v) d -> dict_get d k = Some v.
Proof.
  induction d as [|[k0 v0] d IH]; cbn [dict_get dict_keys map fst]; intros Hnd Hin.
  - destruct Hin.
  - inversion Hnd as [|? ? Hnin Hnd']; subst.
    destruct Hin as [Heq | Hin].
    + injection Heq as -> ->. rewrite String.eqb_refl. reflexivity.
    + destruct (String.eqb_spec k k0) as [->|Hne].
      * exfalso. apply Hnin. apply (in_map fst) in Hin. exact Hin.
      * apply IH; assumption.
Qed.
End Dict.

Lemma map_fst_combine {A B} (l : list A) : forall (l' : list B),
  map fst (combine l l') = firstn (length l') l.
Proof.
  induction l as [|a l IH]; intros [|b l']; cbn [combine map fst length firstn];
    try reflexivity.
  f_equal. apply IH.
Qed.

(** ** Structure layout *)

Section Layout.
Local Open Scope nat_scope.

Lemma descr_chain_le ds : forall lo hi, descr_chain lo ds hi -> lo <= hi.
Proof.
  induction ds as [|[n fd] ds IH]; cbn [descr_chain]; intros lo hi H.
  - exact H.
  - destruct H as [H1 H2]. apply IH in H2. lia.
Qed.



Lemma descr_chain_In ds : forall lo hi n fd,
  descr_chain lo ds hi -> In (n, fd) ds ->
  lo <= f_offset fd /\ f_offset fd + sizeof (f_type fd) <= hi.
Proof.
  induction ds as [|[n0 fd0] ds IH]; cbn [descr_chain In]; intros lo hi n fd H Hin.
  - destruct Hin.
  - destruct H as [H1 H2]. destruct Hin as [Heq | Hin].
    + injection Heq as -> ->. apply descr_chain_le in H2. lia.
    + destruct (IH _ _ _ _ H2 Hin). lia.
Qed.

Lemma descr_chain_disjoint ds : forall lo hi n1 fd1 n2 fd2,
  descr_chain lo ds hi -> In (n1, fd1) ds -> In (n2, fd2) ds -> n1 <> n2 ->
  disjoint fd1 fd2.
Proof.
  induction ds as [|[n0 fd0] ds IH]; cbn [descr_chain In];
    intros lo hi n1 fd1 n2 fd2 H H1 H2 Hne.
  - destruct H1.
  - destruct H as [Hlo Hrest]. destruct H1 as [E1 | H1], H2 as [E2 | H2].
    + congruence.
    + injection E1 as -> ->.
      destruct (descr_chain_In _ _ _ _ _ Hrest H2). left. lia.
    + injection E2 as -> ->.
      destruct (descr_chain_In _ _ _ _ _ Hrest H1). right. lia.
    + eapply IH; eassumption.
Qed.


Lemma layout_fields_entries pack fs : forall offset ta ds size ta',
  layout_fields pack fs offset ta = OK (ds, size, ta') ->
  map descr_field ds = fs.
Proof.
  induction fs as [|[name ty] fs IH]; intros offset ta ds size ta' H.
  - cbn in H. injection H as <- <- <-. reflexivity.
  - cbn [layout_fields] in H. destruct ty as [t|]; [|discriminate].
    bind_inv H as [[ds0 size0] ta0] E. injection H as <- <- <-.
    cbn [map descr_field fst snd f_type]. f_equal. eapply IH, E.
Qed.







Lemma find_descr_In c name fd :
  find_descr c name = Some fd -> In (name, fd) (all_descr c).
Proof.
  unfold find_descr. intros H. apply dict_get_In in H. apply in_rev. exact H.
Qed.

Lemma find_descr_bounds c name fd :
  layout_ok c -> find_descr c name = Some fd ->
  f_offset fd + sizeof (f_type fd) <= class_size c.
Proof.
  intros Hok H. apply find_descr_In in H.
  destruct (descr_chain_In _ _ _ _ _ Hok H). assumption.
Qed.

Lemma find_descr_disjoint c n1 fd1 n2 fd2 :
  layout_ok c -> find_descr c n1 = Some fd1 -> find_descr c n2 = Some fd2 ->
  n1 <> n2 -> disjoint fd1 fd2.
Proof.
  intros Hok H1 H2 Hne.
  eapply descr_chain_disjoint;
    [exact Hok | apply find_descr_In; exact H1 | apply find_descr_In; exact H2 | exact Hne].
Qed.
End Layout.

(** ** Field assignment and [Structure.__init__] *)

Section Instances.
Local Open Scope nat_scope.
Variable host : byteorder.

Lemma setattr_type self name v self' :
  setattr host self name v = OK self' -> ob_type self' = ob_type self.
Proof.
  unfold setattr. destruct (find_descr (ob_type self) name) as [fd|].
  - destruct (cdata_set host (f_type fd) v); cbn [bind]; [|discriminate].
    intros H. injection H as <-. reflexivity.
  - destruct (readonly_attribute name); [discriminate|].
    destruct (typed_attribute name); [discriminate|].
    intros H. injection H as <-. reflexivity.
Qed.

Lemma setattr_length self name v self' :
  layout_ok (ob_type self) ->
  length (b_ptr self) = class_size (ob_type self) ->
  setattr host self name v = OK self' ->
  length (b_ptr self') = class_size (ob_type self).
Proof.
  unfold setattr. intros Hok Hlen.
  destruct (find_descr (ob_type self) name) as [fd|] eqn:Efd.
  - destruct (cdata_set host (f_type fd) v) as [bs|] eqn:Ebs; cbn [bind]; [|discriminate].
    intros H. injection H as <-. cbn [b_ptr].
    apply cdata_set_length in Ebs.
    pose proof (find_descr_bounds _ _ _ Hok Efd).
    rewrite write_at_length; lia.
  - destruct (readonly_attribute name); [discriminate|].
    destruct (typed_attribute name); [discriminate|].
    intros H. injection H as <-. exact Hlen.
Qed.

Lemma setattr_slot self name v self' fd :
  layout_ok (ob_type self) ->
  length (b_ptr self) = class_size (ob_type self) ->
  find_descr (ob_type self) name = Some fd ->
  setattr host self name v = OK self' ->
  exists bs, cdata_set host (f_type fd) v = OK bs /\ slot fd (b_ptr self') = bs.
Proof.
  unfold setattr. intros Hok Hlen Efd. rewrite Efd.
  destruct (cdata_set host (f_type fd) v) as [bs|] eqn:Ebs; cbn [bind]; [|discriminate].
  intros H. injection H as <-. cbn [b_ptr]. exists bs. split; [reflexivity|].
  pose proof (cdata_set_length _ _ _ _ Ebs) as Hbs.
  pose proof (find_descr_bounds _ _ _ Hok Efd).
  unfold slot. rewrite <- Hbs. apply read_write_same. lia.
Qed.

Lemma setattr_frame self name v self' off n :
  layout_ok (ob_type self) ->
  length (b_ptr self) = class_size (ob_type self) ->
  setattr host self name v = OK self' ->
  (forall fd, find_descr (ob_type self) name = Some fd ->
              off + n <= f_offset fd \/ f_offset fd + sizeof (f_type fd) <= off) ->
  read_at off n (b_ptr self') = read_at off n (b_ptr self).
Proof.
  unfold setattr. intros Hok Hlen H Hdis.
  destruct (find_descr (ob_type self) name) as [fd|] eqn:Efd.
  - destruct (cdata_set host (f_type fd) v) as [bs|] eqn:Ebs; cbn [bind] in H; [|discriminate].
    injection H as <-. cbn [b_ptr].
    pose proof (cdata_set_length _ _ _ _ Ebs) as Hbs.
    pose proof (find_descr_bounds _ _ _ Hok Efd).
    specialize (Hdis fd eq_refl).
    apply read_write_other; lia.
  - destruct (readonly_attribute name); [discriminate|].
    destruct (typed_attribute name); [discriminate|].
    injection H as <-. reflexivity.
Qed.

Lemma Struct_init_spec kwds : forall self r,
  layout_ok (ob_type self) ->
  length (b_ptr self) = class_size (ob_type self) ->
  NoDup (dict_keys kwds) ->
  Struct_init host self kwds = OK r ->
  ob_type r = ob_type self /\
  length (b_ptr r) = class_size (ob_type self) /\
  (forall name v fd,
      In (name, v) kwds -> find_descr (ob_type self) name = Some fd ->
      exists bs, cdata_set host (f_type fd) v = OK bs /\ slot fd (b_ptr r) = bs) /\
  (forall off n,
      (forall name fd,
          In name (dict_keys kwds) -> find_descr (ob_type self) name = Some fd ->
          off + n <= f_offset fd \/ f_offset fd + sizeof (f_type fd) <= off) ->
      read_at off n (b_ptr r) = read_at off n (b_ptr self)).
Proof.
  induction kwds as [|[name v] kwds IH]; intros self r Hok Hlen Hnd H.
  - cbn in H. injection H as <-. repeat split; auto. intros ? ? ? [].
  - cbn [Struct_init] in H.
    destruct (setattr host self name v) as [self1|] eqn:Eset; [|discriminate].
    cbn [bind] in H.
    pose proof (setattr_type _ _ _ _ Eset) as Hty.
    pose proof (setattr_length _ _ _ _ Hok Hlen Eset) as Hlen1.
    cbn [dict_keys map fst] in Hnd. inversion Hnd as [|? ? Hnin Hnd']; subst.
    destruct (IH self1 r) as (Hr1 & Hr2 & Hr3 & Hr4);
      [rewrite Hty; exact Hok | rewrite Hty; exact Hlen1 | exact Hnd' | exact H |].
    rewrite Hty in Hr1, Hr2, Hr3, Hr4.
    split; [exact Hr1|]. split; [exact Hr2|]. split.
    + intros name' v' fd [Heq | Hin] Hfd.
      * injection Heq as <- <-.
        destruct (setattr_slot _ _ _ _ _ Hok Hlen Hfd Eset) as (bs & Hbs & Hslot).
        exists bs. split; [exact Hbs|].
        unfold slot in *. rewrite <- Hslot. apply Hr4.
        intros name' fd' Hin' Hfd'.
        assert (Hne : name <> name') by (intros ->; exact (Hnin Hin')).
        destruct (find_descr_disjoint _ _ _ _ _ Hok Hfd Hfd' Hne); lia.
      * eapply Hr3; eassumption.
    + intros off n Hdis. rewrite Hr4.
      * eapply setattr_frame; try eassumption.
        intros fd Hfd. apply (Hdis name fd); [left; reflexivity | exact Hfd].
      * intros name' fd' Hin' Hfd'. apply (Hdis name' fd'); [right; exact Hin' | exact Hfd'].
Qed.

Lemma Struct_init_succeeds kwds : forall self,
  (forall name v fd,
      In (name, v) kwds -> find_descr (ob_type self) name = Some fd ->
      exists bs, cdata_set host (f_type fd) v = OK bs) ->
  (forall name, In name (dict_keys kwds) ->
      find_descr (ob_type self) name = None -> reserved_attribute name = false) ->
  exists r, Struct_init host self kwds = OK r.
Proof.
  induction kwds as [|[name v] kwds IH]; intros self Hall Hres.
  - eexists. reflexivity.
  - cbn [Struct_init].
    assert (Hset : exists self1, setattr host self name v = OK self1).
    { unfold setattr. destruct (find_descr (ob_type self) name) as [fd|] eqn:Efd.
      - destruct (Hall name v fd (or_introl eq_refl) Efd) as [bs ->].
        cbn [bind]. eexists. reflexivity.
      - pose proof (Hres name (or_introl eq_refl) Efd) as Hr.
        unfold reserved_attribute in Hr. apply orb_false_iff in Hr.
        destruct Hr as [-> ->]. eexists. reflexivity. }
    destruct Hset as [self1 Eset]. rewrite Eset. cbn [bind].
    apply IH.
    + intros name' v' fd Hin Hfd.
      rewrite (setattr_type _ _ _ _ Eset) in Hfd.
      eapply Hall; [right; exact Hin | exact Hfd].
    + intros name' Hin Hfd.
      rewrite (setattr_type _ _ _ _ Eset) in Hfd.
      apply Hres; [right; exact Hin | exact Hfd].
Qed.

Lemma getattr_field self name fd :
  find_descr (ob_type self) name = Some fd ->
  getattr host self name = OK (cdata_get host (f_type fd) (slot fd (b_ptr self))).
Proof. unfold getattr. intros ->. reflexivity. Qed.
End Instances.

(** ** [TCStruct.__init__] *)

Section Construction.
Local Open Scope nat_scope.
Variable host : byteorder.

Lemma merged_kwargs_NoDup fields args kwargs :
  NoDup (dict_keys (merged_kwargs fields args kwargs)).
Proof.
  unfold merged_kwargs. apply dict_update_NoDup, dict_update_NoDup. constructor.
Qed.

Lemma construct_inv h cls args kwargs r :
  construct host h cls args kwargs = OK r ->
  exists fields,
    class_fields h cls = OK fields /\
    keys_inter (dict_keys kwargs)
      (dict_keys (dict_update [] (combine (map fst fields) args))) = [] /\
    Struct_init host (new_instance cls) (merged_kwargs fields args kwargs) = OK r.
Proof.
  unfold construct, TCStruct_init. cbn [ob_type new_instance].
  destruct (mem_string "self" (dict_keys kwargs)); [discriminate|].
  destruct (class_fields h cls) as [fields|]; cbn [bind]; [|discriminate].
  intros H. exists fields. split; [reflexivity|].
  destruct (keys_inter _ _); [|discriminate]. split; [reflexivity | exact H].
Qed.

Lemma new_instance_length cls :
  length (b_ptr (new_instance cls)) = class_size cls.
Proof. apply repeat_length. Qed.

(** What a successful construction leaves in the buffer. *)
Lemma construct_spec h cls args kwargs r :
  layout_ok cls ->
  construct host h cls args kwargs = OK r ->
  exists fields,
    class_fields h cls = OK fields /\
    ob_type r = cls /\
    length (b_ptr r) = class_size cls /\
    (forall name v fd,
        dict_get (merged_kwargs fields args kwargs) name = Some v ->
        find_descr cls name = Some fd ->
        exists bs, cdata_set host (f_type fd) v = OK bs /\ slot fd (b_ptr r) = bs) /\
    (forall off n,
        off + n <= class_size cls ->
        (forall name fd,
            In name (dict_keys (merged_kwargs fields args kwargs)) ->
            find_descr cls name = Some fd ->
            off + n <= f_offset fd \/ f_offset fd + sizeof (f_type fd) <= off) ->
        read_at off n (b_ptr r) = zeros n).
Proof.
  intros Hok H. destruct (construct_inv _ _ _ _ _ H) as (fields & Hf & _ & Hinit).
  exists fields. split; [exact Hf|].
  destruct (Struct_init_spec host _ (new_instance cls) r Hok
              (new_instance_length cls)
              (merged_kwargs_NoDup fields args kwargs) Hinit)
    as (Hty & Hlen & Hset & Hframe).
  cbn [ob_type new_instance] in Hty, Hlen, Hset, Hframe.
  repeat split; try assumption.
  - intros name v fd Hget Hfd. eapply Hset; [apply dict_get_In; exact Hget | exact Hfd].
  - intros off n Hbound Hdis. rewrite Hframe by exact Hdis.
    cbn [b_ptr]. apply read_at_zeros. exact Hbound.
Qed.

(** Construction fails only through the binding of [self], the overlap
    check, a setter or a keyword that names an inherited data descriptor. *)
Lemma construct_succeeds h cls args kwargs fields :
  mem_string "self" (dict_keys kwargs) = false ->
  class_fields h cls = OK fields ->
  keys_inter (dict_keys kwargs)
    (dict_keys (dict_update [] (combine (map fst fields) args))) = [] ->
  (forall name v fd,
      In (name, v) (merged_kwargs fields args kwargs) ->
      find_descr cls name = Some fd ->
      exists bs, cdata_set host (f_type fd) v = OK bs) ->
  (forall name, In name (dict_keys (merged_kwargs fields args kwargs)) ->
      find_descr cls name = None -> reserved_attribute name = false) ->
  exists r, construct host h cls args kwargs = OK r.
Proof.
  intros Hself Hf Hov Hall Hres. unfold construct, TCStruct_init.
  cbn [ob_type new_instance].
  rewrite Hself, Hf. cbn [bind]. rewrite Hov.
  apply Struct_init_succeeds; assumption.
Qed.
End Construction.

(** ** The store of [_fields_] lists *)

Section Store.
Local Open Scope nat_scope.

Lemma heap_set_length h : forall l fs, length (heap_set h l fs) = length h.
Proof.
  induction h as [|x h IH]; intros [|l] fs; cbn [heap_set length]; auto.
Qed.

Lemma deref_heap_set_other h : forall l l' fs,
  l' <> l -> deref (heap_set h l fs) l' = deref h l'.
Proof.
  unfold deref.
  induction h as [|x h IH]; intros [|l] [|l'] fs Hne; cbn [heap_set nth];
    try reflexivity; try congruence.
  apply IH. congruence.
Qed.

Lemma deref_heap_set_same h : forall l fs,
  l < length h -> deref (heap_set h l fs) l = fs.
Proof.
  unfold deref.
  induction h as [|x h IH]; intros [|l] fs Hlt; cbn [heap_set nth length] in *;
    try lia; auto.
  apply IH. lia.
Qed.

Lemma deref_alloc_old h fs l : l < length h -> deref (h ++ [fs]) l = deref h l.
Proof. intros H. unfold deref. apply app_nth1. exact H. Qed.

Lemma deref_alloc_new h fs : deref (h ++ [fs]) (length h) = fs.
Proof. unfold deref. apply nth_middle. Qed.

Lemma list_extend_alloc h fs items :
  list_extend (h ++ [fs]) (length h) items = h ++ [fs ++ items].
Proof.
  unfold list_extend. rewrite deref_alloc_new.
  generalize (fs ++ items). intros new.
  induction h as [|x h IH]; cbn [heap_set app length]; [reflexivity|].
  f_equal. exact IH.
Qed.

(** A call of the metaclass changes no list that existed before it, except
    the one the class body itself bound to [_fields_], if it bound one. *)
Lemma TCStructMeta_new_heap host h base attrs h' res :
  TCStructMeta_new host h base attrs = (h', res) ->
  length h <= length h' /\
  forall l, l < length h -> ns_fields attrs <> Some l -> deref h' l = deref h l.
Proof.
  unfold TCStructMeta_new. destruct (ns_annotations attrs) as [annotations|].
  - destruct (ns_fields attrs) as [l0|].
    + destruct (annotated_fields _ annotations) as [new|]; intros H; injection H as <- _.
      * unfold list_extend. rewrite heap_set_length. split; [lia|].
        intros l Hl Hne. apply deref_heap_set_other.
        intros ->. apply Hne. reflexivity.
      * split; [lia | reflexivity].
    + unfold alloc.
      destruct (annotated_fields _ annotations) as [new|]; intros H; injection H as <- _.
      * rewrite list_extend_alloc. rewrite length_app. cbn [length]. split; [lia|].
        intros l Hl _. apply deref_alloc_old. exact Hl.
      * rewrite length_app. cbn [length]. split; [lia|].
        intros l Hl _. apply deref_alloc_old. exact Hl.
  - intros H. injection H as <- _. split; [lia | reflexivity].
Qed.

(** An annotated declaration allocates the list that becomes [_fields_]: a
    copy of the base's list, extended by the new entries. *)
Lemma TCStructMeta_new_body host h base d :
  own_annotations d <> [] ->
  TCStructMeta_new host h base (class_body d)
  = let fields_base := match class_fields_ref base with
                       | Some l => deref h l
                       | None => []
                       end in
    match annotated_fields (needs_swap host (declared_byteorder base (class_body d)))
            (own_annotations d) with
    | Raise e => (h ++ [fields_base], Raise e)
    | OK own =>
        (h ++ [fields_base ++ own],
         StructType_new (h ++ [fields_base ++ own]) base
           (with_fields (class_body d) (length h)))
    end.
Proof.
  intros Hne.
  assert (Hann : ns_annotations (class_body d) = Some (own_annotations d)).
  { cbn [class_body ns_annotations]. destruct (own_annotations d); congruence. }
  assert (Hfs : ns_fields (class_body d) = None) by reflexivity.
  unfold TCStructMeta_new. rewrite Hann, Hfs. unfold alloc. cbv zeta.
  destruct (annotated_fields _ (own_annotations d)) as [own|]; [|reflexivity].
  rewrite list_extend_alloc. reflexivity.
Qed.

Lemma TCStructMeta_new_annotated host h base d h' cls :
  own_annotations d <> [] ->
  TCStructMeta_new host h base (class_body d) = (h', OK cls) ->
  exists own ds size align,
    annotated_fields (needs_swap host (declared_byteorder base (class_body d)))
      (own_annotations d) = OK own /\
    h' = h ++ [match class_fields_ref base with
               | Some l => deref h l
               | None => []
               end ++ own] /\
    cls = Class base (with_fields (class_body d) (length h)) ds size align /\
    map descr_field ds = match class_fields_ref base with
                         | Some l => deref h l
                         | None => []
                         end ++ own.
Proof.
  intros Hne. rewrite TCStructMeta_new_body by exact Hne. cbv zeta.
  destruct (annotated_fields _ (own_annotations d)) as [own|] eqn:Eown; [|discriminate].
  intros H. injection H as <- H.
  unfold StructType_new in H. cbn [with_fields ns_fields] in H.
  bind_inv H as pack Epack. rewrite deref_alloc_new in H.
  bind_inv H as [[ds size] ta] El. injection H as <-.
  exists own, ds. do 2 eexists. split; [reflexivity|]. split; [reflexivity|].
  split; [reflexivity|]. eapply layout_fields_entries, El.
Qed.

Lemma TCStructMeta_new_plain host h base d :
  own_annotations d = [] ->
  TCStructMeta_new host h base (class_body d)
  = (h, OK (Class base (class_body d) [] (class_size base) (class_align base))).
Proof.
  intros He. unfold TCStructMeta_new, StructType_new.
  cbn [class_body ns_annotations ns_fields]. rewrite He. reflexivity.
Qed.
End Store.

(** ** Byte order *)

Section ByteOrder.
Local Open Scope nat_scope.
Variable host : byteorder.



Lemma rev_single (bs : list byte) : length bs = 1 -> rev bs = bs.
Proof. destruct bs as [|b [|b' bs]]; cbn; intros H; try discriminate; reflexivity. Qed.

Lemma simple_set_other_endian c v :
  simple_set host c (1 <? c_sizeof c) v
  = result_map (@rev byte) (simple_set host c false v).
Proof.
  destruct (1 <? c_sizeof c) eqn:Esz.
  - unfold simple_set. destruct (c_is_float c).
    + destruct (match v with
                | PyFloat f => OK f
                | PyInt z => float_of_int z
                | PyTuple _ | PyStr _ | PyNone => Raise TypeError_ctypes
                end); cbn [bind result_map]; [|reflexivity].
      rewrite int_to_bytes_other_order. reflexivity.
    + destruct v; cbn [result_map]; try reflexivity.
      rewrite int_to_bytes_bswap. reflexivity.
  - destruct (simple_set host c false v) as [bs|] eqn:E; cbn [result_map]; [|reflexivity].
    rewrite rev_single; [reflexivity|].
    rewrite (simple_set_length _ _ _ _ _ E).
    apply Nat.ltb_ge in Esz. destruct c; cbn in *; lia.
Qed.

Lemma bswap_from_bytes_rev o n (bs : list byte) :
  length bs = n -> bswap n (int_from_bytes o (rev bs)) = int_from_bytes o bs.
Proof.
  intros Hlen. unfold bswap. destruct o; cbn [int_from_bytes].
  - rewrite <- Hlen, <- length_rev, split_le_combine, rev_involutive. reflexivity.
  - rewrite rev_involutive, <- Hlen, split_le_combine. reflexivity.
Qed.

Lemma simple_get_other_endian c bs :
  length bs = c_sizeof c ->
  simple_get host c (1 <? c_sizeof c) (rev bs) = simple_get host c false bs.
Proof.
  intros Hlen. destruct (1 <? c_sizeof c) eqn:Esz.
  - unfold simple_get. destruct (c_is_float c).
    + rewrite int_from_bytes_other_order. reflexivity.
    + rewrite bswap_from_bytes_rev by exact Hlen. reflexivity.
  - rewrite rev_single; [reflexivity|].
    apply Nat.ltb_ge in Esz. destruct c; cbn in *; lia.
Qed.

Lemma chunks_cons size count (b rest : list byte) :
  length b = size ->
  chunks size (S count) (b ++ rest) = b :: chunks size count rest.
Proof.
  intros Hlen. cbn [chunks].
  rewrite firstn_app, skipn_app, Hlen, Nat.sub_diag, firstn_O, app_nil_r.
  rewrite firstn_all2, skipn_all2 by lia. reflexivity.
Qed.

Lemma chunks_zeros size count :
  chunks size count (zeros (count * size)) = repeat (zeros size) count.
Proof.
  induction count as [|count IH]; [reflexivity|].
  unfold zeros in *. cbn [Nat.mul]. rewrite repeat_app.
  rewrite chunks_cons by apply repeat_length.
  cbn [repeat]. rewrite IH. reflexivity.
Qed.






End ByteOrder.

(** ** Two's complement *)

Lemma pow2_half w : 0 < w -> 2 ^ w = 2 * 2 ^ (w - 1).
Proof.
  intros Hw. replace w with (1 + (w - 1)) at 1 by lia.
  rewrite Z.pow_add_r by lia. reflexivity.
Qed.

Lemma to_signed_mod w z :
  0 < w -> - 2 ^ (w - 1) <= z < 2 ^ (w - 1) -> to_signed w (z mod 2 ^ w) = z.
Proof.
  intros Hw Hz. unfold to_signed.
  pose proof (pow2_half w Hw) as H2.
  assert (Hp : 0 < 2 ^ (w - 1)) by (apply Z.pow_pos_nonneg; lia).
  destruct (Z.lt_ge_cases z 0) as [Hneg | Hpos].
  - assert (Hm : z mod 2 ^ w = z + 2 ^ w).
    { symmetry. apply Z.mod_unique with (q := -1); lia. }
    rewrite Hm. destruct (Z.ltb_spec (z + 2 ^ w) (2 ^ (w - 1))); lia.
  - rewrite Z.mod_small by lia.
    destruct (Z.ltb_spec z (2 ^ (w - 1))); lia.
Qed.

Lemma int_to_bytes_mod o n z :
  int_to_bytes o n (z mod 2 ^ (Z.of_nat n * 8)) = int_to_bytes o n z.
Proof. destruct o; cbn [int_to_bytes]; rewrite <- le_split_mod; reflexivity. Qed.


(** What the getter of an integer type reads after its setter is the value
    of the type congruent to the one given. *)
Lemma wrap_wraps_to c z : wraps_to c z (wrap c z).
Proof.
  unfold wraps_to, c_in_range, wrap.
  set (w := 8 * Z.of_nat (c_sizeof c)).
  assert (Hw : 0 < w) by (unfold w; destruct c; cbn; lia).
  pose proof (pow2_half w Hw) as H2.
  assert (Hp : 0 < 2 ^ (w - 1)) by (apply Z.pow_pos_nonneg; lia).
  pose proof (Z.mod_pos_bound z (2 ^ w) ltac:(lia)) as Hm.
  pose proof (Z.div_mod z (2 ^ w) ltac:(lia)) as Hdm.
  destruct (c_is_signed c).
  - unfold to_signed. destruct (Z.ltb_spec (z mod 2 ^ w) (2 ^ (w - 1))).
    + split; [lia|]. exists (- (z / 2 ^ w)). lia.
    + split; [lia|]. exists (- (z / 2 ^ w) - 1). lia.
  - split; [lia|]. exists (- (z / 2 ^ w)). lia.
Qed.

(** There is one such value. *)
Lemma wraps_to_unique c z v v' : wraps_to c z v -> wraps_to c z v' -> v = v'.
Proof.
  unfold wraps_to, c_in_range.
  set (w := 8 * Z.of_nat (c_sizeof c)).
  assert (Hw : 0 < w) by (unfold w; destruct c; cbn; lia).
  pose proof (pow2_half w Hw) as H2.
  assert (Hp : 0 < 2 ^ (w - 1)) by (apply Z.pow_pos_nonneg; lia).
  intros [Hr [k Hk]] [Hr' [k' Hk']].
  assert (Hd : v - v' = (k - k') * 2 ^ w) by lia.
  assert (Hk0 : k - k' = 0) by (destruct (c_is_signed c); nia).
  nia.
Qed.

(** ** Integer fields, byte by byte *)

Lemma simple_set_int_bytes host c sw z :
  c_is_float c = false ->
  simple_set host c sw (PyInt z)
  = OK (int_to_bytes (stored_order host sw) (c_sizeof c) z).
Proof.
  intros Hint. unfold simple_set, stored_order. rewrite Hint. f_equal.
  rewrite <- to_bytes_width. destruct sw.
  - rewrite int_to_bytes_bswap, int_to_bytes_mod, int_to_bytes_other_order. reflexivity.
  - apply int_to_bytes_mod.
Qed.

Lemma simple_get_int_bytes host c sw z :
  c_is_float c = false ->
  simple_get host c sw (int_to_bytes (stored_order host sw) (c_sizeof c) z)
  = PyInt (wrap c z).
Proof.
  intros Hint.
  destruct (simple_get_set_int host c sw z Hint) as (bs & Hset & Hget).
  rewrite simple_set_int_bytes in Hset by exact Hint. injection Hset as <-.
  exact Hget.
Qed.

(** ** The exceptions of the setters *)

Lemma simple_set_exc host c sw v e :
  simple_set host c sw v = Raise e -> e = TypeError_ctypes \/ e = OverflowError_ctypes.
Proof.
  unfold simple_set. destruct (c_is_float c).
  - destruct v as [z|f|l|s|]; cbn [bind]; try (intros H; injection H as <-; auto).
    + unfold float_of_int.
      destruct (binary_normalize 53 1024 z 0 false); cbn [bind];
        try discriminate. intros H; injection H as <-; auto.
    + discriminate.
  - destruct v; try discriminate; intros H; injection H as <-; auto.
Qed.

Lemma cdata_set_raises host t : forall v e,
  cdata_set host t v = Raise e ->
  e = TypeError_ctypes \/ e = OverflowError_ctypes \/ e = RuntimeError_ctypes.
Proof.
  destruct t as [c sw | elt len]; intros v e H; cbn [cdata_set] in H.
  - apply simple_set_exc in H. destruct H; auto.
  - destruct v as [z|f|items|s|]; try (injection H as <-; auto).
    destruct (array_fill _ _ _ _); cbn [as_runtime_error] in H; [discriminate|].
    injection H as <-. auto.
Qed.

Lemma setattr_raises host self name v e :
  setattr host self name v = Raise e ->
  match find_descr (ob_type self) name with
  | Some _ => e = TypeError_ctypes \/ e = OverflowError_ctypes \/ e = RuntimeError_ctypes
  | None => (readonly_attribute name = true /\ e = AttributeError) \/
            (typed_attribute name = true /\ e = TypeError_attribute)
  end.
Proof.
  unfold setattr. destruct (find_descr (ob_type self) name) as [fd|].
  - destruct (cdata_set host (f_type fd) v) as [bs|e'] eqn:E; cbn [bind]; [discriminate|].
    intros H. injection H as <-. eapply cdata_set_raises, E.
  - destruct (readonly_attribute name); [intros H; injection H as <-; auto|].
    destruct (typed_attribute name); [intros H; injection H as <-; auto|].
    discriminate.
Qed.

Lemma Struct_init_raises host kwds : forall self e,
  Struct_init host self kwds = Raise e ->
  e = TypeError_ctypes \/ e = OverflowError_ctypes \/ e = RuntimeError_ctypes \/
  e = AttributeError \/ e = TypeError_attribute.
Proof.
  induction kwds as [|[k w] kwds IH]; intros self e H; [discriminate|].
  cbn [Struct_init] in H.
  destruct (setattr host self k w) as [self1|e'] eqn:E; cbn [bind] in H.
  - eapply IH, H.
  - injection H as <-. apply setattr_raises in E.
    destruct (find_descr (ob_type self) k); intuition.
Qed.

Lemma Struct_init_exc host kwds self e :
  Struct_init host self kwds = Raise e -> e <> TypeError_multiple_values.
Proof.
  intros H. apply Struct_init_raises in H.
  destruct H as [-> | [-> | [-> | [-> | ->]]]]; discriminate.
Qed.

(** ** Which values a setter takes *)

Lemma simple_set_accepts host c sw v :
  (exists bs, simple_set host c sw v = OK bs) <-> accepts (CSimple c sw) v = true.
Proof.
  unfold simple_set. cbn [accepts]. destruct (c_is_float c).
  - destruct v as [z|f|items|s|]; cbn [bind].
    + destruct (float_of_int z); cbn [bind];
        (split; [intros [bs H]; (reflexivity || discriminate)
                | intros H; (discriminate || (eexists; reflexivity))]).
    + split; [reflexivity | intros _; eexists; reflexivity].
    + split; [intros [bs H]; discriminate | discriminate].
    + split; [intros [bs H]; discriminate | discriminate].
    + split; [intros [bs H]; discriminate | discriminate].
  - destruct v as [z|f|items|s|];
      (split; [intros [bs H]; (reflexivity || discriminate)
              | intros H; (discriminate || (eexists; reflexivity))]).
Qed.

Lemma array_fill_accepts set_item (ok : pyval -> bool) size :
  forall items room,
    (forall v, In v items -> ((exists bs, set_item v = OK bs) <-> ok v = true)) ->
    ((exists bs, array_fill set_item size items room = OK bs)
     <-> (length items <=? room)%nat && forallb ok items = true).
Proof.
  induction items as [|item items IH]; intros room Hitem.
  - cbn. split; [reflexivity | intros _; eexists; reflexivity].
  - destruct room as [|room]; cbn [array_fill length forallb Nat.leb].
    + split; [intros [bs H]; discriminate | discriminate].
    + specialize (IH room (fun v Hv => Hitem v (or_intror Hv))).
      pose proof (Hitem item (or_introl eq_refl)) as Hhead.
      change (length items <=? room)%nat with (Nat.leb (length items) room) in IH.
      destruct (set_item item) as [b|] eqn:Eb; cbn [bind].
      * assert (Hok : ok item = true) by (apply Hhead; eexists; reflexivity).
        rewrite Hok. cbn [andb].
        destruct (array_fill set_item size items room) as [rest|] eqn:Er; cbn [bind].
        -- split; [intros _; apply IH; eexists; reflexivity | intros _; eexists; reflexivity].
        -- split; [intros [bs H]; discriminate|].
           intros H. apply IH in H. destruct H as [bs H]. discriminate.
      * split; [intros [bs H]; discriminate|].
        intros H. apply Bool.andb_true_iff in H. destruct H as [_ H].
        apply Bool.andb_true_iff in H. destruct H as [H _].
        apply Hhead in H. destruct H as [bs H]. discriminate.
Qed.

(** A field setter succeeds on the values its type takes, on either host. *)
Lemma cdata_set_accepts host t : forall v,
  (exists bs, cdata_set host t v = OK bs) <-> accepts t v = true.
Proof.
  induction t as [c sw | elt IH len]; intros v.
  - apply simple_set_accepts.
  - cbn [cdata_set accepts]. destruct v as [z|f|items|s|];
      try (split; [intros [bs H]; discriminate | discriminate]).
    rewrite <- (array_fill_accepts (cdata_set host elt) (accepts elt) (sizeof elt) items len)
      by (intros v _; apply IH).
    destruct (array_fill (cdata_set host elt) (sizeof elt) items len); cbn [as_runtime_error].
    + split; intros _; eexists; reflexivity.
    + split; intros [bs H]; discriminate.
Qed.

Lemma setattr_assignable host self name v :
  (exists self', setattr host self name v = OK self')
  <-> assignable (ob_type self) name v = true.
Proof.
  unfold setattr, assignable, reserved_attribute.
  destruct (find_descr (ob_type self) name) as [fd|].
  - rewrite <- (cdata_set_accepts host).
    destruct (cdata_set host (f_type fd) v) as [bs|]; cbn [bind].
    + split; intros _; eexists; reflexivity.
    + split; intros [x H]; discriminate.
  - destruct (readonly_attribute name); cbn [orb negb].
    + split; [intros [x H]; discriminate | discriminate].
    + destruct (typed_attribute name); cbn [negb].
      * split; [intros [x H]; discriminate | discriminate].
      * split; [reflexivity | intros _; eexists; reflexivity].
Qed.

(** [Structure.__init__] goes through exactly when every keyword can be
    assigned. *)
Lemma Struct_init_assignable host kwds : forall self,
  (exists r, Struct_init host self kwds = OK r)
  <-> (forall name v, In (name, v) kwds -> assignable (ob_type self) name v = true).
Proof.
  induction kwds as [|[k w] kwds IH]; intros self.
  - split; [intros _ ? ? [] | intros _; eexists; reflexivity].
  - cbn [Struct_init]. split.
    + intros [r H]. bind_inv H as self1 E.
      intros name v [Heq | Hin].
      * injection Heq as <- <-. apply (setattr_assignable host). eexists. exact E.
      * rewrite <- (setattr_type _ _ _ _ _ E).
        apply (proj1 (IH self1)); [eexists; exact H | exact Hin].
    + intros Hall.
      destruct (proj2 (setattr_assignable host self k w) (Hall k w (or_introl eq_refl)))
        as [self1 E].
      rewrite E. cbn [bind]. apply IH. intros name v Hin.
      rewrite (setattr_type _ _ _ _ _ E). apply Hall. right. exact Hin.
Qed.

Lemma positional_keys (fields : list field) (args : list pyval) name :
  In name (dict_keys (dict_update [] (combine (map fst fields) args)))
  <-> In name (firstn (length args) (map fst fields)).
Proof. rewrite dict_update_keys_In, map_fst_combine. cbn. intuition. Qed.

(** A constructor call goes through exactly when no keyword is named [self],
    no keyword repeats the name of a field that a positional argument fills,
    and every entry of the merged dictionary can be assigned. *)
Lemma construct_OK_iff host h cls fields args kwargs :
  class_fields h cls = OK fields ->
  ((exists r, construct host h cls args kwargs = OK r)
   <-> (~ In "self"%string (dict_keys kwargs) /\
        (forall name, In name (firstn (length args) (map fst fields)) ->
                      ~ In name (dict_keys kwargs)) /\
        (forall name v, dict_get (merged_kwargs fields args kwargs) name = Some v ->
                        assignable cls name v = true))).
Proof.
  intros Hf. unfold construct, TCStruct_init. cbn [ob_type new_instance].
  rewrite Hf. cbn [bind].
  destruct (mem_string "self" (dict_keys kwargs)) eqn:Eself.
  { apply mem_string_In in Eself.
    split; [intros [r H]; discriminate | intros [H _]; contradiction]. }
  assert (Hself : ~ In "self"%string (dict_keys kwargs)).
  { intros H. apply mem_string_In in H. congruence. }
  destruct (keys_inter (dict_keys kwargs)
              (dict_keys (dict_update [] (combine (map fst fields) args))))
    as [|k rest] eqn:E.
  - rewrite keys_inter_nil in E.
    fold (merged_kwargs fields args kwargs).
    rewrite (Struct_init_assignable host _ (new_instance cls)). cbn [ob_type new_instance].
    split.
    + intros Hall. split; [exact Hself|]. split.
      * intros name Hpos Hkw. apply (E name Hkw). apply positional_keys. exact Hpos.
      * intros name v Hget. apply Hall. apply dict_get_In. exact Hget.
    + intros (_ & _ & Hall) name v Hin. apply Hall.
      apply In_dict_get; [apply merged_kwargs_NoDup | exact Hin].
  - split; [intros [r H]; discriminate|].
    intros (_ & Hov & _). exfalso.
    assert (Hne : keys_inter (dict_keys kwargs)
                    (dict_keys (dict_update [] (combine (map fst fields) args))) <> [])
      by (rewrite E; discriminate).
    apply keys_inter_cons in Hne. destruct Hne as (name & Hkw & Hpos).
    apply (Hov name); [apply positional_keys; exact Hpos | exact Hkw].
Qed.

(** ** Public field names *)

Lemma public_fields_find cls name :
  public_fields cls = true -> startswith_underscore name = true ->
  find_descr cls name = None.
Proof.
  unfold public_fields. intros Hpub Hname.
  destruct (find_descr cls name) as [fd|] eqn:E; [|reflexivity].
  apply find_descr_In in E.
  rewrite forallb_forall in Hpub. specialize (Hpub _ E). cbn [fst] in Hpub.
  rewrite Hname in Hpub. discriminate.
Qed.

Lemma reserved_attribute_underscore name :
  reserved_attribute name = true -> startswith_underscore name = true.
Proof.
  unfold reserved_attribute, readonly_attribute, typed_attribute, mem_string.
  cbn [existsb]. rewrite !orb_false_r, !orb_true_iff.
  intros H. repeat destruct H as [H | H]; apply String.eqb_eq in H; subst; reflexivity.
Qed.

Lemma Struct_init_setters host kwds : forall self r,
  Struct_init host self kwds = OK r ->
  forall name v fd,
    In (name, v) kwds -> find_descr (ob_type self) name = Some fd ->
    exists bs, cdata_set host (f_type fd) v = OK bs.
Proof.
  induction kwds as [|[k w] kwds IH]; intros self r H name v fd Hin Hfd;
    [destruct Hin|].
  cbn [Struct_init] in H. bind_inv H as self1 E.
  destruct Hin as [Heq | Hin].
  - injection Heq as -> ->. unfold setattr in E. rewrite Hfd in E.
    destruct (cdata_set host (f_type fd) v) as [bs|]; [|discriminate].
    exists bs. reflexivity.
  - eapply IH; [exact H | exact Hin |].
    rewrite (setattr_type _ _ _ _ _ E). exact Hfd.
Qed.

(** ** A structure with a single scalar field *)

Lemma ValueStruct_class host order c :
  ValueStruct_definition host order c
  = (module_heap ++ [[("value"%string, TyC (scalar_field_type host order c))]],
     OK (Class (endian_struct host order)
           (with_fields (class_body (fields_only [("value"%string, AScalar c)])) 1%nat)
           [("value"%string, {| f_offset := 0; f_type := scalar_field_type host order c |})]
           (c_sizeof (_ctype c)) (c_sizeof (_ctype c)))).
Proof. destruct host, order, c; reflexivity. Qed.

Lemma sizeof_scalar_field_type host order c :
  sizeof (scalar_field_type host order c) = c_sizeof (_ctype c).
Proof. unfold scalar_field_type. destruct (needs_swap host (Some order)); reflexivity. Qed.

Lemma write_at_all (bs : list byte) n :
  length bs = n -> write_at 0 bs (zeros n) = bs.
Proof.
  intros <-. unfold write_at. cbn [firstn app Nat.add].
  rewrite skipn_all2 by (unfold zeros; rewrite repeat_length; lia).
  apply app_nil_r.
Qed.

(** The record made from one value is the field setter's output. *)
Lemma ValueStruct_construct host order c v :
  result_map to_bytes
    (construct host (ValueStruct_heap host order c) (ValueStruct host order c) [v] [])
  = cdata_set host (scalar_field_type host order c) v.
Proof.
  unfold ValueStruct_heap, ValueStruct. rewrite ValueStruct_class.
  cbn [fst snd defined_class].
  generalize (sizeof_scalar_field_type host order c).
  generalize (scalar_field_type host order c). intros t Hsz.
  unfold construct, TCStruct_init, class_fields.
  cbn [dict_keys map mem_string existsb].
  cbn [ob_type new_instance class_fields_ref with_fields ns_fields bind].
  change (deref (module_heap ++ [[("value"%string, TyC t)]]) 1%nat) with [("value"%string, TyC t)].
  cbn [map fst combine dict_update fold_left dict_setitem snd dict_keys keys_inter filter
       Struct_init].
  unfold setattr. cbn [ob_type].
  replace (find_descr _ "value"%string) with (Some {| f_offset := 0; f_type := t |})
    by (destruct order; reflexivity).
  cbn [f_type f_offset].
  destruct (cdata_set host t v) as [bs|] eqn:E; cbn [bind result_map]; [|reflexivity].
  unfold to_bytes, bytes_of. cbn [b_ptr class_size]. f_equal.
  apply write_at_all. rewrite <- Hsz. eapply cdata_set_length, E.
Qed.

(** The object made from one value shows what the field getter reads from
    the setter's output. *)
Lemma ValueStruct_construct_value host order c v :
  bind (construct host (ValueStruct_heap host order c) (ValueStruct host order c) [v] [])
    (fun r => getattr host r "value"%string)
  = bind (cdata_set host (scalar_field_type host order c) v)
      (fun bs => OK (cdata_get host (scalar_field_type host order c) bs)).
Proof.
  unfold ValueStruct_heap, ValueStruct. rewrite ValueStruct_class.
  cbn [fst snd defined_class].
  generalize (sizeof_scalar_field_type host order c).
  generalize (scalar_field_type host order c). intros t Hsz.
  unfold construct, TCStruct_init, class_fields.
  cbn [dict_keys map mem_string existsb].
  cbn [ob_type new_instance class_fields_ref with_fields ns_fields bind].
  change (deref (module_heap ++ [[("value"%string, TyC t)]]) 1%nat) with [("value"%string, TyC t)].
  cbn [map fst combine dict_update fold_left dict_setitem snd dict_keys keys_inter filter
       Struct_init].
  unfold setattr, getattr. cbn [ob_type].
  replace (find_descr _ "value"%string) with (Some {| f_offset := 0; f_type := t |})
    by (destruct order; reflexivity).
  cbn [f_type f_offset].
  destruct (cdata_set host t v) as [bs|] eqn:E; cbn [bind]; [|reflexivity].
  cbn [ob_type b_ptr class_size].
  replace (find_descr _ "value"%string) with (Some {| f_offset := 0; f_type := t |})
    by (destruct order; reflexivity).
  cbn [f_type f_offset]. do 2 f_equal.
  pose proof (cdata_set_length _ _ _ _ E) as Hlen.
  unfold new_instance. cbn [b_ptr class_size].
  rewrite write_at_all by (rewrite <- Hsz; exact Hlen).
  rewrite <- Hlen. apply read_at_all.
Qed.

(** Decoding a buffer of the field's size reads the field getter's value. *)
Lemma ValueStruct_decode host order c data :
  length data = c_sizeof (_ctype c) ->
  bind (from_bytes (ValueStruct host order c) data)
    (fun r => getattr host r "value"%string)
  = OK (cdata_get host (scalar_field_type host order c) data).
Proof.
  intros Hlen. unfold ValueStruct. rewrite ValueStruct_class.
  cbn [fst snd defined_class].
  generalize (sizeof_scalar_field_type host order c).
  generalize (scalar_field_type host order c). intros t Hsz.
  unfold from_bytes.
  replace (is_descriptor _ "from_bytes"%string) with false by (destruct order; reflexivity).
  replace (is_descriptor _ "from_buffer_copy"%string) with false
    by (destruct order; reflexivity).
  unfold from_buffer_copy. cbn [class_size].
  rewrite Hlen, Nat.ltb_irrefl. cbn [bind].
  unfold getattr. cbn [ob_type].
  replace (find_descr _ "value"%string) with (Some {| f_offset := 0; f_type := t |})
    by (destruct order; reflexivity).
  cbn [f_type f_offset b_ptr]. rewrite Hsz.
  unfold read_at. cbn [skipn].
  rewrite <- Hlen, !firstn_all. reflexivity.
Qed.

(** Writing on a host of the other byte order reverses a scalar's bytes. *)
Lemma simple_set_other_host host c v :
  simple_set (other_order host) c false v
  = result_map (@rev byte) (simple_set host c false v).
Proof.
  unfold simple_set. destruct (c_is_float c).
  - destruct (match v with
              | PyFloat f => OK f
              | PyInt z => float_of_int z
              | PyTuple _ | PyStr _ | PyNone => Raise TypeError_ctypes
              end); cbn [bind result_map]; [|reflexivity].
    rewrite int_to_bytes_other_order. reflexivity.
  - destruct v; cbn [result_map]; try reflexivity.
    rewrite int_to_bytes_other_order. reflexivity.
Qed.

Lemma simple_get_other_host host c bs :
  simple_get (other_order host) c false bs = simple_get host c false (rev bs).
Proof.
  unfold simple_get.
  rewrite <- (int_from_bytes_other_order host (rev bs)), rev_involutive. reflexivity.
Qed.

Lemma needs_swap_false host : needs_swap host (Some host) = false.
Proof. destruct host; reflexivity. Qed.

Lemma byteorder_cases host order : order = host \/ order = other_order host.
Proof. destruct host, order; auto. Qed.

(** A scalar field of a class of declared order [order] holds what a
    host-order field holds on a host of that order, whatever the host. *)
Lemma scalar_field_set host order c v :
  cdata_set host (scalar_field_type host order c) v = simple_set order (_ctype c) false v.
Proof.
  unfold scalar_field_type.
  destruct (byteorder_cases host order) as [-> | ->].
  - rewrite needs_swap_false. reflexivity.
  - replace (needs_swap host (Some (other_order host))) with true by (destruct host; reflexivity).
    cbn [other_endian_ctype cdata_set].
    rewrite simple_set_other_endian, simple_set_other_host. reflexivity.
Qed.

Lemma scalar_field_get host order c bs :
  length bs = c_sizeof (_ctype c) ->
  cdata_get host (scalar_field_type host order c) bs = simple_get order (_ctype c) false bs.
Proof.
  intros Hlen. unfold scalar_field_type.
  destruct (byteorder_cases host order) as [-> | ->].
  - rewrite needs_swap_false. reflexivity.
  - replace (needs_swap host (Some (other_order host))) with true by (destruct host; reflexivity).
    cbn [other_endian_ctype cdata_get].
    rewrite simple_get_other_host.
    rewrite <- (rev_involutive bs) at 1.
    apply simple_get_other_endian. rewrite length_rev. exact Hlen.
Qed.

Lemma simple_set_int host c z :
  c_is_float c = false ->
  simple_set host c false (PyInt z) = OK (int_to_bytes host (c_sizeof c) z).
Proof. intros Hint. apply (simple_set_int_bytes host c false z Hint). Qed.


(** * The claims *)

Lemma TCStruct_defined host :
  TCStructMeta_new host [] Structure TCStruct_body = (module_heap, OK TCStruct).
Proof. reflexivity. Qed.

Lemma LittleEndianStruct_defined host :
  TCStructMeta_new host module_heap TCStruct (endian_body host little)
  = (module_heap, OK (LittleEndianStruct host)).
Proof. reflexivity. Qed.

Lemma BigEndianStruct_defined host :
  TCStructMeta_new host module_heap TCStruct (endian_body host big)
  = (module_heap, OK (BigEndianStruct host)).
Proof. reflexivity. Qed.

(** The first test of the suite: the constructed little-endian record encodes
    to [EFBEADDE 010203A0 FEFF 0000 0000803F 0000000000000040] on either host. *)
Example test_littleendianstruct host :
  result_map to_bytes (construct host (MyStruct_heap host little) (MyStruct host little)
                MyStruct_args [])
  = OK [Byte.xef; Byte.xbe; Byte.xad; Byte.xde; Byte.x01; Byte.x02; Byte.x03; Byte.xa0;
        Byte.xfe; Byte.xff; Byte.x00; Byte.x00; Byte.x00; Byte.x00; Byte.x80; Byte.x3f;
        Byte.x00; Byte.x00; Byte.x00; Byte.x00; Byte.x00; Byte.x00; Byte.x00; Byte.x40].
Proof. destruct host; vm_compute; reflexivity. Qed.

(** [test_bytes]: decoding the big-endian image gives back the field values. *)
Example test_bytes host :
  let data := [Byte.xde; Byte.xad; Byte.xbe; Byte.xef; Byte.x01; Byte.x02; Byte.x03; Byte.xa0;
               Byte.xff; Byte.xfe; Byte.x00; Byte.x00; Byte.x3f; Byte.x80; Byte.x00; Byte.x00;
               Byte.x40; Byte.x00; Byte.x00; Byte.x00; Byte.x00; Byte.x00; Byte.x00; Byte.x00] in
  exists r, from_bytes (MyStruct host big) data = OK r /\
    getattr host r "magicnumber"%string%string = OK (PyInt 3735928559) /\
    getattr host r "version"%string = OK (PyTuple [PyInt 1; PyInt 2; PyInt 3; PyInt 160]) /\
    getattr host r "value"%string = OK (PyInt 65534) /\
    getattr host r "fvalue"%string = OK py_1_0 /\
    getattr host r "dvalue"%string = OK py_2_0 /\
    to_bytes r = data.
Proof.
  destruct host; eexists;
    (split; [vm_compute; reflexivity | repeat split; vm_compute; reflexivity]).
Qed.

(** The class derived in [test_derivation] lists three fields, yet ctypes
    appends that list to the layout inherited from the base: the record is 20
    bytes long and the first 8 are never written. *)
Example test_derivation host :
  let u32 := TyC (CSimple c_uint32 (needs_swap host (Some little))) in
  exists h cls r,
    MyDerivedStruct_definition host = (h, OK cls) /\
    class_fields h cls
    = OK [("common1", u32); ("common2", u32); ("special1", u32)]%string /\
    class_size cls = 20%nat /\
    construct host h cls [PyInt 1; PyInt 2; PyInt 3] [] = OK r /\
    getattr host r "common1"%string = OK (PyInt 1) /\
    getattr host r "common2"%string = OK (PyInt 2) /\
    getattr host r "special1"%string = OK (PyInt 3) /\
    read_at 0 8 (to_bytes r) = zeros 8.
Proof.
  destruct host; do 3 eexists;
    (split; [vm_compute; reflexivity|]);
    (split; [vm_compute; reflexivity|]);
    (split; [vm_compute; reflexivity|]);
    (split; [vm_compute; reflexivity|]);
    repeat split; vm_compute; reflexivity.
Qed.

(** [test_endian], integer types: a record built from the test value encodes
    to the value's bytes in the declared order, and decoding those bytes reads
    the value back. *)
Example test_endian host order c :
  _bitwidth c > 8 -> c_is_float (_ctype c) = false ->
  let seq := int_to_bytes order (Z.to_nat (_bitwidth c / 8)) (testvalue c) in
  result_map to_bytes
    (construct host (ValueStruct_heap host order c) (ValueStruct host order c)
       [PyInt (testvalue c)] [])
  = OK seq /\
  result_map to_bytes (from_bytes (ValueStruct host order c) seq) = OK seq /\
  bind (from_bytes (ValueStruct host order c) seq)
    (fun r => getattr host r "value"%string)
  = OK (PyInt (testvalue c)).
Proof.
  intros Hw Hint.
  destruct c; try (cbn in Hw; lia); try discriminate;
    destruct host, order; cbv zeta;
    (split; [vm_compute; reflexivity | split; vm_compute; reflexivity]).
Qed.
(** ** Decoding: [from_bytes] *)

(** C8, counterexample. A class may declare a field named [from_bytes].  The
    field's descriptor then stands where the class method stood: decoding
    raises [TypeError], from two bytes for a class of size one as from no
    bytes at all, and never the buffer-too-small [ValueError]. *)
Lemma decoding_counterexample :
  ByteStruct_definition little "from_bytes"
  = (ByteStruct_heap little "from_bytes", OK (ByteStruct little "from_bytes")) /\
  class_size (ByteStruct little "from_bytes") = 1%nat /\
  from_bytes (ByteStruct little "from_bytes") [Byte.x01; Byte.x02]
  = Raise TypeError_not_callable /\
  from_bytes (ByteStruct little "from_bytes") [] = Raise TypeError_not_callable.
Proof. repeat split. Qed.

(** C8, amended. For a class without a field named [from_bytes] or
    [from_buffer_copy], decoding raises the buffer-too-small [ValueError]
    exactly when the data is shorter than the class's size, and then returns
    no instance; with at least that many bytes it succeeds and the record
    holds exactly the first [class_size] bytes, whatever follows them.  For a
    class with such a field decoding raises [TypeError], whatever the data. *)
Theorem from_bytes_buffer_too_short cls data :
  (is_descriptor cls "from_bytes" || is_descriptor cls "from_buffer_copy" = true ->
   from_bytes cls data = Raise TypeError_not_callable) /\
  (is_descriptor cls "from_bytes" || is_descriptor cls "from_buffer_copy" = false ->
   (from_bytes cls data = Raise ValueError_buffer_too_small
    <-> (length data < class_size cls)%nat) /\
   (forall e, from_bytes cls data = Raise e -> e = ValueError_buffer_too_small) /\
   ((length data < class_size cls)%nat -> forall r, from_bytes cls data <> OK r) /\
   ((class_size cls <= length data)%nat ->
    exists r, from_bytes cls data = OK r /\
              ob_type r = cls /\
              ob_dict r = [] /\
              to_bytes r = firstn (class_size cls) data /\
              forall extra, from_bytes cls (firstn (class_size cls) data ++ extra) = OK r)).
Proof.
  unfold from_bytes.
  destruct (is_descriptor cls "from_bytes"); cbn [orb].
  { split; [reflexivity | discriminate]. }
  destruct (is_descriptor cls "from_buffer_copy").
  { split; [reflexivity | discriminate]. }
  split; [discriminate|]. intros _. unfold from_buffer_copy.
  destruct (Nat.ltb_spec (length data) (class_size cls)) as [Hlt | Hge].
  - repeat split; try congruence; try lia.
  - repeat split; try discriminate; try lia.
    intros _. eexists. split; [reflexivity|]. split; [reflexivity|].
    split; [reflexivity|]. split; [reflexivity|]. intros extra.
    assert (Hlen : length (firstn (class_size cls) data) = class_size cls)
      by (rewrite length_firstn; lia).
    destruct (Nat.ltb_spec (length (firstn (class_size cls) data ++ extra))
                (class_size cls)) as [Hlt' | _].
    + rewrite length_app in Hlt'. lia.
    + rewrite firstn_app, Hlen, Nat.sub_diag, firstn_O, app_nil_r.
      rewrite firstn_all2 by lia. reflexivity.
Qed.

(** ** Construction: duplicate arguments *)

(** C7, counterexample. The record of the one field [value] is constructed
    from one positional argument and the keyword [self]: no field is given
    twice, yet the call raises the "multiple values" [TypeError], the
    keyword being a second value for the parameter [self] of [__init__]. *)
Lemma duplicate_argument_counterexample :
  class_fields (ValueStruct_heap little little uint16_t)
    (ValueStruct little little uint16_t)
  = OK [("value"%string, TyC (CSimple c_uint16 false))] /\
  construct little (ValueStruct_heap little little uint16_t)
    (ValueStruct little little uint16_t) [PyInt 7] [("self"%string, PyInt 1)]
  = Raise TypeError_multiple_values /\
  ~ (exists name, In name (firstn (length [PyInt 7]) ["value"%string]) /\
                  In name (dict_keys [("self"%string, PyInt 1)])).
Proof.
  split; [reflexivity|]. split; [reflexivity|].
  intros (name & [<- | []] & [H | []]). discriminate.
Qed.

(** C7, amended. For a class with public field names the constructor raises
    the "multiple values" [TypeError] exactly when some field name is both
    among the names the positional arguments are zipped with and among the
    keyword names, or a keyword is named [self]; no instance is returned
    then. *)
Theorem duplicate_argument_iff host h cls fields args kwargs :
  public_fields cls = true ->
  class_fields h cls = OK fields ->
  (construct host h cls args kwargs = Raise TypeError_multiple_values
   <-> (In "self"%string (dict_keys kwargs) \/
        exists name, In name (firstn (length args) (map fst fields)) /\
                     In name (dict_keys kwargs))) /\
  (construct host h cls args kwargs = Raise TypeError_multiple_values ->
   forall r, construct host h cls args kwargs <> OK r).
Proof.
  intros _ Hf. split; [|congruence].
  unfold construct, TCStruct_init. cbn [ob_type new_instance].
  destruct (mem_string "self" (dict_keys kwargs)) eqn:Eself.
  { apply mem_string_In in Eself. split; [intros _; left; exact Eself | reflexivity]. }
  assert (Hself : ~ In "self"%string (dict_keys kwargs)).
  { intros H. apply mem_string_In in H. congruence. }
  rewrite Hf. cbn [bind].
  destruct (keys_inter (dict_keys kwargs)
              (dict_keys (dict_update [] (combine (map fst fields) args))))
    as [|k rest] eqn:E.
  - split.
    + intros H. exfalso. eapply Struct_init_exc; [exact H | reflexivity].
    + intros [H | (name & Hpos & Hkw)]; [contradiction|]. exfalso.
      rewrite keys_inter_nil in E. apply (E name Hkw). apply positional_keys, Hpos.
  - split; [|reflexivity]. intros _. right.
    assert (Hne : keys_inter (dict_keys kwargs)
                    (dict_keys (dict_update [] (combine (map fst fields) args))) <> [])
      by (rewrite E; discriminate).
    apply keys_inter_cons in Hne. destruct Hne as (name & Hkw & Hpos).
    exists name. split; [apply positional_keys, Hpos | exact Hkw].
Qed.

Lemma duplicate_argument_iff_witness :
  public_fields (MyStruct little little) = true /\
  class_fields (MyStruct_heap little little) (MyStruct little little)
  = OK (deref (MyStruct_heap little little) 1%nat) /\
  construct little (MyStruct_heap little little) (MyStruct little little)
    [PyInt 1] [("magicnumber"%string, PyInt 2)]
  = Raise TypeError_multiple_values.
Proof.
  split; [reflexivity|]. split; [reflexivity|].
  apply (proj1 (duplicate_argument_iff little (MyStruct_heap little little)
                  (MyStruct little little) (deref (MyStruct_heap little little) 1%nat)
                  [PyInt 1] [("magicnumber"%string, PyInt 2)] eq_refl eq_refl)).
  right. exists "magicnumber"%string. split; left; reflexivity.
Defined.
(** ** Round trip *)

(** C1, counterexample. A class may declare a field named [from_bytes] or
    [to_bytes].  With the first, a record is built and encoded, and its
    bytes cannot be decoded: [cls.from_bytes] is the field's descriptor.
    With the second, a record is built and cannot be encoded: [r.to_bytes]
    is the field's value. *)
Lemma round_trip_counterexample :
  (exists r,
      construct little (ByteStruct_heap little "from_bytes")
        (ByteStruct little "from_bytes") [PyInt 3] [] = OK r /\
      call_to_bytes r = OK [Byte.x03] /\
      from_bytes (ByteStruct little "from_bytes") [Byte.x03]
      = Raise TypeError_not_callable) /\
  (exists r,
      construct little (ByteStruct_heap little "to_bytes")
        (ByteStruct little "to_bytes") [PyInt 3] [] = OK r /\
      call_to_bytes r = Raise TypeError_not_callable).
Proof. split; eexists; repeat split. Qed.

(** C1, amended. For a class with a sound layout and public field names,
    none of them [to_bytes], [from_bytes] or [from_buffer_copy], and a record
    built by the constructor that carries no attribute [to_bytes] of its own:
    encoding succeeds, decoding the bytes succeeds, the decoded record
    re-encodes to the same bytes, each of its fields reads the same value as
    in the original, and that value is the one the field's setter stored for
    the supplied argument; for an integer field given the int [z] it is [z]
    after two's-complement wraparound.  The host and the class (hence its
    byte order and its packing) are arbitrary. *)
Theorem round_trip host h cls args kwargs r :
  layout_ok cls ->
  public_fields cls = true ->
  is_descriptor cls "to_bytes" = false ->
  is_descriptor cls "from_bytes" = false ->
  is_descriptor cls "from_buffer_copy" = false ->
  construct host h cls args kwargs = OK r ->
  dict_get (ob_dict r) "to_bytes" = None ->
  call_to_bytes r = OK (to_bytes r) /\
  exists r',
    from_bytes cls (to_bytes r) = OK r' /\
    call_to_bytes r' = OK (to_bytes r) /\
    (forall name fd,
        find_descr cls name = Some fd ->
        getattr host r' name = getattr host r name) /\
    (forall fields name v fd,
        class_fields h cls = OK fields ->
        dict_get (merged_kwargs fields args kwargs) name = Some v ->
        find_descr cls name = Some fd ->
        exists bs, cdata_set host (f_type fd) v = OK bs /\
                   getattr host r' name = OK (cdata_get host (f_type fd) bs)) /\
    (forall fields name z fd c sw,
        class_fields h cls = OK fields ->
        dict_get (merged_kwargs fields args kwargs) name = Some (PyInt z) ->
        find_descr cls name = Some fd ->
        f_type fd = CSimple c sw ->
        c_is_float c = false ->
        exists v, wraps_to c z v /\ getattr host r' name = OK (PyInt v)).
Proof.
  intros Hok _ Hto Hfrom Hcopy H Hattr.
  destruct (construct_spec host _ _ _ _ _ Hok H) as (fields & Hf & Hty & Hlen & Hset & _).
  split.
  { unfold call_to_bytes. rewrite Hty, Hto, Hattr. reflexivity. }
  exists {| ob_type := cls; b_ptr := b_ptr r; ob_dict := [] |}.
  assert (Hvalue : forall name v fd,
             dict_get (merged_kwargs fields args kwargs) name = Some v ->
             find_descr cls name = Some fd ->
             exists bs, cdata_set host (f_type fd) v = OK bs /\
                        getattr host {| ob_type := cls; b_ptr := b_ptr r; ob_dict := [] |} name
                        = OK (cdata_get host (f_type fd) bs)).
  { intros name v fd Hget Hfd.
    destruct (Hset name v fd Hget Hfd) as (bs & Hbs & Hslot).
    exists bs. split; [exact Hbs|].
    unfold getattr. cbn [ob_type b_ptr]. rewrite Hfd. unfold slot in Hslot.
    rewrite Hslot. reflexivity. }
  split; [|split; [|split; [|split]]].
  - unfold from_bytes. rewrite Hfrom, Hcopy.
    unfold from_buffer_copy, to_bytes, bytes_of.
    rewrite Hlen, Nat.ltb_irrefl. rewrite <- Hlen, firstn_all. reflexivity.
  - unfold call_to_bytes. cbn [ob_type ob_dict dict_get]. rewrite Hto. reflexivity.
  - intros name fd Hfd. unfold getattr. cbn [ob_type b_ptr]. rewrite Hty, Hfd.
    reflexivity.
  - intros fields' name v fd Hf'. rewrite Hf in Hf'. injection Hf' as <-.
    apply Hvalue.
  - intros fields' name z fd c sw Hf' Hget Hfd Hc Hint.
    rewrite Hf in Hf'. injection Hf' as <-.
    destruct (Hvalue name (PyInt z) fd Hget Hfd) as (bs & Hbs & Hg).
    rewrite Hc in Hbs, Hg. cbn [cdata_set cdata_get] in Hbs, Hg.
    rewrite simple_set_int_bytes in Hbs by exact Hint. injection Hbs as <-.
    rewrite simple_get_int_bytes in Hg by exact Hint.
    exists (wrap c z). split; [apply wrap_wraps_to | exact Hg].
Qed.

Lemma round_trip_witness :
  exists r,
    layout_ok (MyStruct little big) /\
    construct little (MyStruct_heap little big) (MyStruct little big) MyStruct_args []
    = OK r /\
    call_to_bytes r = OK (to_bytes r) /\
    exists r', from_bytes (MyStruct little big) (to_bytes r) = OK r' /\
               call_to_bytes r' = OK (to_bytes r).
Proof.
  eexists. split; [unfold layout_ok; vm_compute; lia|].
  split; [vm_compute; reflexivity|].
  destruct (round_trip little (MyStruct_heap little big) (MyStruct little big)
              MyStruct_args [] _ ltac:(unfold layout_ok; vm_compute; lia)
              eq_refl eq_refl eq_refl eq_refl eq_refl eq_refl)
    as (H0 & r' & H1 & H2 & _).
  split; [exact H0|]. exists r'. split; [exact H1 | exact H2].
Defined.

(** ** Truncation *)

Lemma combine_nil_r {A B} (l : list A) : combine l (@nil B) = [].
Proof. destruct l; reflexivity. Qed.

(** The width ctypes truncates to is the scalar class's declared [_bitwidth],
    and the signedness its [_signed]. *)
Lemma ctype_bitwidth c :
  8 * Z.of_nat (c_sizeof (_ctype c)) = _bitwidth c /\
  (c_is_float (_ctype c) = false -> c_is_signed (_ctype c) = _signed c).
Proof. destruct c; split; try reflexivity; discriminate. Qed.

Lemma wrap_unsigned c z :
  _signed c = false -> wrap (_ctype c) z = z mod 2 ^ _bitwidth c.
Proof. destruct c; try discriminate; reflexivity. Qed.












(** The items of an integer array are truncated one by one; items the tuple
    does not reach stay zero. *)
Lemma simple_set_zero host c sw :
  simple_set host c sw (PyInt 0) = OK (zeros (c_sizeof c)).
Proof. destruct host, c, sw; vm_compute; reflexivity. Qed.

Lemma simple_get_zeros host c sw :
  c_is_float c = false -> simple_get host c sw (zeros (c_sizeof c)) = PyInt 0.
Proof.
  intros Hint. destruct (simple_get_set_int host c sw 0 Hint) as (bs & Hset & Hget).
  rewrite simple_set_zero in Hset. injection Hset as <-.
  rewrite Hget. destruct c; reflexivity.
Qed.

Lemma array_items_truncation host c sw zs : forall len,
  c_is_float c = false ->
  (length zs <= len)%nat ->
  exists bs,
    cdata_set host (CArray (CSimple c sw) len) (PyTuple (map PyInt zs)) = OK bs /\
    cdata_get host (CArray (CSimple c sw) len) bs
    = PyTuple (map PyInt (map (wrap c) zs ++ repeat 0 (len - length zs)%nat)).
Proof.
  intros len Hint Hlen.
  set (elt := CSimple c sw).
  assert (Helt : forall bs, cdata_get host elt bs = simple_get host c sw bs)
    by reflexivity.
  assert (Hfill : exists bs,
             array_fill (cdata_set host elt) (sizeof elt) (map PyInt zs) len = OK bs /\
             map (cdata_get host elt) (chunks (sizeof elt) len bs)
             = map PyInt (map (wrap c) zs ++ repeat 0 (len - length zs)%nat)).
  { revert len Hlen. induction zs as [|z zs IH]; intros len Hlen.
    - eexists. split; [reflexivity|].
      cbn [map length app]. rewrite Nat.sub_0_r, chunks_zeros, !map_repeat.
      rewrite Helt. change (sizeof elt) with (c_sizeof c).
      rewrite simple_get_zeros by exact Hint. reflexivity.
    - destruct len as [|len]; [cbn in Hlen; lia|].
      cbn [map array_fill length].
      destruct (simple_get_set_int host c sw z Hint) as (b & Hb & Hgetb).
      destruct (IH len ltac:(cbn in Hlen; lia)) as (rest & Hrest & Hget).
      change (cdata_set host elt (PyInt z)) with (simple_set host c sw (PyInt z)).
      rewrite Hb, Hrest. cbn [bind]. eexists. split; [reflexivity|].
      rewrite chunks_cons by (eapply simple_set_length; exact Hb).
      cbn [map app Nat.sub]. rewrite Helt, Hgetb, Hget. reflexivity. }
  destruct Hfill as (bs & Hbs & Hget). exists bs.
  cbn [cdata_set cdata_get]. rewrite Hbs. cbn [as_runtime_error].
  split; [reflexivity|]. rewrite Hget. reflexivity.
Qed.

(** The values of [test_littleendianstruct] read back truncated, for either
    host and either declared order. *)
Example test_truncated_values host order :
  exists r,
    construct host (MyStruct_heap host order) (MyStruct host order) MyStruct_args []
    = OK r /\
    getattr host r "version"%string
    = OK (PyTuple [PyInt 1; PyInt 2; PyInt 3; PyInt 160]) /\
    getattr host r "value"%string = OK (PyInt 65534).
Proof.
  destruct host, order; eexists;
    (split; [vm_compute; reflexivity | split; vm_compute; reflexivity]).
Qed.

(** ** Missing fields *)

(** C6, counterexample. A class with the field [value] is constructed without
    any argument: no exception is raised, and the field reads 0. *)
Lemma missing_field_counterexample :
  class_fields (ValueStruct_heap little little uint16_t)
    (ValueStruct little little uint16_t)
  = OK [("value"%string, TyC (CSimple c_uint16 false))] /\
  exists r,
    construct little (ValueStruct_heap little little uint16_t)
      (ValueStruct little little uint16_t) [] []
    = OK r /\
    getattr little r "value"%string = OK (PyInt 0).
Proof.
  split; [reflexivity|]. eexists.
  split; [vm_compute; reflexivity | vm_compute; reflexivity].
Qed.

(** C6, amended. Leaving fields out is no error: for a class with public
    field names, construction without any argument returns the zeroed
    record; and in every constructed record each field that was supplied
    neither by position nor by name holds zero bytes. *)
Theorem unsupplied_fields_are_zero host h cls fields :
  layout_ok cls ->
  public_fields cls = true ->
  class_fields h cls = OK fields ->
  construct host h cls [] [] = OK (new_instance cls) /\
  (forall args kwargs r name fd,
      construct host h cls args kwargs = OK r ->
      find_descr cls name = Some fd ->
      ~ In name (dict_keys (merged_kwargs fields args kwargs)) ->
      slot fd (b_ptr r) = zeros (sizeof (f_type fd))).
Proof.
  intros Hok _ Hf. split.
  - unfold construct, TCStruct_init. cbn [ob_type new_instance dict_keys map mem_string existsb].
    rewrite Hf. cbn [bind]. rewrite combine_nil_r. reflexivity.
  - intros args kwargs r name fd H Hfd Hnot.
    destruct (construct_spec host _ _ _ _ _ Hok H) as (fields' & Hf' & _ & _ & _ & Hzero).
    rewrite Hf in Hf'. injection Hf' as <-.
    unfold slot, to_bytes, bytes_of. apply Hzero.
    + apply (find_descr_bounds _ _ _ Hok Hfd).
    + intros name' fd' Hin Hfd'.
      assert (Hne : name <> name') by (intros ->; exact (Hnot Hin)).
      destruct (find_descr_disjoint _ _ _ _ _ Hok Hfd Hfd' Hne) as [Hd | Hd];
        [left | right]; exact Hd.
Qed.

Lemma unsupplied_fields_are_zero_witness :
  layout_ok (MyStruct little little) /\
  public_fields (MyStruct little little) = true /\
  class_fields (MyStruct_heap little little) (MyStruct little little)
  = OK (deref (MyStruct_heap little little) 1%nat) /\
  construct little (MyStruct_heap little little) (MyStruct little little) [] []
  = OK (new_instance (MyStruct little little)).
Proof.
  split; [unfold layout_ok; vm_compute; lia|]. split; [reflexivity|].
  split; [reflexivity|].
  exact (proj1 (unsupplied_fields_are_zero little (MyStruct_heap little little)
                  (MyStruct little little) (deref (MyStruct_heap little little) 1%nat)
                  ltac:(unfold layout_ok; vm_compute; lia) eq_refl eq_refl)).
Defined.
(** ** Definitions do not disturb existing schemas *)

Lemma declaration_heap host h base d h' res :
  TCStructMeta_new host h base (class_body d) = (h', res) ->
  (length h <= length h')%nat /\
  forall l, (l < length h)%nat -> deref h' l = deref h l.
Proof.
  intros H. destruct (TCStructMeta_new_heap _ _ _ _ _ _ H) as [Hlen Hframe].
  split; [exact Hlen|]. intros l Hl. apply Hframe; [exact Hl|].
  cbn [class_body ns_fields]. discriminate.
Qed.

Lemma declaration_fields_ref host h base d h' cls l :
  class_fields_ref base = Some l -> (l < length h)%nat ->
  TCStructMeta_new host h base (class_body d) = (h', OK cls) ->
  exists l', class_fields_ref cls = Some l' /\ (l' < length h')%nat /\
             (own_annotations d <> [] -> l' = length h).
Proof.
  intros Hl Hlt H. destruct (own_annotations d) as [|a rest] eqn:Ea.
  - rewrite TCStructMeta_new_plain in H by exact Ea. injection H as <- <-.
    exists l. cbn [class_fields_ref class_body ns_fields].
    split; [exact Hl|]. split; [exact Hlt | congruence].
  - assert (Hne : own_annotations d <> []) by (rewrite Ea; discriminate).
    destruct (TCStructMeta_new_annotated _ _ _ _ _ _ Hne H)
      as (own & ds & size & align & _ & -> & -> & _).
    exists (length h). cbn [class_fields_ref with_fields ns_fields].
    split; [reflexivity|]. split; [|reflexivity].
    rewrite length_app. cbn [length]. lia.
Qed.

(** What a call of the metaclass makes of the class body, case by case. *)
Lemma class_statement host h base attrs h' cls :
  TCStructMeta_new host h base attrs = (h', OK cls) ->
  match ns_annotations attrs with
  | None => h' = h /\ StructType_new h base attrs = OK cls
  | Some annotations =>
      exists own,
        annotated_fields (needs_swap host (declared_byteorder base attrs)) annotations
        = OK own /\
        match ns_fields attrs with
        | Some l =>
            h' = list_extend h l own /\
            StructType_new h' base (with_fields attrs l) = OK cls
        | None =>
            h' = h ++ [match class_fields_ref base with
                       | Some l => deref h l
                       | None => []
                       end ++ own] /\
            StructType_new h' base (with_fields attrs (length h)) = OK cls
        end
  end.
Proof.
  unfold TCStructMeta_new. destruct (ns_annotations attrs) as [annotations|].
  - destruct (ns_fields attrs) as [l|].
    + destruct (annotated_fields _ annotations) as [own|]; [|discriminate].
      intros H. injection H as <- H. exists own. auto.
    + unfold alloc.
      destruct (annotated_fields _ annotations) as [own|]; [|discriminate].
      rewrite list_extend_alloc. intros H. injection H as <- H. exists own. auto.
  - intros H. injection H as <- H. auto.
Qed.

Lemma StructType_new_inv h base attrs cls :
  StructType_new h base attrs = OK cls ->
  match ns_fields attrs with
  | None => cls = Class base attrs [] (class_size base) (class_align base)
  | Some l => exists ds size align,
      cls = Class base attrs ds size align /\ map descr_field ds = deref h l
  end.
Proof.
  unfold StructType_new. destruct (ns_fields attrs) as [l|].
  - intros H. bind_inv H as pack Epack. bind_inv H as [[ds size] ta] El.
    injection H as <-. exists ds. do 2 eexists. split; [reflexivity|].
    eapply layout_fields_entries, El.
  - intros H. injection H as <-. reflexivity.
Qed.

(** C10, counterexample. A class derived from [MyBaseStruct] whose body binds
    [_fields_] to the list of [MyBaseStruct] and annotates one more field:
    the metaclass extends that very list, so the base class's field list
    grows from two entries to three, and a sibling defined afterwards
    inherits the added field. *)
Lemma in_place_extension_counterexample :
  exists h' D h'' E,
    TCStructMeta_new little (MyBaseStruct_heap little) (MyBaseStruct little)
      {| ns_annotations := Some [("extra"%string, AScalar uint8_t)];
         ns_fields := class_fields_ref (MyBaseStruct little);
         ns_byteorder := None; ns_pack := None; ns_swappedbytes := false |}
    = (h', OK D) /\
    result_map (map fst) (class_fields (MyBaseStruct_heap little) (MyBaseStruct little))
    = OK ["common1"; "common2"]%string /\
    result_map (map fst) (class_fields h' (MyBaseStruct little))
    = OK ["common1"; "common2"; "extra"]%string /\
    TCStructMeta_new little h' (MyBaseStruct little)
      (class_body (fields_only [("other"%string, AScalar uint8_t)]))
    = (h'', OK E) /\
    result_map (map fst) (class_fields h'' E)
    = OK ["common1"; "common2"; "extra"; "other"]%string.
Proof. do 4 eexists. repeat split. Qed.

(** C10, amended. Let [A] be a class whose [_fields_] list is in the store and
    let two class statements derive classes from [A], one after the other.
    Either definition changes no list that existed before it, except the list
    its own body binds to [_fields_], if it binds one: that list is extended
    in place by the annotated fields.  So [A]'s field list is the same after
    both unless a body binds [_fields_] to [A]'s very list, and the first
    class's field list is the same after the second unless the second body
    binds it.  A body that annotates fields without binding [_fields_] gets a
    list of its own, allocated by the definition ([list(b._fields_)] is a
    copy), and not [A]'s.  Class objects themselves (descriptors, size,
    alignment) are values that no definition modifies. *)
Theorem derived_schemas_do_not_interfere host h A la attrs1 h1 D1 attrs2 h2 res2 :
  class_fields_ref A = Some la ->
  (la < length h)%nat ->
  TCStructMeta_new host h A attrs1 = (h1, OK D1) ->
  TCStructMeta_new host h1 A attrs2 = (h2, res2) ->
  (forall l, (l < length h)%nat -> ns_fields attrs1 <> Some l -> deref h1 l = deref h l) /\
  (forall l, (l < length h1)%nat -> ns_fields attrs2 <> Some l -> deref h2 l = deref h1 l) /\
  (ns_fields attrs1 <> Some la -> class_fields h1 A = class_fields h A) /\
  (ns_fields attrs1 <> Some la -> ns_fields attrs2 <> Some la ->
   class_fields h2 A = class_fields h A) /\
  (forall l1, class_fields_ref D1 = Some l1 -> (l1 < length h1)%nat ->
              ns_fields attrs2 <> Some l1 ->
              class_fields h2 D1 = class_fields h1 D1) /\
  (forall annotations,
      ns_annotations attrs1 = Some annotations -> ns_fields attrs1 = None ->
      class_fields_ref D1 = Some (length h) /\ class_fields_ref D1 <> Some la /\
      exists own,
        annotated_fields (needs_swap host (declared_byteorder A attrs1)) annotations
        = OK own /\
        class_fields h1 D1 = OK (deref h la ++ own)) /\
  (forall annotations l,
      ns_annotations attrs1 = Some annotations -> ns_fields attrs1 = Some l ->
      (l < length h)%nat ->
      class_fields_ref D1 = Some l /\
      exists own,
        annotated_fields (needs_swap host (declared_byteorder A attrs1)) annotations
        = OK own /\
        deref h1 l = deref h l ++ own).
Proof.
  intros Hla Hlt H1 H2.
  destruct (TCStructMeta_new_heap _ _ _ _ _ _ H1) as [Hlen1 Hframe1].
  destruct (TCStructMeta_new_heap _ _ _ _ _ _ H2) as [Hlen2 Hframe2].
  split; [exact Hframe1|]. split; [exact Hframe2|].
  unfold class_fields. rewrite Hla.
  split; [intros Hn; rewrite Hframe1 by assumption; reflexivity|].
  split; [intros Hn1 Hn2; rewrite Hframe2, Hframe1 by (assumption || lia); reflexivity|].
  split; [intros l1 -> Hl1 Hn; rewrite Hframe2 by assumption; reflexivity|].
  pose proof (class_statement _ _ _ _ _ _ H1) as Hst.
  split.
  - intros annotations Hann Hfs. rewrite Hann, Hfs in Hst.
    destruct Hst as (own & Hown & -> & Hnew).
    apply StructType_new_inv in Hnew. cbn [with_fields ns_fields] in Hnew.
    destruct Hnew as (ds & size & align & -> & _).
    cbn [class_fields_ref with_fields ns_fields].
    split; [reflexivity|]. split; [intros E; injection E as E; lia|].
    exists own. split; [exact Hown|]. rewrite Hla, deref_alloc_new. reflexivity.
  - intros annotations l Hann Hfs Hl. rewrite Hann, Hfs in Hst.
    destruct Hst as (own & Hown & -> & Hnew).
    apply StructType_new_inv in Hnew. cbn [with_fields ns_fields] in Hnew.
    destruct Hnew as (ds & size & align & -> & _).
    cbn [class_fields_ref with_fields ns_fields].
    split; [reflexivity|]. exists own. split; [exact Hown|].
    unfold list_extend. apply deref_heap_set_same. exact Hl.
Qed.

Lemma derived_schemas_do_not_interfere_witness :
  class_fields_ref (MyBaseStruct little) = Some 1%nat /\
  (1 < length (MyBaseStruct_heap little))%nat /\
  class_fields (MyDerivedStruct_heap little) (MyBaseStruct little)
  = class_fields (MyBaseStruct_heap little) (MyBaseStruct little) /\
  class_fields_ref (MyDerivedStruct little) = Some 2%nat.
Proof.
  split; [reflexivity|]. split; [vm_compute; lia|].
  destruct (derived_schemas_do_not_interfere little (MyBaseStruct_heap little)
              (MyBaseStruct little) 1%nat
              (class_body (fields_only [("special1"%string, AScalar uint32_t)]))
              (MyDerivedStruct_heap little) (MyDerivedStruct little)
              (class_body (fields_only [("other"%string, AScalar uint8_t)]))
              (fst (TCStructMeta_new little (MyDerivedStruct_heap little)
                      (MyBaseStruct little)
                      (class_body (fields_only [("other"%string, AScalar uint8_t)]))))
              (snd (TCStructMeta_new little (MyDerivedStruct_heap little)
                      (MyBaseStruct little)
                      (class_body (fields_only [("other"%string, AScalar uint8_t)]))))
              eq_refl ltac:(vm_compute; lia) eq_refl eq_refl)
    as (_ & _ & HA & _ & _ & Hfresh & _).
  split; [apply HA; discriminate|].
  exact (proj1 (Hfresh _ eq_refl eq_refl)).
Defined.

(** ** Inheritance *)

Lemma dict_get_app {V} (a b : pydict V) k :
  dict_get (a ++ b) k = match dict_get a k with
                        | Some v => Some v
                        | None => dict_get b k
                        end.
Proof.
  induction a as [|[k0 v0] a IH]; cbn [dict_get app]; [reflexivity|].
  destruct (String.eqb k k0); auto.
Qed.



Lemma NoDup_firstn {A} n (l : list A) : NoDup l -> NoDup (firstn n l).
Proof.
  intros H. rewrite <- (firstn_skipn n l) in H.
  eapply NoDup_app_remove_r, H.
Qed.

Lemma annotated_fields_names swap annotations : forall own,
  annotated_fields swap annotations = OK own ->
  map fst own = map fst (public_annotations annotations).
Proof.
  unfold public_annotations.
  induction annotations as [|[aname atype] rest IH]; intros own H; cbn in H |- *.
  - injection H as <-. reflexivity.
  - destruct (startswith_underscore aname); cbn [negb].
    + apply IH, H.
    + destruct (gettype atype swap) as [t|]; cbn [bind] in H; [|discriminate].
      destruct (annotated_fields swap rest) as [fs|]; cbn [bind] in H; [|discriminate].
      injection H as <-. cbn [map fst]. f_equal. apply IH. reflexivity.
Qed.



(** The field list and the descriptors a class statement makes. *)
Lemma class_statement_fields host h base attrs h' cls base_fields :
  class_fields h base = OK base_fields ->
  (forall l, ns_fields attrs = Some l -> (l < length h)%nat) ->
  TCStructMeta_new host h base attrs = (h', OK cls) ->
  exists own ds,
    match ns_annotations attrs with
    | Some annotations =>
        annotated_fields (needs_swap host (declared_byteorder base attrs)) annotations
        = OK own
    | None => own = []
    end /\
    class_fields h' cls
    = OK (match ns_fields attrs with
          | Some l => deref h l
          | None => base_fields
          end ++ own) /\
    all_descr cls = all_descr base ++ ds /\
    match ns_fields attrs, ns_annotations attrs with
    | None, None => ds = []
    | _, _ => map descr_field ds = match ns_fields attrs with
                                   | Some l => deref h l
                                   | None => base_fields
                                   end ++ own
    end.
Proof.
  intros Hf Hl H. pose proof (class_statement _ _ _ _ _ _ H) as Hst.
  unfold class_fields in Hf.
  destruct (class_fields_ref base) as [lb|] eqn:Elb; [|discriminate].
  injection Hf as Hf.
  destruct (ns_annotations attrs) as [annotations|].
  - destruct Hst as (own & Hown & Hst).
    destruct (ns_fields attrs) as [l|] eqn:Efs.
    + destruct Hst as [-> Hnew]. apply StructType_new_inv in Hnew.
      cbn [with_fields ns_fields] in Hnew.
      destruct Hnew as (ds & size & align & -> & Hmap).
      unfold list_extend in Hmap. rewrite deref_heap_set_same in Hmap by (apply Hl; reflexivity).
      exists own, ds. split; [exact Hown|]. split; [|split; [reflexivity | exact Hmap]].
      unfold class_fields. cbn [class_fields_ref with_fields ns_fields].
      unfold list_extend. rewrite deref_heap_set_same by (apply Hl; reflexivity).
      reflexivity.
    + destruct Hst as [-> Hnew]. apply StructType_new_inv in Hnew.
      cbn [with_fields ns_fields] in Hnew.
      destruct Hnew as (ds & size & align & -> & Hmap).
      rewrite deref_alloc_new, Hf in Hmap.
      exists own, ds. split; [exact Hown|]. split; [|split; [reflexivity | exact Hmap]].
      unfold class_fields. cbn [class_fields_ref with_fields ns_fields].
      rewrite deref_alloc_new, Hf. reflexivity.
  - destruct Hst as [-> Hnew]. apply StructType_new_inv in Hnew.
    destruct (ns_fields attrs) as [l|] eqn:Efs.
    + destruct Hnew as (ds & size & align & -> & Hmap).
      exists [], ds. split; [reflexivity|]. rewrite app_nil_r.
      split; [|split; [reflexivity | exact Hmap]].
      unfold class_fields. cbn [class_fields_ref]. rewrite Efs. reflexivity.
    + subst cls. exists [], []. split; [reflexivity|].
      split; [|split; reflexivity].
      rewrite app_nil_r.
      unfold class_fields. cbn [class_fields_ref]. rewrite Efs, Elb, Hf. reflexivity.
Qed.







(** ** Classes declared through annotations have public field names *)

Lemma public_annotations_names annotations :
  forallb (fun n => negb (startswith_underscore n))
    (map fst (public_annotations annotations)) = true.
Proof.
  unfold public_annotations.
  induction annotations as [|[n x] rest IH]; cbn [filter map fst forallb]; [reflexivity|].
  destruct (startswith_underscore n) eqn:E; cbn [negb map fst forallb]; [exact IH|].
  rewrite E, IH. reflexivity.
Qed.

Lemma public_names_map (fs : list field) :
  public_names fs = forallb (fun n => negb (startswith_underscore n)) (map fst fs).
Proof.
  unfold public_names.
  induction fs as [|f fs IH]; cbn [forallb map]; [reflexivity|].
  rewrite IH. reflexivity.
Qed.

Lemma public_fields_map (ds : list (string * CField)) :
  forallb (fun d : string * CField => negb (startswith_underscore (fst d))) ds
  = public_names (map descr_field ds).
Proof.
  unfold public_names.
  induction ds as [|[n fd] ds IH]; cbn [forallb map]; [reflexivity|].
  rewrite IH. reflexivity.
Qed.

(** A class statement without a [_fields_] entry of its own keeps the field
    names public. *)
Lemma class_statement_public host h base d h' cls base_fields :
  public_fields base = true ->
  class_fields h base = OK base_fields ->
  public_names base_fields = true ->
  TCStructMeta_new host h base (class_body d) = (h', OK cls) ->
  public_fields cls = true /\
  exists fields, class_fields h' cls = OK fields /\ public_names fields = true.
Proof.
  intros Hpb Hf Hpn H.
  assert (Hl : forall l, ns_fields (class_body d) = Some l -> (l < length h)%nat)
    by (cbn [class_body ns_fields]; discriminate).
  destruct (class_statement_fields _ _ _ _ _ _ _ Hf Hl H)
    as (own & ds & Hown & Hfields & Hall & Hds).
  cbn [class_body ns_fields] in Hfields, Hds.
  assert (Hpo : public_names own = true).
  { destruct (ns_annotations (class_body d)) as [annotations|].
    - rewrite public_names_map, (annotated_fields_names _ _ _ Hown).
      apply public_annotations_names.
    - subst own. reflexivity. }
  assert (Hpall : public_names (base_fields ++ own) = true).
  { unfold public_names in *. rewrite forallb_app, Hpn, Hpo. reflexivity. }
  split; [|exists (base_fields ++ own); split; assumption].
  unfold public_fields in *. rewrite Hall, forallb_app, Hpb. cbn [andb].
  destruct (ns_annotations (class_body d)).
  - rewrite public_fields_map, Hds. exact Hpall.
  - subst ds. reflexivity.
Qed.

(** So has every class at the end of a chain of class statements that starts
    at one of the module's classes. *)
Lemma define_chain_public host ds : forall h base h' cls base_fields,
  public_fields base = true ->
  class_fields h base = OK base_fields ->
  public_names base_fields = true ->
  define_chain host h base ds = (h', OK cls) ->
  public_fields cls = true.
Proof.
  induction ds as [|d ds IH]; intros h base h' cls base_fields Hpb Hf Hpn H.
  - cbn in H. injection H as <- <-. exact Hpb.
  - cbn [define_chain] in H.
    destruct (TCStructMeta_new host h base (class_body d)) as [h1 [c1|e]] eqn:E1;
      [|discriminate].
    destruct (class_statement_public _ _ _ _ _ _ _ Hpb Hf Hpn E1)
      as (Hp1 & fields1 & Hf1 & Hpn1).
    eapply IH; eassumption.
Qed.

Lemma declared_classes_public host order ds h cls :
  define_chain host module_heap (endian_struct host order) ds = (h, OK cls) ->
  public_fields cls = true.
Proof.
  apply (define_chain_public host ds module_heap (endian_struct host order) h cls []).
  - destruct order; reflexivity.
  - destruct order; reflexivity.
  - reflexivity.
Qed.

(** ** Duplicate field names *)

(** C9, counterexample. Deriving from [MyBaseStruct], which has a field
    [common1], a class that annotates [common1] again is defined without
    error; its field list carries the name twice and the name resolves to the
    new descriptor. *)
Lemma duplicate_field_name_counterexample :
  exists h cls,
    TCStructMeta_new little (MyBaseStruct_heap little) (MyBaseStruct little)
      (class_body (fields_only [("common1"%string, AScalar uint8_t)]))
    = (h, OK cls) /\
    class_fields h cls
    = OK [("common1"%string, TyC (CSimple c_uint32 false));
          ("common2"%string, TyC (CSimple c_uint32 false));
          ("common1"%string, TyC (CSimple c_uint8 false))] /\
    find_descr cls "common1"%string
    = Some {| f_offset := 16; f_type := CSimple c_uint8 false |}.
Proof. do 2 eexists. split; [reflexivity|]. split; reflexivity. Qed.

Lemma layout_fields_total pack fs : forall offset ta,
  Forall is_ctype fs ->
  exists ds size ta', layout_fields pack fs offset ta = OK (ds, size, ta').
Proof.
  induction fs as [|[name ty] fs IH]; intros offset ta Hall.
  - do 3 eexists. reflexivity.
  - inversion Hall as [|? ? Hty Hrest]; subst.
    destruct ty as [t|]; [|destruct Hty]. cbn [layout_fields].
    match goal with
    | |- context [layout_fields pack fs ?o ?a] =>
        destruct (IH o a Hrest) as (ds & size & ta' & ->)
    end.
    cbn [bind]. do 3 eexists. reflexivity.
Qed.

(** C9, amended. Field names are not compared.  A class statement with
    annotations whose types the library knows, over field lists that hold
    ctypes types under public names, with the [_pack_] in force (if any)
    within a C [int] and a layout within a [Py_ssize_t], defines the class,
    whether or not a name occurs twice; the class's [_fields_] keeps every
    entry, inherited entries first, every entry gets a slot of its own, and a
    name resolves to the last descriptor that carries it. *)
Theorem duplicate_names_are_accepted host h base attrs base_fields annotations own :
  public_fields base = true ->
  class_fields h base = OK base_fields ->
  ns_annotations attrs = Some annotations ->
  (forall l, ns_fields attrs = Some l -> (l < length h)%nat) ->
  annotated_fields (needs_swap host (declared_byteorder base attrs)) annotations = OK own ->
  Forall is_ctype (statement_fields h attrs base_fields own) ->
  public_names (statement_fields h attrs base_fields own) = true ->
  fits_ssize_t (class_size base) (statement_fields h attrs base_fields own) ->
  match pack_in_force base attrs with
  | Some p => 0 <= p <= int_max
  | None => True
  end ->
  exists h' cls ds,
    TCStructMeta_new host h base attrs = (h', OK cls) /\
    class_fields h' cls = OK (statement_fields h attrs base_fields own) /\
    all_descr cls = all_descr base ++ ds /\
    map descr_field ds = statement_fields h attrs base_fields own /\
    forall name,
      find_descr cls name = match dict_get (rev ds) name with
                            | Some fd => Some fd
                            | None => find_descr base name
                            end.
Proof.
  intros _ Hf Hann Hl Hown Hall _ _ Hpack.
  destruct (layout_fields_total
              (match pack_in_force base attrs with
               | Some p => Z.to_nat p
               | None => 0%nat
               end)
              _ (class_size base)
              (if (class_align base =? 0)%nat then 1%nat else class_align base) Hall)
    as (ds & size & ta & Hlay).
  assert (Hpk : forall l,
             match match ns_pack (with_fields attrs l) with
                   | Some p => Some p
                   | None => class_pack base
                   end with
             | Some p => if (p <? 0) || (int_max <? p) then Raise ValueError_ctypes
                         else OK (Z.to_nat p)
             | None => OK 0%nat
             end
             = OK (match pack_in_force base attrs with
                   | Some p => Z.to_nat p
                   | None => 0%nat
                   end)).
  { intros l. unfold pack_in_force in *. cbn [with_fields ns_pack].
    destruct (match ns_pack attrs with
              | Some p => Some p
              | None => class_pack base
              end) as [p|]; [|reflexivity].
    destruct (Z.ltb_spec p 0); [lia|]. destruct (Z.ltb_spec int_max p); [lia|].
    reflexivity. }
  assert (Hnew : forall h1 l,
             deref h1 l = statement_fields h attrs base_fields own ->
             exists cls,
               StructType_new h1 base (with_fields attrs l) = OK cls /\
               class_fields_ref cls = Some l /\
               all_descr cls = all_descr base ++ ds).
  { intros h1 l Hd. unfold StructType_new. cbn [with_fields ns_fields].
    change (ns_pack attrs) with (ns_pack (with_fields attrs l)).
    rewrite (Hpk l). cbn [bind]. rewrite Hd, Hlay. cbn [bind].
    eexists. split; [reflexivity|]. split; reflexivity. }
  unfold class_fields in Hf. destruct (class_fields_ref base) as [lb|] eqn:Elb; [|discriminate].
  injection Hf as Hf.
  assert (Hdef : exists h' l cls,
             TCStructMeta_new host h base attrs = (h', OK cls) /\
             deref h' l = statement_fields h attrs base_fields own /\
             class_fields_ref cls = Some l /\
             all_descr cls = all_descr base ++ ds).
  { unfold TCStructMeta_new, statement_fields in *. rewrite Hann, Hown.
    destruct (ns_fields attrs) as [l|] eqn:Efs.
    - assert (Hd : deref (list_extend h l own) l = deref h l ++ own)
        by (unfold list_extend; apply deref_heap_set_same, Hl; reflexivity).
      destruct (Hnew _ l Hd) as (cls & Hcls & Href & Hdescr).
      exists (list_extend h l own), l, cls. rewrite Hcls. auto.
    - unfold alloc. rewrite Elb, Hf, list_extend_alloc.
      pose proof (deref_alloc_new h (base_fields ++ own)) as Hd.
      destruct (Hnew _ (length h) Hd) as (cls & Hcls & Href & Hdescr).
      exists (h ++ [base_fields ++ own]), (length h), cls. rewrite Hcls. auto. }
  destruct Hdef as (h' & l & cls & Hdef & Hd & Href & Hdescr).
  exists h', cls, ds. split; [exact Hdef|].
  split; [unfold class_fields; rewrite Href, Hd; reflexivity|].
  split; [exact Hdescr|].
  split; [eapply layout_fields_entries, Hlay|].
  intros name. unfold find_descr. rewrite Hdescr, rev_app_distr. apply dict_get_app.
Qed.

Lemma duplicate_names_are_accepted_witness :
  class_fields (MyBaseStruct_heap little) (MyBaseStruct little)
  = OK [("common1"%string, TyC (CSimple c_uint32 false));
        ("common2"%string, TyC (CSimple c_uint32 false))] /\
  exists h' cls,
    TCStructMeta_new little (MyBaseStruct_heap little) (MyBaseStruct little)
      (class_body (fields_only [("common1"%string, AScalar uint8_t)]))
    = (h', OK cls) /\
    class_fields h' cls
    = OK [("common1"%string, TyC (CSimple c_uint32 false));
          ("common2"%string, TyC (CSimple c_uint32 false));
          ("common1"%string, TyC (CSimple c_uint8 false))].
Proof.
  split; [reflexivity|].
  destruct (duplicate_names_are_accepted little (MyBaseStruct_heap little)
              (MyBaseStruct little)
              (class_body (fields_only [("common1"%string, AScalar uint8_t)]))
              [("common1"%string, TyC (CSimple c_uint32 false));
               ("common2"%string, TyC (CSimple c_uint32 false))]
              [("common1"%string, AScalar uint8_t)]
              [("common1"%string, TyC (CSimple c_uint8 false))]
              eq_refl eq_refl eq_refl ltac:(discriminate) eq_refl
              ltac:(repeat constructor) eq_refl
              ltac:(unfold fits_ssize_t; vm_compute; discriminate) I)
    as (h' & cls & ds & Hdef & Hfields & _).
  exists h', cls. split; [exact Hdef | exact Hfields].
Defined.

(** ** Layout of the test structure *)


Lemma alignment_pos t : (1 <= alignment t)%nat.
Proof.
  induction t as [c sw | elt IH len]; cbn [alignment]; [destruct c; cbn; lia | exact IH].
Qed.

(** With [_pack_ = 1] over a base of size and alignment as the module's
    classes have, fields follow one another without padding and the size is
    the sum of the field sizes. *)
Lemma layout_fields_packed fs : forall offset ds size ta,
  layout_fields 1 fs offset 1 = OK (ds, size, ta) ->
  contiguous offset ds size /\ ta = 1%nat.
Proof.
  induction fs as [|[name ty] fs IH]; intros offset ds size ta H.
  - cbn in H. injection H as <- <- <-. split; reflexivity.
  - cbn [layout_fields] in H. destruct ty as [t|]; [|discriminate].
    replace (if (1 =? 0)%nat then alignment t else Nat.min 1 (alignment t))
      with 1%nat in H
      by (cbn [Nat.eqb]; pose proof (alignment_pos t); lia).
    rewrite Nat.mod_1_r in H. cbn [Nat.eqb orb Nat.max] in H.
    destruct (layout_fields 1 fs (offset + sizeof t) 1) as [[[ds0 size0] ta0]|] eqn:E;
      [|discriminate].
    cbn [bind] in H. injection H as <- <- <-.
    apply IH in E. destruct E as [Hc ->]. cbn [contiguous f_offset f_type]. auto.
Qed.

Lemma packed_declaration_contiguous host h order d h' cls :
  own_pack d = Some 1 ->
  own_annotations d <> [] ->
  TCStructMeta_new host h (endian_struct host order) (class_body d) = (h', OK cls) ->
  contiguous 0 (all_descr cls) (class_size cls).
Proof.
  intros Hpack Hne. rewrite TCStructMeta_new_body by exact Hne. cbv zeta.
  destruct (annotated_fields _ (own_annotations d)) as [own|]; [|discriminate].
  intros H. injection H as _ H. revert H.
  unfold StructType_new. cbn [with_fields ns_fields ns_pack class_body].
  rewrite Hpack.
  change ((1 <? 0) || (int_max <? 1)) with false. cbn [bind].
  replace (class_size (endian_struct host order)) with 0%nat by (destruct order; reflexivity).
  replace (class_align (endian_struct host order)) with 1%nat by (destruct order; reflexivity).
  cbn [Nat.eqb].
  change (Z.to_nat 1) with 1%nat.
  match goal with
  | |- context [layout_fields 1 ?fs 0 1] =>
      destruct (layout_fields 1 fs 0 1) as [[[ds size] ta]|] eqn:E; [|discriminate]
  end.
  cbn [bind]. intros H. injection H as <-.
  apply layout_fields_packed in E. destruct E as [Hc ->].
  cbn [all_descr class_size].
  replace (all_descr (endian_struct host order)) with (@nil (string * CField))
    by (destruct order; reflexivity).
  cbn [app]. rewrite Nat.add_sub, Nat.div_1_r, Nat.mul_1_r. exact Hc.
Qed.


(** ** Byte order of the fields *)

Lemma needs_swap_true host order : order <> host -> needs_swap host (Some order) = true.
Proof. destruct host, order; cbn; congruence. Qed.



Lemma gettype_swap x t :
  _gettype x = OK (TyC t) -> gettype x true = OK (TyC (other_endian_ctype t)).
Proof. unfold gettype. intros ->. reflexivity. Qed.









(** * Further properties *)

(** ** The scalar classes: [to_bytes], [__bytes__], [pack], [with_byteorder] *)

(** [int.to_bytes] on a positive length: the bytes of the value when it fits,
    [OverflowError] when it does not. *)
Lemma int_to_bytes_py_fits z len o (s : bool) :
  0 < len ->
  (if s then - 2 ^ (8 * len - 1) <= z < 2 ^ (8 * len - 1) else 0 <= z < 2 ^ (8 * len)) ->
  int_to_bytes_py z len o s = Returns (int_to_bytes o (Z.to_nat len) z).
Proof.
  intros Hlen Hz. unfold int_to_bytes_py.
  destruct (Z.ltb_spec len 0); [lia|].
  destruct s.
  - destruct (Z.eqb_spec len 0); [lia|].
    destruct (Z.leb_spec (- 2 ^ (8 * len - 1)) z); [|lia].
    destruct (Z.ltb_spec z (2 ^ (8 * len - 1))); [|lia]. reflexivity.
  - destruct (Z.leb_spec 0 z); [|lia].
    destruct (Z.ltb_spec z (2 ^ (8 * len))); [|lia]. reflexivity.
Qed.

Lemma int_to_bytes_py_overflow z len o (s : bool) :
  0 < len ->
  ~ (if s then - 2 ^ (8 * len - 1) <= z < 2 ^ (8 * len - 1) else 0 <= z < 2 ^ (8 * len)) ->
  int_to_bytes_py z len o s = Raises OverflowError_int.
Proof.
  intros Hlen Hz. unfold int_to_bytes_py.
  destruct (Z.ltb_spec len 0); [lia|].
  destruct s.
  - destruct (Z.eqb_spec len 0); [lia|].
    destruct (Z.leb_spec (- 2 ^ (8 * len - 1)) z);
      destruct (Z.ltb_spec z (2 ^ (8 * len - 1))); cbn [andb]; try reflexivity.
    exfalso. apply Hz. lia.
  - destruct (Z.leb_spec 0 z); destruct (Z.ltb_spec z (2 ^ (8 * len)));
      cbn [andb]; try reflexivity.
    exfalso. apply Hz. lia.
Qed.

(** [int.from_bytes] undoes [int.to_bytes]. *)
Lemma int_from_bytes_py_to_bytes z n o (s : bool) :
  (0 < n)%nat ->
  (if s then - 2 ^ (8 * Z.of_nat n - 1) <= z < 2 ^ (8 * Z.of_nat n - 1)
   else 0 <= z < 2 ^ (8 * Z.of_nat n)) ->
  int_from_bytes_py (int_to_bytes o n z) o s = z.
Proof.
  intros Hn Hz. unfold int_from_bytes_py.
  rewrite int_from_to_bytes, int_to_bytes_length.
  replace (Z.of_nat n * 8) with (8 * Z.of_nat n) by lia.
  destruct s.
  - destruct (Nat.eqb_spec n 0); [lia|]. apply to_signed_mod; lia.
  - apply Z.mod_small. exact Hz.
Qed.

Lemma scalar_width c :
  _bitwidth c / 8 = Z.of_nat (c_sizeof (_ctype c)) /\
  8 * Z.of_nat (c_sizeof (_ctype c)) = _bitwidth c /\
  (0 < c_sizeof (_ctype c))%nat.
Proof. destruct c; repeat split; cbn; lia. Qed.

Lemma in_range_bytes c z :
  in_range c z <->
  (if _signed c
   then - 2 ^ (8 * Z.of_nat (c_sizeof (_ctype c)) - 1) <= z
        < 2 ^ (8 * Z.of_nat (c_sizeof (_ctype c)) - 1)
   else 0 <= z < 2 ^ (8 * Z.of_nat (c_sizeof (_ctype c)))).
Proof.
  unfold in_range. destruct (scalar_width c) as (_ & -> & _). reflexivity.
Qed.

(** The values a field of an integer type stores unchanged are those of the
    type's range. *)
Lemma wrap_fixpoint c z :
  c_is_float (_ctype c) = false -> (wrap (_ctype c) z = z <-> in_range c z).
Proof.
  intros Hint. unfold wrap, in_range.
  destruct (ctype_bitwidth c) as [Hw Hs]. rewrite (Hs Hint), Hw.
  assert (Hpos : 0 < _bitwidth c) by (destruct c; cbn; lia).
  pose proof (pow2_half _ Hpos) as H2.
  assert (Hp : 0 < 2 ^ (_bitwidth c - 1)) by (apply Z.pow_pos_nonneg; lia).
  pose proof (Z.mod_pos_bound z (2 ^ _bitwidth c) ltac:(lia)) as Hm.
  destruct (_signed c).
  - split.
    + unfold to_signed.
      destruct (Z.ltb_spec (z mod 2 ^ _bitwidth c) (2 ^ (_bitwidth c - 1))); lia.
    + intros Hz. apply to_signed_mod; assumption.
  - split; [intros <-; exact Hm | intros Hz; apply Z.mod_small; exact Hz].
Qed.

Lemma tcstruct_int_to_bytes_default c z o :
  tcstruct_int_to_bytes {| int_type := c; int_value := z; int_dict_byteorder := o |}
    None None None
  = int_to_bytes_py z (Z.of_nat (c_sizeof (_ctype c)))
      (match o with Some o => o | None => big end) (_signed c).
Proof.
  unfold tcstruct_int_to_bytes, int_byteorder. cbn [int_type int_value int_dict_byteorder].
  destruct (scalar_width c) as (-> & _). reflexivity.
Qed.

(** X1. [bytes(c(z))] for an integer class [c]: when [z] is in the range of
    the class, the big-endian encoding of [z] on [_bitwidth/8] bytes, from
    which [int.from_bytes] reads [z] back; [OverflowError] otherwise. *)
Theorem scalar_bytes c z :
  c_is_float (_ctype c) = false ->
  (in_range c z ->
   exists bs,
     tcstruct_int_bytes (new_int c z) = Returns bs /\
     bs = int_to_bytes big (Z.to_nat (_bitwidth c / 8)) z /\
     length bs = Z.to_nat (_bitwidth c / 8) /\
     int_from_bytes_py bs big (_signed c) = z) /\
  (~ in_range c z -> tcstruct_int_bytes (new_int c z) = Raises OverflowError_int).
Proof.
  intros _. unfold tcstruct_int_bytes, new_int. rewrite tcstruct_int_to_bytes_default.
  destruct (scalar_width c) as (Hw & _ & Hpos). rewrite Hw, Nat2Z.id.
  split.
  - intros Hz. apply in_range_bytes in Hz.
    exists (int_to_bytes big (c_sizeof (_ctype c)) z).
    rewrite int_to_bytes_py_fits by (try lia; exact Hz). rewrite Nat2Z.id.
    repeat split.
    + apply int_to_bytes_length.
    + apply int_from_bytes_py_to_bytes; assumption.
  - intros Hz. apply int_to_bytes_py_overflow; [lia|].
    intros H. apply Hz. apply in_range_bytes. exact H.
Qed.

Lemma scalar_bytes_witness :
  c_is_float (_ctype sint16_t) = false /\
  tcstruct_int_bytes (new_int sint16_t (-2)) = Returns [Byte.xff; Byte.xfe] /\
  tcstruct_int_bytes (new_int sint16_t 32768) = Raises OverflowError_int.
Proof.
  split; [reflexivity|].
  destruct (scalar_bytes sint16_t (-2) eq_refl) as [Hin _].
  destruct (scalar_bytes sint16_t 32768 eq_refl) as [_ Hout].
  split.
  - destruct Hin as (bs & Hbs & -> & _); [cbn; lia | exact Hbs].
  - apply Hout. cbn. lia.
Defined.

(** ** Scalar values and single-field structures *)

(** X2. For an integer class [c], a byte order and an in-range value [z],
    [bytes(c.with_byteorder(z, order))] is, on either host, the image of the
    structure of that declared order with the one field [value: c] built
    from [z]; decoding those bytes with the structure reads [z] back. *)
Theorem scalar_bytes_are_the_field_image host order c z :
  c_is_float (_ctype c) = false ->
  in_range c z ->
  exists bs,
    tcstruct_int_bytes (int_with_byteorder c z order) = Returns bs /\
    result_map to_bytes
      (construct host (ValueStruct_heap host order c) (ValueStruct host order c)
         [PyInt z] [])
    = OK bs /\
    bind (from_bytes (ValueStruct host order c) bs)
      (fun r => getattr host r "value"%string)
    = OK (PyInt z).
Proof.
  intros Hint Hz.
  exists (int_to_bytes order (c_sizeof (_ctype c)) z).
  destruct (scalar_width c) as (Hw & _ & Hpos).
  split; [|split].
  - unfold tcstruct_int_bytes, int_with_byteorder, new_int.
    cbn [int_type int_value]. rewrite tcstruct_int_to_bytes_default.
    rewrite int_to_bytes_py_fits by (try lia; apply in_range_bytes; exact Hz).
    rewrite Nat2Z.id. reflexivity.
  - rewrite ValueStruct_construct, scalar_field_set. cbn [cdata_set].
    apply simple_set_int. exact Hint.
  - rewrite ValueStruct_decode by apply int_to_bytes_length.
    rewrite scalar_field_get by apply int_to_bytes_length.
    destruct (simple_get_set_int order (_ctype c) false z Hint) as (bs & Hset & Hget).
    rewrite simple_set_int in Hset by exact Hint. injection Hset as <-.
    rewrite Hget. do 2 f_equal. apply wrap_fixpoint; assumption.
Qed.

Lemma scalar_bytes_are_the_field_image_witness :
  c_is_float (_ctype uint32_t) = false /\
  in_range uint32_t 3735928559 /\
  exists bs,
    tcstruct_int_bytes (int_with_byteorder uint32_t 3735928559 little) = Returns bs /\
    result_map to_bytes
      (construct big (ValueStruct_heap big little uint32_t) (ValueStruct big little uint32_t)
         [PyInt 3735928559] [])
    = OK bs.
Proof.
  split; [reflexivity|]. split; [cbn; lia|].
  destruct (scalar_bytes_are_the_field_image big little uint32_t 3735928559 eq_refl
              ltac:(cbn; lia)) as (bs & H1 & H2 & _).
  exists bs. split; assumption.
Defined.

(** [struct.pack] with an integer code checks the range [int.to_bytes]
    checks, and reports a value outside it as [struct.error]. *)
Lemma struct_pack_int host order c z :
  c_is_float (_ctype c) = false ->
  struct_pack host (Some order) (_char c) (PyInt z)
  = match int_to_bytes_py z (Z.of_nat (c_sizeof (_ctype c))) order (_signed c) with
    | Returns bs => Returns bs
    | Raises _ => Raises struct_error
    end.
Proof.
  intros Hint.
  destruct c; try discriminate; cbv -[Z.leb Z.ltb int_to_bytes];
    match goal with
    | |- context [Z.ltb (Z.pos ?p) 0] => change (Z.ltb (Z.pos p) 0) with false
    end; cbv iota;
    repeat match goal with
           | |- context [Z.leb ?a ?b] => destruct (Z.leb a b)
           | |- context [Z.ltb ?a ?b] => destruct (Z.ltb a b)
           end; reflexivity.
Qed.

Lemma int_to_bytes_py_exc z len o s e :
  0 <= len -> int_to_bytes_py z len o s = Raises e -> e = OverflowError_int.
Proof.
  intros Hlen. unfold int_to_bytes_py.
  destruct (Z.ltb_spec len 0); [lia|].
  match goal with
  | |- (if ?b then _ else _) = _ -> _ => destruct b
  end; [discriminate|].
  intros He. injection He as <-. reflexivity.
Qed.

(** X3. [pack] and [to_bytes] of an integer scalar agree, on either host and
    for every byte order given or set: both return the same bytes, or
    [to_bytes] raises [OverflowError] where [pack] raises [struct.error]. *)
Theorem pack_agrees_with_to_bytes host c z o byteorder :
  c_is_float (_ctype c) = false ->
  let self := {| int_type := c; int_value := z; int_dict_byteorder := o |} in
  match tcstruct_int_to_bytes self None byteorder None with
  | Returns bs => tcstruct_int_pack host self byteorder = Returns bs
  | Raises e => e = OverflowError_int /\
                tcstruct_int_pack host self byteorder = Raises struct_error
  end.
Proof.
  intros Hint self. unfold tcstruct_int_to_bytes, tcstruct_int_pack, int_byteorder.
  cbn [self int_type int_value int_dict_byteorder].
  set (order := match byteorder with
                | Some o' => o'
                | None => match o with Some o' => o' | None => big end
                end).
  replace (match byteorder with
           | Some o' => Some o'
           | None => Some match o with Some o' => o' | None => big end
           end) with (Some order) by (unfold order; destruct byteorder; reflexivity).
  rewrite struct_pack_int by exact Hint.
  destruct (scalar_width c) as (-> & _).
  destruct (int_to_bytes_py z (Z.of_nat (c_sizeof (_ctype c))) order (_signed c))
    as [bs|e] eqn:E; [reflexivity|].
  split; [|reflexivity]. eapply int_to_bytes_py_exc; [|exact E]. lia.
Qed.

Lemma pack_agrees_with_to_bytes_witness :
  c_is_float (_ctype uint16_t) = false /\
  tcstruct_int_pack little (new_int uint16_t 258) (Some little)
  = Returns [Byte.x02; Byte.x01] /\
  tcstruct_int_pack little (new_int uint16_t 65536) None = Raises struct_error.
Proof.
  split; [reflexivity|].
  split.
  - exact (pack_agrees_with_to_bytes little uint16_t 258 None (Some little) eq_refl).
  - exact (proj2 (pack_agrees_with_to_bytes little uint16_t 65536 None None eq_refl)).
Defined.

Lemma struct_pack_float_native host c f :
  c_is_float (_ctype c) = true ->
  struct_pack host None (_char c) (PyFloat f)
  = match simple_set host (_ctype c) false (PyFloat f) with
    | OK bs => Returns bs
    | Raise _ => Raises struct_error
    end.
Proof.
  intros Hf. destruct c; try discriminate.
  - unfold struct_pack, simple_set. cbn [_char _ctype c_is_float Ascii.eqb Bool.eqb bind c_sizeof].
    cbv iota. destruct f; reflexivity.
  - reflexivity.
Qed.

Lemma struct_pack_float_standard host order c f :
  c_is_float (_ctype c) = true ->
  struct_pack host (Some order) (_char c) (PyFloat f)
  = match c, f, round_float 24 128 f with
    | float32_t, S754_finite _ _ _, S754_infinity _ => Raises OverflowError_float
    | _, _, _ => match simple_set order (_ctype c) false (PyFloat f) with
                 | OK bs => Returns bs
                 | Raise _ => Raises struct_error
                 end
    end.
Proof.
  intros Hf. destruct c; try discriminate.
  - unfold struct_pack, simple_set. cbn [_char _ctype c_is_float Ascii.eqb Bool.eqb bind c_sizeof].
    cbv iota. destruct f as [s|s| |s m e]; try reflexivity.
    all: try (destruct (round_float 24 128 (S754_finite s m e)); reflexivity).
  - destruct f; reflexivity.
Qed.

(** X4. [pack] of a float scalar.  Without a byte order it encodes in the
    host's order and never raises: the bytes are the image of the host-order
    structure with the one field [value: c].  With the byte order set by
    [with_byteorder], [float32_t] raises [OverflowError] exactly for a finite
    value that rounds to an infinity in single precision (which the
    structure field stores as that infinity); in every other case the bytes
    are the image of the structure of that declared order, on either host.
    So [float32_t.with_byteorder(2.0**128, "big").pack()] raises, where the
    big-endian structure holds [7F 80 00 00]. *)
Theorem float_pack_is_the_field_image host c f :
  c_is_float (_ctype c) = true ->
  (exists bs,
      tcstruct_float_pack host (new_float c f) None = Returns bs /\
      result_map to_bytes
        (construct host (ValueStruct_heap host host c) (ValueStruct host host c)
           [PyFloat f] [])
      = OK bs) /\
  (forall order,
      exists bs,
        result_map to_bytes
          (construct host (ValueStruct_heap host order c) (ValueStruct host order c)
             [PyFloat f] [])
        = OK bs /\
        tcstruct_float_pack host (float_with_byteorder c f order) None
        = if match c with
             | float32_t => single_overflows f
             | _ => false
             end
          then Raises OverflowError_float
          else Returns bs) /\
  tcstruct_float_pack host
    (float_with_byteorder float32_t (S754_finite false 4503599627370496 76) big) None
  = Raises OverflowError_float /\
  result_map to_bytes
    (construct host (ValueStruct_heap host big float32_t) (ValueStruct host big float32_t)
       [PyFloat (S754_finite false 4503599627370496 76)] [])
  = OK [Byte.x7f; Byte.x80; Byte.x00; Byte.x00].
Proof.
  intros Hf.
  assert (Hset : forall order, exists bs,
             simple_set order (_ctype c) false (PyFloat f) = OK bs).
  { intros order. unfold simple_set. rewrite Hf. cbn [bind]. eexists. reflexivity. }
  split; [|split; [|split; destruct host; vm_compute; reflexivity]].
  - destruct (Hset host) as [bs Hbs]. exists bs.
    unfold tcstruct_float_pack, new_float, float_byteorder.
    cbn [float_type float_value float_dict_byteorder].
    rewrite struct_pack_float_native by exact Hf. rewrite Hbs.
    split; [reflexivity|].
    rewrite ValueStruct_construct, scalar_field_set. exact Hbs.
  - intros order. destruct (Hset order) as [bs Hbs]. exists bs.
    split; [rewrite ValueStruct_construct, scalar_field_set; exact Hbs|].
    unfold tcstruct_float_pack, float_with_byteorder, new_float, float_byteorder.
    cbn [float_type float_value float_dict_byteorder].
    rewrite struct_pack_float_standard by exact Hf. rewrite Hbs.
    unfold single_overflows.
    destruct c; try discriminate; [|destruct f; reflexivity].
    destruct f as [s|s| |s m e]; try reflexivity.
    destruct (round_float 24 128 (S754_finite s m e)); reflexivity.
Qed.

Lemma float_pack_is_the_field_image_witness :
  c_is_float (_ctype float32_t) = true /\
  exists bs,
    tcstruct_float_pack big (new_float float32_t (S754_finite false 4503599627370496 (-52)))
      None
    = Returns bs /\
    result_map to_bytes
      (construct big (ValueStruct_heap big big float32_t) (ValueStruct big big float32_t)
         [PyFloat (S754_finite false 4503599627370496 (-52))] [])
    = OK bs.
Proof.
  split; [reflexivity|].
  exact (proj1 (float_pack_is_the_field_image big float32_t
                  (S754_finite false 4503599627370496 (-52)) eq_refl)).
Defined.

(** ** [TCStruct.__init__]: how arguments reach the fields *)

Lemma combine_firstn_l {A B} (l : list A) : forall (l' : list B),
  combine l (firstn (length l) l') = combine l l'.
Proof.
  induction l as [|a l IH]; intros [|b l']; cbn [length firstn combine]; try reflexivity.
  f_equal. apply IH.
Qed.

(** X5. Positional arguments beyond the number of fields are dropped without
    an error: a call constructs what the call with the surplus cut off
    constructs, and raises what it raises. *)
Theorem surplus_positional_arguments_are_dropped host h cls fields args kwargs :
  class_fields h cls = OK fields ->
  construct host h cls args kwargs
  = construct host h cls (firstn (length fields) args) kwargs.
Proof.
  intros Hf. unfold construct, TCStruct_init. cbn [ob_type new_instance].
  rewrite Hf. cbn [bind].
  replace (length fields) with (length (map fst fields)) by apply length_map.
  rewrite combine_firstn_l. reflexivity.
Qed.

Lemma surplus_positional_arguments_are_dropped_witness :
  class_fields (ValueStruct_heap little little uint16_t) (ValueStruct little little uint16_t)
  = OK [("value"%string, TyC (CSimple c_uint16 false))] /\
  construct little (ValueStruct_heap little little uint16_t)
    (ValueStruct little little uint16_t) [PyInt 1; PyInt 2; PyNone] []
  = construct little (ValueStruct_heap little little uint16_t)
      (ValueStruct little little uint16_t) [PyInt 1] [].
Proof.
  split; [reflexivity|].
  exact (surplus_positional_arguments_are_dropped little
           (ValueStruct_heap little little uint16_t) (ValueStruct little little uint16_t)
           [("value"%string, TyC (CSimple c_uint16 false))]
           [PyInt 1; PyInt 2; PyNone] [] eq_refl).
Defined.

Lemma In_firstn {A} n (l : list A) x : In x (firstn n l) -> In x l.
Proof.
  intros H. rewrite <- (firstn_skipn n l). apply in_or_app. left. exact H.
Qed.

Lemma keys_inter_nil_r a : keys_inter a [] = [].
Proof. apply keys_inter_nil. intros k _ []. Qed.

Lemma dict_update_nil_fresh {V} (items : list (string * V)) :
  NoDup (map fst items) -> dict_update [] items = items.
Proof. intros H. rewrite dict_update_fresh; [reflexivity | exact H]. Qed.

Lemma NoDup_app_disjoint {A} (a b : list A) :
  NoDup a -> NoDup b -> (forall x, In x a -> ~ In x b) -> NoDup (a ++ b).
Proof.
  induction a as [|x a IH]; intros Ha Hb Hdis; [exact Hb|].
  inversion Ha as [|? ? Hnin Ha']; subst. cbn [app]. constructor.
  - intros Hin. apply in_app_or in Hin. destruct Hin as [Hin | Hin]; [exact (Hnin Hin)|].
    exact (Hdis x (or_introl eq_refl) Hin).
  - apply IH; [exact Ha' | exact Hb |]. intros y Hy. apply Hdis. right. exact Hy.
Qed.

(** X6. With distinct field names, passing values by position is passing
    them by the names of the leading fields: when no keyword repeats one of
    those names and none of them is [self], the call behaves as the call
    that gives every value by keyword, the positional ones first.  A field
    named [self] can be given by position only: by keyword the call
    raises. *)
Theorem positional_arguments_are_keywords host h cls fields args kwargs :
  class_fields h cls = OK fields ->
  NoDup (map fst fields) ->
  NoDup (dict_keys kwargs) ->
  (forall name, In name (firstn (length args) (map fst fields)) ->
                ~ In name (dict_keys kwargs)) ->
  (~ In "self"%string (firstn (length args) (map fst fields)) ->
   construct host h cls args kwargs
   = construct host h cls [] (combine (map fst fields) args ++ kwargs)) /\
  (In "self"%string (firstn (length args) (map fst fields)) ->
   construct host h cls [] (combine (map fst fields) args ++ kwargs)
   = Raise TypeError_multiple_values).
Proof.
  intros Hf Hnd Hkw Hdis.
  assert (Hnames : map fst (combine (map fst fields) args)
                   = firstn (length args) (map fst fields)) by apply map_fst_combine.
  assert (Hkeys : dict_keys (combine (map fst fields) args ++ kwargs)
                  = firstn (length args) (map fst fields) ++ dict_keys kwargs).
  { unfold dict_keys. rewrite map_app, Hnames. reflexivity. }
  split.
  - intros Hself. unfold construct, TCStruct_init. cbn [ob_type new_instance].
    rewrite Hkeys.
    assert (Hmem : mem_string "self" (firstn (length args) (map fst fields) ++ dict_keys kwargs)
                   = mem_string "self" (dict_keys kwargs)).
    { unfold mem_string. rewrite existsb_app.
      replace (existsb (String.eqb "self") (firstn (length args) (map fst fields)))
        with false; [reflexivity|].
      symmetry. apply not_true_is_false. intros E. apply Hself.
      apply (proj1 (mem_string_In _ _)). exact E. }
    rewrite Hmem. destruct (mem_string "self" (dict_keys kwargs)); [reflexivity|].
    rewrite Hf. cbn [bind]. rewrite <- Hkeys.
    assert (Hnd1 : NoDup (map fst (combine (map fst fields) args)))
      by (rewrite Hnames; apply NoDup_firstn; exact Hnd).
    assert (Hnd2 : NoDup (map fst (combine (map fst fields) args ++ kwargs))).
    { rewrite map_app. apply NoDup_app_disjoint; [exact Hnd1 | exact Hkw |].
      intros x Hx. apply Hdis. rewrite <- Hnames. exact Hx. }
    rewrite combine_nil_r. cbn [dict_update fold_left dict_keys map].
    rewrite keys_inter_nil_r.
    rewrite (dict_update_nil_fresh _ Hnd1).
    change (fold_left _ (combine (map fst fields) args ++ kwargs) [])
      with (dict_update [] (combine (map fst fields) args ++ kwargs)).
    rewrite (dict_update_nil_fresh _ Hnd2).
    replace (keys_inter (dict_keys kwargs) (dict_keys (combine (map fst fields) args)))
      with (@nil string).
    + rewrite dict_update_fresh; [reflexivity|].
      unfold dict_keys. rewrite <- map_app. exact Hnd2.
    + symmetry. apply keys_inter_nil. intros k Hk Hin.
      apply (Hdis k); [|exact Hk]. rewrite <- Hnames. exact Hin.
  - intros Hself. unfold construct, TCStruct_init. rewrite Hkeys.
    replace (mem_string "self" (firstn (length args) (map fst fields) ++ dict_keys kwargs))
      with true; [reflexivity|].
    symmetry. apply mem_string_In. apply in_or_app. left. exact Hself.
Qed.

Lemma positional_arguments_are_keywords_witness :
  class_fields (MyDerivedStruct_heap little) (MyDerivedStruct little)
  = OK [("common1"%string, TyC (CSimple c_uint32 false));
        ("common2"%string, TyC (CSimple c_uint32 false));
        ("special1"%string, TyC (CSimple c_uint32 false))] /\
  construct little (MyDerivedStruct_heap little) (MyDerivedStruct little)
    [PyInt 1; PyInt 2] [("special1"%string, PyInt 3)]
  = construct little (MyDerivedStruct_heap little) (MyDerivedStruct little) []
      [("common1"%string, PyInt 1); ("common2"%string, PyInt 2);
       ("special1"%string, PyInt 3)].
Proof.
  split; [reflexivity|].
  apply (proj1 (positional_arguments_are_keywords little
           (MyDerivedStruct_heap little) (MyDerivedStruct little)
           [("common1"%string, TyC (CSimple c_uint32 false));
            ("common2"%string, TyC (CSimple c_uint32 false));
            ("special1"%string, TyC (CSimple c_uint32 false))]
           [PyInt 1; PyInt 2] [("special1"%string, PyInt 3)] eq_refl
           ltac:(repeat constructor; cbn; intuition discriminate)
           ltac:(repeat constructor; cbn; intuition discriminate)
           ltac:(cbn; intuition (subst; discriminate)))).
  cbn. intuition discriminate.
Defined.

Section Keywords.
Variable p : string -> bool.
Let P {V} (kv : string * V) : bool := p (fst kv).

Lemma filter_dict_setitem {V} (d : pydict V) k v :
  filter P (dict_setitem d k v)
  = if p k then dict_setitem (filter P d) k v else filter P d.
Proof.
  unfold P. induction d as [|[k' v'] d IH]; cbn [dict_setitem filter fst].
  - destruct (p k); reflexivity.
  - destruct (String.eqb_spec k k') as [->|Hne]; cbn [filter fst].
    + destruct (p k') eqn:Ek; cbn [dict_setitem]; [|reflexivity].
      rewrite String.eqb_refl. reflexivity.
    + rewrite IH.
      destruct (p k'), (p k); cbn [dict_setitem]; try reflexivity.
      destruct (String.eqb_spec k k'); [contradiction | reflexivity].
Qed.

Lemma filter_dict_update {V} (items : list (string * V)) : forall d,
  filter P (dict_update d items) = dict_update (filter P d) (filter P items).
Proof.
  unfold dict_update.
  induction items as [|[k v] items IH]; intros d; cbn [fold_left filter fst snd];
    [reflexivity|].
  rewrite IH, filter_dict_setitem. unfold P. cbn [fst].
  destruct (p k); reflexivity.
Qed.

Lemma filter_all_keys {V} (d : pydict V) :
  (forall k, In k (dict_keys d) -> p k = true) -> filter P d = d.
Proof.
  unfold P. induction d as [|[k v] d IH]; intros H; cbn [filter fst]; [reflexivity|].
  rewrite (H k (or_introl eq_refl)).
  f_equal. apply IH. intros k' Hk'. apply H. right. exact Hk'.
Qed.

Lemma filter_P_idem {V} (d : pydict V) : filter P (filter P d) = filter P d.
Proof.
  apply filter_all_keys. intros k Hk. unfold dict_keys in Hk.
  apply in_map_iff in Hk. destruct Hk as ([k' v] & <- & Hin).
  apply filter_In in Hin. exact (proj2 Hin).
Qed.

Lemma keys_inter_filter {V} (d : pydict V) b :
  (forall k, In k b -> p k = true) ->
  keys_inter (dict_keys (filter P d)) b = keys_inter (dict_keys d) b.
Proof.
  intros H. unfold keys_inter, dict_keys, P.
  induction d as [|[k v] d IH]; cbn [filter map fst]; [reflexivity|].
  destruct (p k) eqn:Ek; cbn [map filter fst].
  - rewrite IH. reflexivity.
  - rewrite IH. destruct (mem_string k b) eqn:Em; [|reflexivity].
    apply mem_string_In in Em. rewrite (H k Em) in Ek. discriminate.
Qed.
End Keywords.

Lemma dict_get_setitem {V} (d : pydict V) k v k' :
  dict_get (dict_setitem d k v) k' = if String.eqb k' k then Some v else dict_get d k'.
Proof.
  induction d as [|[k0 v0] d IH]; cbn [dict_setitem dict_get]; [reflexivity|].
  destruct (String.eqb_spec k k0) as [->|Hne]; cbn [dict_get].
  - destruct (String.eqb k' k0); reflexivity.
  - rewrite IH. destruct (String.eqb_spec k' k0) as [->|Hne'].
    + destruct (String.eqb_spec k0 k); [congruence | reflexivity].
    + reflexivity.
Qed.

Lemma Struct_init_type host kwds : forall self r,
  Struct_init host self kwds = OK r -> ob_type r = ob_type self.
Proof.
  induction kwds as [|[name v] kwds IH]; intros self r H.
  - injection H as <-. reflexivity.
  - cbn [Struct_init] in H. bind_inv H as self1 E.
    rewrite (IH _ _ H). eapply setattr_type, E.
Qed.

(** The buffer [Structure.__init__] leaves depends on the keywords that name
    a field only. *)
Lemma Struct_init_field_keywords host kwds : forall self self',
  ob_type self' = ob_type self -> b_ptr self' = b_ptr self ->
  (forall k, In k (dict_keys kwds) -> is_descriptor (ob_type self) k = false ->
             reserved_attribute k = false) ->
  result_map b_ptr (Struct_init host self kwds)
  = result_map b_ptr (Struct_init host self' (field_keywords (ob_type self) kwds)).
Proof.
  induction kwds as [|[name v] kwds IH]; intros self self' Hty Hbuf Hres.
  - cbn. f_equal. symmetry. exact Hbuf.
  - cbn [Struct_init field_keywords filter fst]. unfold is_descriptor at 1, setattr at 1.
    destruct (find_descr (ob_type self) name) as [fd|] eqn:Efd.
    + cbn [Struct_init]. unfold setattr. rewrite Hty, Efd, Hbuf.
      destruct (cdata_set host (f_type fd) v) as [bs|]; cbn [bind result_map]; [|reflexivity].
      apply (IH {| ob_type := ob_type self; b_ptr := write_at (f_offset fd) bs (b_ptr self);
                   ob_dict := ob_dict self |}); try reflexivity.
      intros k Hk. apply Hres. right. exact Hk.
    + destruct (reserved_attribute name) eqn:Eres.
      * exfalso. rewrite (Hres name) in Eres; [discriminate | left; reflexivity |].
        unfold is_descriptor. rewrite Efd. reflexivity.
      * unfold reserved_attribute in Eres. apply orb_false_iff in Eres.
        destruct Eres as [-> ->]. cbn [bind].
        apply (IH {| ob_type := ob_type self; b_ptr := b_ptr self;
                     ob_dict := dict_setitem (ob_dict self) name v |});
          try assumption.
        intros k Hk. apply Hres. right. exact Hk.
Qed.

(** A keyword that names no field ends in the instance dictionary. *)
Lemma Struct_init_attributes host kwds : forall self r name,
  NoDup (dict_keys kwds) ->
  Struct_init host self kwds = OK r ->
  is_descriptor (ob_type self) name = false ->
  dict_get (ob_dict r) name = match dict_get kwds name with
                              | Some v => Some v
                              | None => dict_get (ob_dict self) name
                              end.
Proof.
  induction kwds as [|[k v] kwds IH]; intros self r name Hnd H Hname.
  - injection H as <-. reflexivity.
  - cbn [Struct_init] in H. bind_inv H as self1 E.
    cbn [dict_keys map fst] in Hnd. inversion Hnd as [|? ? Hnin Hnd']; subst.
    pose proof (setattr_type _ _ _ _ _ E) as Hty.
    rewrite (IH self1 r name Hnd' H) by (rewrite Hty; exact Hname).
    cbn [dict_get]. unfold setattr in E. unfold is_descriptor in Hname.
    destruct (String.eqb_spec name k) as [->|Hne].
    + destruct (find_descr (ob_type self) k); [discriminate|].
      destruct (readonly_attribute k); [discriminate|].
      destruct (typed_attribute k); [discriminate|].
      injection E as <-. cbn [ob_dict].
      replace (dict_get kwds k) with (@None pyval)
        by (symmetry; apply dict_get_None; exact Hnin).
      rewrite dict_get_setitem, String.eqb_refl. reflexivity.
    + destruct (dict_get kwds name); [reflexivity|].
      destruct (find_descr (ob_type self) k) as [fd|].
      * bind_inv E as bs Ebs. injection E as <-. reflexivity.
      * destruct (readonly_attribute k); [discriminate|].
        destruct (typed_attribute k); [discriminate|].
        injection E as <-. cbn [ob_dict]. rewrite dict_get_setitem.
        destruct (String.eqb_spec name k); [contradiction | reflexivity].
Qed.

(** X7. A keyword argument that names no field, is not [self] and is not
    one of the attributes every object already has as a data descriptor
    ([_objects], [_b_base_], [_b_needsfree_], [__weakref__], [__class__],
    [__dict__]) is accepted: it becomes an ordinary attribute of the new
    object and has no part in the record.  With such keywords only, the
    image a call leaves, or the exception it raises, is that of the call with
    only the keywords that name fields.  A keyword [self] makes the call
    raise the "multiple values" [TypeError], and one of the other six names,
    where no field carries it, makes it fail. *)
Theorem unknown_keywords_become_attributes host h cls fields args kwargs :
  public_fields cls = true ->
  class_fields h cls = OK fields ->
  (forall name, In name (map fst fields) -> is_descriptor cls name = true) ->
  ((forall k, In k (dict_keys kwargs) -> is_descriptor cls k = false ->
              k <> "self"%string /\ reserved_attribute k = false) ->
   result_map to_bytes (construct host h cls args kwargs)
   = result_map to_bytes (construct host h cls args (field_keywords cls kwargs))) /\
  (forall r name v,
      construct host h cls args kwargs = OK r ->
      is_descriptor cls name = false ->
      dict_get (merged_kwargs fields args kwargs) name = Some v ->
      getattr host r name = OK v) /\
  (In "self"%string (dict_keys kwargs) ->
   construct host h cls args kwargs = Raise TypeError_multiple_values) /\
  (forall k, In k (dict_keys kwargs) -> reserved_attribute k = true ->
             forall r, construct host h cls args kwargs <> OK r).
Proof.
  intros Hpub Hf Hall.
  assert (Hkn : forall k,
             In k (dict_keys (dict_update [] (combine (map fst fields) args))) ->
             is_descriptor cls k = true).
  { intros k Hk. apply dict_update_keys_In in Hk. destruct Hk as [[] | Hk].
    rewrite map_fst_combine in Hk. apply Hall. eapply In_firstn, Hk. }
  split; [|split; [|split]].
  - intros Hplain. unfold construct, TCStruct_init. cbn [ob_type new_instance].
    assert (Hself : mem_string "self" (dict_keys (field_keywords cls kwargs))
                    = mem_string "self" (dict_keys kwargs)).
    { destruct (mem_string "self" (dict_keys kwargs)) eqn:E.
      - apply mem_string_In in E. apply mem_string_In.
        destruct (is_descriptor cls "self") eqn:Ed.
        + unfold dict_keys in *. apply in_map_iff in E.
          destruct E as ([k v] & Hk & Hin). cbn [fst] in Hk. subst k.
          apply in_map_iff. exists ("self"%string, v). split; [reflexivity|].
          unfold field_keywords. apply filter_In. split; [exact Hin | exact Ed].
        + destruct (Hplain _ E Ed) as [Hne _]. congruence.
      - apply not_true_is_false. intros E'. apply mem_string_In in E'.
        unfold dict_keys, field_keywords in E'. apply in_map_iff in E'.
        destruct E' as ([k v] & Hk & Hin). apply filter_In in Hin.
        assert (Hin' : In "self"%string (dict_keys kwargs)).
        { unfold dict_keys. apply in_map_iff. exists (k, v). split; [exact Hk | apply Hin]. }
        apply mem_string_In in Hin'. congruence. }
    rewrite Hself. destruct (mem_string "self" (dict_keys kwargs)); [reflexivity|].
    rewrite Hf. cbn [bind]. unfold field_keywords at 1.
    rewrite (keys_inter_filter (is_descriptor cls)) by exact Hkn.
    destruct (keys_inter _ _); [|reflexivity].
    change (@result_map instance (list byte) to_bytes) with (@result_map instance _ b_ptr).
    set (self := {| ob_type := cls; b_ptr := zeros (class_size cls); ob_dict := [] |}).
    rewrite (Struct_init_field_keywords host _ self self eq_refl eq_refl).
    + rewrite (Struct_init_field_keywords host
                 (dict_update _ (field_keywords cls kwargs)) self self eq_refl eq_refl).
      * cbn [ob_type self]. unfold field_keywords.
        rewrite !(filter_dict_update (is_descriptor cls)).
        rewrite (filter_P_idem (is_descriptor cls)). reflexivity.
      * cbn [ob_type self]. intros k Hk Hd.
        apply dict_update_keys_In in Hk. destruct Hk as [Hk | Hk].
        -- rewrite (Hkn k Hk) in Hd. discriminate.
        -- unfold field_keywords in Hk. apply in_map_iff in Hk.
           destruct Hk as ([k' v] & Hk' & Hin). apply filter_In in Hin.
           cbn [fst] in Hk', Hin. subst k'. destruct Hin as [_ Hin]. congruence.
    + cbn [ob_type self]. intros k Hk Hd.
      apply dict_update_keys_In in Hk. destruct Hk as [Hk | Hk].
      * rewrite (Hkn k Hk) in Hd. discriminate.
      * apply Hplain; assumption.
  - intros r name v Hr Hname Hget.
    destruct (construct_inv _ _ _ _ _ _ Hr) as (fields' & Hf' & _ & Hinit).
    rewrite Hf in Hf'. injection Hf' as <-.
    pose proof (Struct_init_type _ _ _ _ Hinit) as Hty. cbn [ob_type new_instance] in Hty.
    pose proof (Struct_init_attributes host _ _ _ name
                  (merged_kwargs_NoDup fields args kwargs) Hinit Hname) as Hd.
    rewrite Hget in Hd.
    unfold getattr. rewrite Hty. unfold is_descriptor in Hname.
    destruct (find_descr cls name); [discriminate|]. rewrite Hd. reflexivity.
  - intros Hself. unfold construct, TCStruct_init.
    apply mem_string_In in Hself. rewrite Hself. reflexivity.
  - intros k Hk Hres r Hr.
    destruct (proj1 (construct_OK_iff host h cls fields args kwargs Hf)
                (ex_intro _ r Hr)) as (_ & _ & Hassign).
    assert (Hin : In k (dict_keys (merged_kwargs fields args kwargs))).
    { unfold merged_kwargs. apply dict_update_keys_In. right. exact Hk. }
    destruct (dict_get (merged_kwargs fields args kwargs) k) as [v|] eqn:Eg.
    + specialize (Hassign k v Eg). unfold assignable in Hassign.
      rewrite (public_fields_find cls k Hpub (reserved_attribute_underscore k Hres)) in Hassign.
      rewrite Hres in Hassign. discriminate.
    + apply dict_get_None in Eg. contradiction.
Qed.

Lemma unknown_keywords_become_attributes_witness :
  public_fields (ValueStruct little big uint16_t) = true /\
  class_fields (ValueStruct_heap little big uint16_t) (ValueStruct little big uint16_t)
  = OK [("value"%string, TyC (CSimple c_uint16 true))] /\
  (forall name, In name [("value"%string)] ->
                is_descriptor (ValueStruct little big uint16_t) name = true) /\
  result_map to_bytes
    (construct little (ValueStruct_heap little big uint16_t) (ValueStruct little big uint16_t)
       [PyInt 258] [("comment"%string, PyNone)])
  = result_map to_bytes
      (construct little (ValueStruct_heap little big uint16_t)
         (ValueStruct little big uint16_t) [PyInt 258] []).
Proof.
  assert (H : forall name, In name [("value"%string)] ->
                is_descriptor (ValueStruct little big uint16_t) name = true).
  { intros name [<- | []]. reflexivity. }
  split; [reflexivity|]. split; [reflexivity|]. split; [exact H|].
  apply (proj1 (unknown_keywords_become_attributes little
                  (ValueStruct_heap little big uint16_t) (ValueStruct little big uint16_t)
                  [("value"%string, TyC (CSimple c_uint16 true))]
                  [PyInt 258] [("comment"%string, PyNone)] eq_refl eq_refl H)).
  intros k [<- | []] _. split; [discriminate | reflexivity].
Defined.

(** ** [TCStructMeta.__new__]: which class statements succeed *)













(** ** The declared byte order fixes the encoding on every host *)

Section HostIndependence.
Local Open Scope nat_scope.









Variables host1 host2 : byteorder.















End HostIndependence.






(** ** Derived classes: the inherited fields are laid out a second time *)

Section Derivation.
Local Open Scope nat_scope.



End Derivation.



(** ** Which constructor calls succeed *)

(** X11. For a class with public field names, a constructor call succeeds
    exactly when no keyword is named [self], no keyword repeats the name of
    a field that a positional argument fills, every value that reaches a
    field is one the field's type takes, and no keyword that names no field
    is one of the attributes an object cannot be given ([_objects],
    [_b_base_], [_b_needsfree_], [__weakref__], [__class__], [__dict__]);
    whether it succeeds does not depend on the host.  When it fails, it
    raises the [TypeError] of the repeated argument, the [TypeError],
    [OverflowError] or [RuntimeError] of a ctypes setter, or the
    [AttributeError] or [TypeError] of such an attribute. *)
Theorem construct_succeeds_iff host h cls fields args kwargs :
  public_fields cls = true ->
  class_fields h cls = OK fields ->
  ((exists r, construct host h cls args kwargs = OK r)
   <-> (~ In "self"%string (dict_keys kwargs) /\
        (forall name, In name (firstn (length args) (map fst fields)) ->
                      ~ In name (dict_keys kwargs)) /\
        (forall name v fd,
            dict_get (merged_kwargs fields args kwargs) name = Some v ->
            find_descr cls name = Some fd ->
            accepts (f_type fd) v = true) /\
        (forall name,
            In name (dict_keys (merged_kwargs fields args kwargs)) ->
            find_descr cls name = None ->
            reserved_attribute name = false))) /\
  (forall e, construct host h cls args kwargs = Raise e ->
             e = TypeError_multiple_values \/ e = TypeError_ctypes \/
             e = OverflowError_ctypes \/ e = RuntimeError_ctypes \/
             e = AttributeError \/ e = TypeError_attribute).
Proof.
  intros _ Hf. split.
  - rewrite (construct_OK_iff host h cls fields args kwargs Hf).
    split.
    + intros (Hself & Hov & Hall). split; [exact Hself|]. split; [exact Hov|]. split.
      * intros name v fd Hget Hfd. specialize (Hall name v Hget).
        unfold assignable in Hall. rewrite Hfd in Hall. exact Hall.
      * intros name Hin Hfd.
        destruct (dict_get (merged_kwargs fields args kwargs) name) as [v|] eqn:Eg.
        -- specialize (Hall name v Eg). unfold assignable in Hall. rewrite Hfd in Hall.
           apply negb_true_iff. exact Hall.
        -- apply dict_get_None in Eg. contradiction.
    + intros (Hself & Hov & Hacc & Hres). split; [exact Hself|]. split; [exact Hov|].
      intros name v Hget. unfold assignable.
      destruct (find_descr cls name) as [fd|] eqn:Efd.
      * eapply Hacc; eassumption.
      * apply negb_true_iff. apply Hres; [|exact Efd].
        apply dict_get_In in Hget. unfold dict_keys.
        apply in_map_iff. exists (name, v). split; [reflexivity | exact Hget].
  - intros e. unfold construct, TCStruct_init. cbn [ob_type new_instance].
    destruct (mem_string "self" (dict_keys kwargs)); [intros H; injection H as <-; auto|].
    rewrite Hf. cbn [bind].
    destruct (keys_inter _ _); [|intros H; injection H as <-; auto].
    intros H. right. eapply Struct_init_raises, H.
Qed.

Lemma construct_succeeds_iff_witness :
  public_fields (MyStruct big little) = true /\
  class_fields (MyStruct_heap big little) (MyStruct big little)
  = OK (deref (MyStruct_heap big little) 1%nat) /\
  (exists r, construct big (MyStruct_heap big little) (MyStruct big little)
               [PyInt 1; PyTuple [PyInt 1; PyInt 2]] [("dvalue"%string, PyInt 3)] = OK r) /\
  ~ (exists r, construct big (MyStruct_heap big little) (MyStruct big little)
                 [PyInt 1; PyTuple [PyInt 1; PyInt 2; PyInt 3; PyInt 4; PyInt 5]] []
               = OK r).
Proof.
  split; [reflexivity|]. split; [reflexivity|]. split.
  - apply (proj1 (construct_succeeds_iff big (MyStruct_heap big little) (MyStruct big little)
                    _ [PyInt 1; PyTuple [PyInt 1; PyInt 2]] [("dvalue"%string, PyInt 3)]
                    eq_refl eq_refl)).
    split; [cbn; intuition discriminate|]. split; [|split].
    + intros name Hpos Hkw. vm_compute in Hpos, Hkw.
      destruct Hkw as [<- | []]. destruct Hpos as [H | [H | []]]; discriminate.
    + intros name v fd Hget Hfd. apply dict_get_In in Hget. vm_compute in Hget.
      destruct Hget as [Heq | [Heq | [Heq | []]]]; injection Heq as <- <-;
        vm_compute in Hfd; injection Hfd as <-; reflexivity.
    + intros name Hin Hfd. vm_compute in Hin.
      destruct Hin as [<- | [<- | [<- | []]]]; reflexivity.
  - intros H.
    apply (proj1 (construct_succeeds_iff big (MyStruct_heap big little) (MyStruct big little)
                    _ _ [] eq_refl eq_refl)) in H.
    destruct H as (_ & _ & H & _).
    specialize (H "version"%string
                  (PyTuple [PyInt 1; PyInt 2; PyInt 3; PyInt 4; PyInt 5])
                  {| f_offset := 4; f_type := CArray (CSimple c_uint8 false) 4 |}
                  eq_refl eq_refl).
    discriminate.
Defined.

(** ** Decoding an integer field *)

Lemma simple_get_int order c bs :
  c_is_float (_ctype c) = false ->
  length bs = c_sizeof (_ctype c) ->
  simple_get order (_ctype c) false bs = PyInt (int_from_bytes_py bs order (_signed c)).
Proof.
  intros Hint Hlen. unfold simple_get, int_from_bytes_py. rewrite Hint.
  destruct (ctype_bitwidth c) as [_ Hs]. rewrite (Hs Hint), Hlen.
  destruct (scalar_width c) as (_ & _ & Hpos).
  destruct (Nat.eqb_spec (c_sizeof (_ctype c)) 0); [lia | reflexivity].
Qed.

(** X12. Decoding with a structure of one integer field is [int.from_bytes]:
    for a class of declared order [order] with the field [value: c], on
    either host, [from_bytes(data).value] is the integer that
    [int.from_bytes] reads from the first [_bitwidth/8] bytes of [data] in
    that order with the signedness of [c]. *)
Theorem decoding_is_int_from_bytes host order c data :
  c_is_float (_ctype c) = false ->
  (c_sizeof (_ctype c) <= length data)%nat ->
  bind (from_bytes (ValueStruct host order c) data)
    (fun r => getattr host r "value"%string)
  = OK (PyInt (int_from_bytes_py (firstn (c_sizeof (_ctype c)) data) order (_signed c))).
Proof.
  intros Hint Hlen.
  assert (Hfirst : length (firstn (c_sizeof (_ctype c)) data) = c_sizeof (_ctype c))
    by (rewrite length_firstn; lia).
  rewrite <- (simple_get_int order c _ Hint Hfirst).
  rewrite <- (scalar_field_get host order c _ Hfirst).
  rewrite <- (ValueStruct_decode host order c _ Hfirst).
  unfold from_bytes.
  replace (is_descriptor (ValueStruct host order c) "from_bytes"%string) with false
    by (destruct host, order, c; reflexivity).
  replace (is_descriptor (ValueStruct host order c) "from_buffer_copy"%string) with false
    by (destruct host, order, c; reflexivity).
  unfold from_buffer_copy, ValueStruct. rewrite ValueStruct_class.
  cbn [snd defined_class class_size]. rewrite Hfirst, Nat.ltb_irrefl.
  destruct (Nat.ltb_spec (length data) (c_sizeof (_ctype c))); [lia|].
  rewrite firstn_firstn, Nat.min_id. reflexivity.
Qed.

Lemma decoding_is_int_from_bytes_witness :
  c_is_float (_ctype sint16_t) = false /\
  (c_sizeof (_ctype sint16_t) <= length [Byte.xff; Byte.xfe; Byte.x00])%nat /\
  bind (from_bytes (ValueStruct little big sint16_t) [Byte.xff; Byte.xfe; Byte.x00])
    (fun r => getattr little r "value"%string)
  = OK (PyInt (-2)).
Proof.
  split; [reflexivity|]. split; [cbn; lia|].
  exact (decoding_is_int_from_bytes little big sint16_t [Byte.xff; Byte.xfe; Byte.x00]
           eq_refl ltac:(cbn; lia)).
Defined.

(** ** The order of keyword arguments *)

Section KeywordOrder.
Local Open Scope nat_scope.

Lemma buffers_eq_pointwise (a : list byte) : forall b,
  length a = length b ->
  (forall i, i < length a -> read_at i 1 a = read_at i 1 b) ->
  a = b.
Proof.
  induction a as [|x a IH]; intros [|y b] Hlen Hall; try discriminate; [reflexivity|].
  cbn [length] in Hlen, Hall.
  pose proof (Hall 0 ltac:(lia)) as H0. unfold read_at in H0. cbn in H0.
  injection H0 as ->. f_equal. apply IH; [lia|].
  intros i Hi. exact (Hall (S i) ltac:(lia)).
Qed.

Lemma read_at_sub off n i (buf : list byte) :
  i < n -> read_at i 1 (read_at off n buf) = read_at (off + i) 1 buf.
Proof.
  intros Hi. unfold read_at.
  rewrite skipn_firstn_comm, firstn_firstn, skipn_skipn.
  replace (Nat.min 1 (n - i)) with 1 by lia.
  replace (i + off) with (off + i) by lia. reflexivity.
Qed.

Lemma dict_get_update {V} (items : list (string * V)) : forall d k,
  NoDup (map fst items) ->
  dict_get (dict_update d items) k = match dict_get items k with
                                     | Some v => Some v
                                     | None => dict_get d k
                                     end.
Proof.
  unfold dict_update.
  induction items as [|[k0 v0] items IH]; intros d k Hnd; [reflexivity|].
  cbn [map fst] in Hnd. inversion Hnd as [|? ? Hnin Hnd']; subst.
  cbn [fold_left fst snd dict_get]. rewrite IH by exact Hnd'.
  rewrite dict_get_setitem.
  destruct (String.eqb_spec k k0) as [->|Hne]; [|reflexivity].
  replace (dict_get items k0) with (@None V); [reflexivity|].
  symmetry. apply dict_get_None. exact Hnin.
Qed.

Lemma dict_get_keys {V} (d : pydict V) k :
  In k (dict_keys d) <-> exists v, dict_get d k = Some v.
Proof.
  split.
  - intros Hin. destruct (dict_get d k) as [v|] eqn:E; [exists v; reflexivity|].
    apply dict_get_None in E. contradiction.
  - intros [v Hv]. apply dict_get_In in Hv. apply (in_map fst) in Hv. exact Hv.
Qed.

(** Either a byte lies in the slot of a supplied field or it lies outside
    all of them. *)
Lemma byte_in_slot_dec cls i (names : list string) :
  (exists name fd,
      In name names /\ find_descr cls name = Some fd /\
      f_offset fd <= i < f_offset fd + sizeof (f_type fd)) \/
  (forall name fd,
      In name names -> find_descr cls name = Some fd ->
      i + 1 <= f_offset fd \/ f_offset fd + sizeof (f_type fd) <= i).
Proof.
  induction names as [|n names IH].
  - right. intros name fd [].
  - destruct IH as [(name & fd & Hin & Hfd & Hi) | Hnone].
    + left. exists name, fd. split; [right; exact Hin | split; assumption].
    + destruct (find_descr cls n) as [fd|] eqn:E.
      * destruct (le_lt_dec (f_offset fd) i) as [Hlo | Hlo];
          [destruct (le_lt_dec (f_offset fd + sizeof (f_type fd)) i) as [Hhi | Hhi]|].
        -- right. intros name fd' [<- | Hin] Hfd'; [|eapply Hnone; eassumption].
           rewrite E in Hfd'. injection Hfd' as <-. right. exact Hhi.
        -- left. exists n, fd. split; [left; reflexivity | split; [exact E | lia]].
        -- right. intros name fd' [<- | Hin] Hfd'; [|eapply Hnone; eassumption].
           rewrite E in Hfd'. injection Hfd' as <-. left. lia.
      * right. intros name fd' [<- | Hin] Hfd'; [congruence | eapply Hnone; eassumption].
Qed.
End KeywordOrder.

(** X13. The order of the keyword arguments does not matter: two calls whose
    keyword arguments give the same values to the same names, with the same
    positional arguments, succeed together, leave the same bytes and show
    the same value for every attribute. *)
Theorem keyword_order_is_irrelevant host h cls args kwargs kwargs' r :
  layout_ok cls ->
  NoDup (dict_keys kwargs) ->
  NoDup (dict_keys kwargs') ->
  (forall name, dict_get kwargs name = dict_get kwargs' name) ->
  construct host h cls args kwargs = OK r ->
  exists r',
    construct host h cls args kwargs' = OK r' /\
    to_bytes r' = to_bytes r /\
    forall name, getattr host r' name = getattr host r name.
Proof.
  intros Hok Hnd Hnd' Hsame Hr.
  destruct (construct_inv _ _ _ _ _ _ Hr) as (fields & Hf & Hov & Hinit).
  set (kn := dict_update [] (combine (map fst fields) args)) in *.
  assert (Hm : forall name, dict_get (merged_kwargs fields args kwargs) name
                            = dict_get (merged_kwargs fields args kwargs') name).
  { intros name. unfold merged_kwargs. fold kn.
    rewrite !dict_get_update by assumption. rewrite Hsame. reflexivity. }
  assert (Hkeys : forall name, In name (dict_keys kwargs) <-> In name (dict_keys kwargs')).
  { intros name. rewrite !dict_get_keys. split; intros [v Hv]; exists v; congruence. }
  assert (Hmkeys : forall name,
             In name (dict_keys (merged_kwargs fields args kwargs))
             <-> In name (dict_keys (merged_kwargs fields args kwargs'))).
  { intros name. rewrite !dict_get_keys. split; intros [v Hv]; exists v; congruence. }
  assert (Hr' : exists r', construct host h cls args kwargs' = OK r').
  { apply (construct_OK_iff host h cls fields args kwargs' Hf).
    destruct (proj1 (construct_OK_iff host h cls fields args kwargs Hf) (ex_intro _ r Hr))
      as (Hself & Hov' & Hall).
    split; [intros H; apply Hself, Hkeys, H|]. split.
    - intros name Hpos Hkw. apply (Hov' name Hpos). apply Hkeys. exact Hkw.
    - intros name v Hget. apply Hall. rewrite Hm. exact Hget. }
  destruct Hr' as [r' Hr']. exists r'. split; [exact Hr'|].
  destruct (construct_spec host _ _ _ _ _ Hok Hr)
    as (fs1 & Hf1 & Hty & Hlen & Hset & Hzero).
  destruct (construct_spec host _ _ _ _ _ Hok Hr')
    as (fs2 & Hf2 & Hty' & Hlen' & Hset' & Hzero').
  rewrite Hf in Hf1, Hf2. injection Hf1 as <-. injection Hf2 as <-.
  assert (Hbuf : b_ptr r' = b_ptr r).
  { apply buffers_eq_pointwise; [congruence|].
    intros i Hi. rewrite Hlen' in Hi.
    destruct (byte_in_slot_dec cls i (dict_keys (merged_kwargs fields args kwargs)))
      as [(name & fd & Hin & Hfd & Hrange) | Hnone].
    - apply dict_get_keys in Hin. destruct Hin as [v Hv].
      destruct (Hset name v fd Hv Hfd) as (bs & Hbs & Hslot).
      rewrite Hm in Hv.
      destruct (Hset' name v fd Hv Hfd) as (bs' & Hbs' & Hslot').
      rewrite Hbs in Hbs'. injection Hbs' as <-.
      replace i with (f_offset fd + (i - f_offset fd))%nat by lia.
      rewrite <- !read_at_sub with (n := sizeof (f_type fd)) by lia.
      unfold slot in Hslot, Hslot'. rewrite Hslot, Hslot'. reflexivity.
    - rewrite Hzero, Hzero'; [reflexivity | lia | | lia | exact Hnone].
      intros name fd Hin Hfd. apply (Hnone name fd); [apply Hmkeys; exact Hin | exact Hfd]. }
  split; [exact Hbuf|].
  intros name. unfold getattr. rewrite Hty, Hty', Hbuf.
  destruct (find_descr cls name) as [fd|] eqn:Efd; [reflexivity|].
  destruct (construct_inv _ _ _ _ _ _ Hr') as (fs3 & Hf3 & _ & Hinit').
  rewrite Hf in Hf3. injection Hf3 as <-.
  assert (Hnot : is_descriptor cls name = false) by (unfold is_descriptor; rewrite Efd; reflexivity).
  rewrite (Struct_init_attributes host _ _ _ name
             (merged_kwargs_NoDup fields args kwargs) Hinit Hnot).
  rewrite (Struct_init_attributes host _ _ _ name
             (merged_kwargs_NoDup fields args kwargs') Hinit' Hnot).
  rewrite Hm. reflexivity.
Qed.

Lemma keyword_order_is_irrelevant_witness :
  layout_ok (MyStruct little big) /\
  exists r r',
    construct little (MyStruct_heap little big) (MyStruct little big) [PyInt 1]
      [("value"%string, PyInt 2); ("dvalue"%string, py_2_0)] = OK r /\
    construct little (MyStruct_heap little big) (MyStruct little big) [PyInt 1]
      [("dvalue"%string, py_2_0); ("value"%string, PyInt 2)] = OK r' /\
    to_bytes r' = to_bytes r.
Proof.
  assert (Hok : layout_ok (MyStruct little big)) by (unfold layout_ok; vm_compute; lia).
  split; [exact Hok|].
  destruct (construct little (MyStruct_heap little big) (MyStruct little big) [PyInt 1]
              [("value"%string, PyInt 2); ("dvalue"%string, py_2_0)]) as [r|e] eqn:Er;
    [|vm_compute in Er; discriminate].
  destruct (keyword_order_is_irrelevant little (MyStruct_heap little big)
              (MyStruct little big) [PyInt 1]
              [("value"%string, PyInt 2); ("dvalue"%string, py_2_0)]
              [("dvalue"%string, py_2_0); ("value"%string, PyInt 2)] r Hok)
    as (r' & Hr' & Hbytes & _).
  - repeat constructor; cbn; intuition discriminate.
  - repeat constructor; cbn; intuition discriminate.
  - intros name. cbn [dict_get].
    destruct (String.eqb_spec name "value"), (String.eqb_spec name "dvalue");
      subst; try discriminate; reflexivity.
  - exact Er.
  - exists r, r'. split; [reflexivity|]. split; assumption.
Defined.

(** ** Double-precision fields *)

Lemma digits2_pos_bounds m :
  2 ^ (Z.pos (digits2_pos m) - 1) <= Z.pos m < 2 ^ Z.pos (digits2_pos m).
Proof.
  induction m as [p IH | p IH |]; cbn [digits2_pos]; [| |cbn; lia].
  - rewrite Pos2Z.inj_succ, Z.pow_succ_r by lia.
    replace (Z.succ (Z.pos (digits2_pos p)) - 1) with (Z.pos (digits2_pos p)) by lia.
    rewrite (pow2_half (Z.pos (digits2_pos p))) in * by lia. lia.
  - rewrite Pos2Z.inj_succ, Z.pow_succ_r by lia.
    replace (Z.succ (Z.pos (digits2_pos p)) - 1) with (Z.pos (digits2_pos p)) by lia.
    rewrite (pow2_half (Z.pos (digits2_pos p))) in * by lia. lia.
Qed.

(** A finite double is subnormal, with the least exponent, or normal. *)
Lemma bounded_double m e :
  bounded 53 1024 m e = true ->
  (Z.pos m < 4503599627370496 /\ e = -1074) \/
  (4503599627370496 <= Z.pos m < 9007199254740992 /\ -1074 <= e <= 971).
Proof.
  unfold bounded, canonical_mantissa, fexp, emin. intros H.
  apply Bool.andb_true_iff in H. destruct H as [Hc He].
  apply Z.eqb_eq in Hc. apply Z.leb_le in He.
  pose proof (digits2_pos_bounds m) as [Hlo Hhi].
  set (d := Z.pos (digits2_pos m)) in *.
  assert (Hd : 0 < d) by (unfold d; lia).
  destruct (Z.max_spec (d + e - 53) (3 - 1024 - 53)) as [[Hlt Hmax] | [Hge Hmax]];
    rewrite Hmax in Hc.
  - left. split; [|lia].
    assert (Hle : 2 ^ d <= 2 ^ 52) by (apply Z.pow_le_mono_r; lia).
    change (2 ^ 52) with 4503599627370496 in Hle. lia.
  - right. assert (d = 53) by lia. subst d.
    replace (Z.pos (digits2_pos m)) with 53 in Hlo, Hhi by lia.
    change (2 ^ (53 - 1)) with 4503599627370496 in Hlo.
    change (2 ^ 53) with 9007199254740992 in Hhi. lia.
Qed.

Lemma double_sign_bit (s : bool) r :
  0 <= r < 9223372036854775808 ->
  Z.testbit (sign_bit 52 11 s + r) 63 = s.
Proof.
  intros Hr. rewrite Z.testbit_eqb by lia.
  change (2 ^ 63) with 9223372036854775808.
  unfold sign_bit. change (2 ^ (52 + 11)) with 9223372036854775808.
  destruct s.
  - replace ((9223372036854775808 + r) / 9223372036854775808) with 1; [reflexivity|].
    apply Z.div_unique with (r := r); lia.
  - rewrite Z.add_0_l, Z.div_small by lia. reflexivity.
Qed.

(** The 64 bits of a double determine it. *)
Lemma double_bits_round_trip f :
  valid_binary 53 1024 f = true ->
  0 <= bits_of_float 52 11 f < 2 ^ 64 /\
  float_of_bits 52 11 (bits_of_float 52 11 f) = f.
Proof.
  destruct f as [s | s | | s m e]; cbn [valid_binary].
  - intros _. destruct s; split; try reflexivity; cbn; lia.
  - intros _. destruct s; split; try reflexivity; cbn; lia.
  - intros _. split; [cbn; lia | reflexivity].
  - intros Hb. apply bounded_double in Hb.
    unfold bits_of_float, float_of_bits, float_emin.
    change (2 ^ 52) with 4503599627370496. change (2 ^ 64) with 18446744073709551616.
    change (2 ^ 11) with 2048. change (3 - 2 ^ (11 - 1) - (52 + 1)) with (-1074).
    change (52 + 11) with 63.
    assert (Hsign : sign_bit 52 11 s = 0 \/ sign_bit 52 11 s = 9223372036854775808)
      by (destruct s; [right | left]; reflexivity).
    destruct Hb as [[Hm He] | [Hm He]].
    + destruct (Z.ltb_spec (Z.pos m) 4503599627370496); [|lia].
      split; [lia|].
      rewrite double_sign_bit by lia.
      replace ((sign_bit 52 11 s + Z.pos m) / 4503599627370496 mod 2048) with 0
        by (destruct Hsign as [-> | ->]; Z.div_mod_to_equations; lia).
      replace ((sign_bit 52 11 s + Z.pos m) mod 4503599627370496) with (Z.pos m)
        by (destruct Hsign as [-> | ->]; Z.div_mod_to_equations; lia).
      cbn [Z.eqb]. subst e. reflexivity.
    + destruct (Z.ltb_spec (Z.pos m) 4503599627370496); [lia|].
      split; [lia|].
      rewrite <- Z.add_assoc. rewrite double_sign_bit by lia. rewrite Z.add_assoc.
      replace ((sign_bit 52 11 s + (e - -1074 + 1) * 4503599627370496
                + (Z.pos m - 4503599627370496)) / 4503599627370496 mod 2048)
        with (e + 1075)
        by (destruct Hsign as [-> | ->]; Z.div_mod_to_equations; lia).
      replace ((sign_bit 52 11 s + (e - -1074 + 1) * 4503599627370496
                + (Z.pos m - 4503599627370496)) mod 4503599627370496)
        with (Z.pos m - 4503599627370496)
        by (destruct Hsign as [-> | ->]; Z.div_mod_to_equations; lia).
      destruct (Z.eqb_spec (e + 1075) 0); [lia|].
      destruct (Z.eqb_spec (e + 1075) (2048 - 1)); [lia|].
      replace (Z.pos m - 4503599627370496 + 4503599627370496) with (Z.pos m) by lia.
      f_equal. lia.
Qed.

(** X15. A [float64_t] field keeps a Python float exactly: in a structure
    of either declared order on either host, the record built from a double
    [f] is 8 bytes long, and both the constructed object and the object
    decoded from those bytes show [f] as the field's value, infinities,
    signed zeros and subnormal numbers included. *)
Theorem float64_field_round_trip host order f :
  valid_binary 53 1024 f = true ->
  exists bs,
    result_map to_bytes
      (construct host (ValueStruct_heap host order float64_t) (ValueStruct host order float64_t)
         [PyFloat f] [])
    = OK bs /\
    length bs = 8%nat /\
    bind (construct host (ValueStruct_heap host order float64_t)
            (ValueStruct host order float64_t) [PyFloat f] [])
      (fun r => getattr host r "value"%string)
    = OK (PyFloat f) /\
    bind (from_bytes (ValueStruct host order float64_t) bs)
      (fun r => getattr host r "value"%string)
    = OK (PyFloat f).
Proof.
  intros Hvalid. destruct (double_bits_round_trip f Hvalid) as [Hrange Hbits].
  assert (Hget : cdata_get host (scalar_field_type host order float64_t)
                   (int_to_bytes order 8 (bits_of_float 52 11 f)) = PyFloat f).
  { rewrite scalar_field_get by apply int_to_bytes_length.
    unfold simple_get. cbn [_ctype c_is_float].
    rewrite int_from_to_bytes.
    change (Z.of_nat 8 * 8) with 64. rewrite Z.mod_small by exact Hrange.
    rewrite Hbits. reflexivity. }
  exists (int_to_bytes order 8 (bits_of_float 52 11 f)).
  split; [|split; [|split]].
  - rewrite ValueStruct_construct, scalar_field_set. reflexivity.
  - apply int_to_bytes_length.
  - rewrite ValueStruct_construct_value, scalar_field_set.
    cbn [simple_set _ctype c_is_float bind c_sizeof]. rewrite Hget. reflexivity.
  - rewrite ValueStruct_decode by apply int_to_bytes_length.
    rewrite Hget. reflexivity.
Qed.

Lemma float64_field_round_trip_witness :
  valid_binary 53 1024 (S754_finite true 5557441940175192 (-52)) = true /\
  exists bs,
    result_map to_bytes
      (construct little (ValueStruct_heap little big float64_t)
         (ValueStruct little big float64_t)
         [PyFloat (S754_finite true 5557441940175192 (-52))] [])
    = OK bs /\
    bind (from_bytes (ValueStruct little big float64_t) bs)
      (fun r => getattr little r "value"%string)
    = OK (PyFloat (S754_finite true 5557441940175192 (-52))).
Proof.
  split; [reflexivity|].
  destruct (float64_field_round_trip little big
              (S754_finite true 5557441940175192 (-52)) eq_refl) as (bs & H1 & _ & _ & H2).
  exists bs. split; assumption.
Defined.
(** ** Array fields *)

Lemma wraps_to_map c zs : Forall2 (wraps_to c) zs (map (wrap c) zs).
Proof.
  induction zs as [|z zs IH]; cbn [map]; constructor; [apply wrap_wraps_to | exact IH].
Qed.

(** X16. A field made from [c[n]] or [Array[c[n]]], with [c] an integer
    class, in a class with public field names, takes a tuple of at most [n]
    integers.  The field then reads as [n] items: the given integers, each
    after two's-complement wraparound to the width of [c], followed by
    zeros; this holds in every successful construction that supplies the
    tuple, and the construction that gives the tuple by the field's name
    succeeds unless that name is [self].  No construction that supplies a
    tuple of more than [n] integers succeeds: the one that gives it by the
    field's name raises [RuntimeError], or, when the name is [self], the
    "multiple values" [TypeError]. *)
Theorem array_field_items host h cls fields name fd c sw len zs :
  layout_ok cls ->
  public_fields cls = true ->
  class_fields h cls = OK fields ->
  find_descr cls name = Some fd ->
  f_type fd = CArray (CSimple c sw) len ->
  c_is_float c = false ->
  ((length zs <= len)%nat ->
   (name <> "self"%string ->
    exists r, construct host h cls [] [(name, PyTuple (map PyInt zs))] = OK r) /\
   (forall args kwargs r,
       dict_get (merged_kwargs fields args kwargs) name = Some (PyTuple (map PyInt zs)) ->
       construct host h cls args kwargs = OK r ->
       exists vs,
         Forall2 (wraps_to c) zs vs /\
         getattr host r name
         = OK (PyTuple (map PyInt (vs ++ repeat 0 (len - length zs)%nat))))) /\
  ((len < length zs)%nat ->
   (name <> "self"%string ->
    construct host h cls [] [(name, PyTuple (map PyInt zs))] = Raise RuntimeError_ctypes) /\
   (name = "self"%string ->
    construct host h cls [] [(name, PyTuple (map PyInt zs))]
    = Raise TypeError_multiple_values) /\
   (forall args kwargs r,
       dict_get (merged_kwargs fields args kwargs) name = Some (PyTuple (map PyInt zs)) ->
       construct host h cls args kwargs <> OK r)).
Proof.
  intros Hok _ Hf Hfd Hty Hint.
  assert (Hmerged : merged_kwargs fields [] [(name, PyTuple (map PyInt zs))]
                    = [(name, PyTuple (map PyInt zs))]).
  { unfold merged_kwargs. rewrite combine_nil_r. reflexivity. }
  assert (Hself : name <> "self"%string ->
                  mem_string "self" (dict_keys [(name, PyTuple (map PyInt zs))]) = false).
  { intros Hne. cbn [dict_keys map fst mem_string existsb]. rewrite orb_false_r.
    apply String.eqb_neq. congruence. }
  split.
  - intros Hlen.
    destruct (array_items_truncation host c sw zs len Hint Hlen) as (bs0 & Hbs0 & Hget0).
    split.
    + intros Hne.
      apply (construct_OK_iff host h cls fields [] [(name, PyTuple (map PyInt zs))] Hf).
      split.
      { intros Hin. apply mem_string_In in Hin. rewrite (Hself Hne) in Hin. discriminate. }
      split; [intros n []|].
      rewrite Hmerged. intros name' v' Hget. cbn [dict_get] in Hget.
      destruct (String.eqb_spec name' name) as [->|]; [|discriminate].
      injection Hget as <-. unfold assignable. rewrite Hfd, Hty.
      apply (cdata_set_accepts host). exists bs0. exact Hbs0.
    + intros args kwargs r Hget H.
      destruct (construct_spec host _ _ _ _ _ Hok H) as (fields' & Hf' & Hcls & _ & Hset & _).
      rewrite Hf in Hf'. injection Hf' as <-.
      destruct (Hset name _ fd Hget Hfd) as (bs & Hbs & Hslot).
      rewrite Hty in Hbs. rewrite Hbs0 in Hbs. injection Hbs as <-.
      exists (map (wrap c) zs). split; [apply wraps_to_map|].
      rewrite (getattr_field host r name fd) by (rewrite Hcls; exact Hfd).
      rewrite Hslot, Hty, Hget0. reflexivity.
  - intros Hlen.
    assert (Hfill : cdata_set host (CArray (CSimple c sw) len) (PyTuple (map PyInt zs))
                    = Raise RuntimeError_ctypes).
    { change (cdata_set host (CArray (CSimple c sw) len) (PyTuple (map PyInt zs)))
        with (as_runtime_error
                (array_fill (cdata_set host (CSimple c sw)) (sizeof (CSimple c sw))
                   (map PyInt zs) len)).
      destruct (array_fill (cdata_set host (CSimple c sw)) (sizeof (CSimple c sw))
                  (map PyInt zs) len) as [bs|e] eqn:E; cbn [as_runtime_error];
        [|reflexivity].
      exfalso.
      assert (Hacc : (length (map PyInt zs) <=? len)%nat
                     && forallb (accepts (CSimple c sw)) (map PyInt zs) = true).
      { apply (array_fill_accepts (cdata_set host (CSimple c sw)) (accepts (CSimple c sw))
                 (sizeof (CSimple c sw)) (map PyInt zs) len).
        - intros v _. apply cdata_set_accepts.
        - exists bs. exact E. }
      apply Bool.andb_true_iff in Hacc. destruct Hacc as [Hle _].
      apply Nat.leb_le in Hle. rewrite length_map in Hle. lia. }
    split; [|split].
    + intros Hne. unfold construct, TCStruct_init. rewrite (Hself Hne).
      cbn [ob_type new_instance]. rewrite Hf. cbn [bind]. rewrite combine_nil_r.
      cbn [dict_update fold_left dict_keys map keys_inter filter dict_setitem fst snd
           Struct_init].
      cbn [fold_left dict_setitem fst snd Struct_init mem_string existsb].
      unfold setattr, new_instance. cbn [ob_type]. rewrite Hfd, Hty, Hfill. reflexivity.
    + intros ->. reflexivity.
    + intros args kwargs r Hget H.
      destruct (construct_spec host _ _ _ _ _ Hok H) as (fields' & Hf' & _ & _ & Hset & _).
      rewrite Hf in Hf'. injection Hf' as <-.
      destruct (Hset name _ fd Hget Hfd) as (bs & Hbs & _).
      rewrite Hty, Hfill in Hbs. discriminate.
Qed.

Lemma array_field_items_witness :
  layout_ok (MyStruct little big) /\
  public_fields (MyStruct little big) = true /\
  class_fields (MyStruct_heap little big) (MyStruct little big)
  = OK (deref (MyStruct_heap little big) 1%nat) /\
  find_descr (MyStruct little big) "version"%string
  = Some {| f_offset := 4; f_type := CArray (CSimple c_uint8 false) 4 |} /\
  c_is_float c_uint8 = false /\
  (exists r, construct little (MyStruct_heap little big) (MyStruct little big) []
               [("version"%string, PyTuple (map PyInt [1; 4000]))] = OK r) /\
  construct little (MyStruct_heap little big) (MyStruct little big) []
    [("version"%string, PyTuple (map PyInt [1; 2; 3; 4; 5]))]
  = Raise RuntimeError_ctypes.
Proof.
  assert (Hok : layout_ok (MyStruct little big)) by (unfold layout_ok; vm_compute; lia).
  split; [exact Hok|]. split; [reflexivity|]. split; [reflexivity|].
  split; [reflexivity|]. split; [reflexivity|].
  split.
  - apply (proj1 (proj1 (array_field_items little (MyStruct_heap little big)
                           (MyStruct little big)
                           _ "version"%string _ c_uint8 false 4%nat [1; 4000]
                           Hok eq_refl eq_refl eq_refl eq_refl eq_refl)
                    ltac:(cbn; lia))).
    discriminate.
  - apply (proj1 (proj2 (array_field_items little (MyStruct_heap little big)
                           (MyStruct little big)
                           _ "version"%string _ c_uint8 false 4%nat [1; 2; 3; 4; 5]
                           Hok eq_refl eq_refl eq_refl eq_refl eq_refl)
                    ltac:(cbn; lia))).
    discriminate.
Defined.

(** ** Every class a module can declare is in good standing *)





